(** * Tract-index aggregation and merge pipeline

    A shallow embedding of the index-generation routes of [app.py] (the
    object-storage deployment) and [data/app_local.py] (the local-file
    variant), and the properties of the aggregation, merge and registry
    steps.

    Modelling conventions.
    - A numeric cell is [option fnum]: [None] is SQL NULL / a pandas missing
      value, [Some x] a DOUBLE.  A finite DOUBLE is an exact rational;
      rounding to binary64 / float32 is not modelled.  The IEEE special
      values (the two infinities and NaN) are kept, since the code tests for
      them.
    - A data frame is a list of column labels and a list of rows; the
      geometry column is carried as a label only.
    - pandas' text-to-number conversion ([pd.to_numeric] on strings) is a
      parameter [parse_number]; [parse_decimal] is the instance used on
      concrete inputs.  Integers are unbounded: the range of Int64 is not
      modelled.
    - The result of [GROUP BY] lists each key once, in an order fixed by
      the rows; SQL leaves the order open.
    - Index names are ASCII.
    - Reprojection and serialisation of a frame that has its geometry
      column succeed. *)

From Stdlib Require Import ZArith QArith Qcanon List Ascii String Lia Bool.
From stdpp Require Import gmap strings pretty.
Import ListNotations.

Local Open Scope Z_scope.
Local Open Scope string_scope.
Local Open Scope list_scope.

(** ** Numbers *)

Inductive fnum : Type :=
| Fin (q : Qc)
| PInf
| NInf
| NaN.

(** [None] is NULL (DuckDB) or a missing value (pandas). *)
Definition cell : Type := option fnum.

Definition Qc_of_Z (z : Z) : Qc := Q2Qc (inject_Z z).

Definition fnum_eqb (a b : fnum) : bool :=
  match a, b with
  | Fin p, Fin q => if Qc_eq_dec p q then true else false
  | PInf, PInf => true
  | NInf, NInf => true
  | _, _ => false
  end.

(** Sign of a finite value: [Lt], [Eq] or [Gt] against zero. *)
Definition Qc_sign (q : Qc) : comparison := (q ?= Q2Qc 0)%Qc.

(** DOUBLE addition. *)
Definition fadd (a b : fnum) : fnum :=
  match a, b with
  | NaN, _ | _, NaN => NaN
  | Fin p, Fin q => Fin (p + q)%Qc
  | PInf, NInf | NInf, PInf => NaN
  | PInf, _ | _, PInf => PInf
  | NInf, _ | _, NInf => NInf
  end.

Definition inf_of_sign (c : comparison) : fnum :=
  match c with
  | Gt => PInf
  | Lt => NInf
  | Eq => NaN
  end.

Definition fneg_sign (c : comparison) : comparison := CompOpp c.

(** DOUBLE multiplication. *)
Definition fmul (a b : fnum) : fnum :=
  match a, b with
  | NaN, _ | _, NaN => NaN
  | Fin p, Fin q => Fin (p * q)%Qc
  | PInf, Fin q | Fin q, PInf => inf_of_sign (Qc_sign q)
  | NInf, Fin q | Fin q, NInf => inf_of_sign (fneg_sign (Qc_sign q))
  | PInf, PInf | NInf, NInf => PInf
  | PInf, NInf | NInf, PInf => NInf
  end.

(** Division by a positive count ([num_vars], or the number of non-missing
    values of a row). *)
Definition fdiv_count (a : fnum) (n : nat) : fnum :=
  match a with
  | Fin p => Fin (p / Qc_of_Z (Z.of_nat n))%Qc
  | other => other
  end.

Definition hundred : fnum := Fin (Qc_of_Z 100).


(** ** Text helpers *)

(** [str.isspace] on the ASCII range; also the class [\s] of [re]. *)
Definition is_space (c : ascii) : bool :=
  let n := nat_of_ascii c in
  ((9 <=? n)%nat && (n <=? 13)%nat) || ((28 <=? n)%nat && (n <=? 32)%nat).

(** The class [\w] of [re] on the ASCII range. *)
Definition is_word (c : ascii) : bool :=
  let n := nat_of_ascii c in
  ((48 <=? n)%nat && (n <=? 57)%nat) || ((65 <=? n)%nat && (n <=? 90)%nat)
  || ((97 <=? n)%nat && (n <=? 122)%nat) || (n =? 95)%nat.

Fixpoint lstrip (l : list ascii) : list ascii :=
  match l with
  | c :: l' => if is_space c then lstrip l' else l
  | [] => []
  end.

(** [s.strip()] *)
Definition strip (s : string) : string :=
  string_of_list_ascii
    (rev (lstrip (rev (lstrip (list_ascii_of_string s))))).

(** [re.sub(r'\s+', '_', s)]: every maximal run of whitespace becomes one
    underscore.  [in_run] tells whether the previous character was
    whitespace. *)
Fixpoint sub_spaces (in_run : bool) (l : list ascii) : list ascii :=
  match l with
  | [] => []
  | c :: l' =>
      if is_space c
      then (if in_run then sub_spaces true l' else "_"%char :: sub_spaces true l')
      else c :: sub_spaces false l'
  end.

(** [re.sub(r'[^\w_]', '', re.sub(r'\s+', '_', name))] *)
Definition clean_index_name (name : string) : string :=
  string_of_list_ascii
    (List.filter is_word (sub_spaces false (list_ascii_of_string name))).

(** [name.replace(' ', '')] *)
Definition clean_col_name (name : string) : string :=
  string_of_list_ascii
    (List.filter (fun c => negb (Ascii.eqb c " "%char)) (list_ascii_of_string name)).

Definition str_in (x : string) (l : list string) : bool :=
  existsb (String.eqb x) l.

(** [', '.join(l)] *)
Fixpoint join_comma (l : list string) : string :=
  match l with
  | [] => ""
  | [x] => x
  | x :: l' => x +:+ ", " +:+ join_comma l'
  end.

Fixpoint insert_sorted (x : string) (l : list string) : list string :=
  match l with
  | [] => [x]
  | y :: l' => if String.leb x y then x :: l else y :: insert_sorted x l'
  end.

(** [sorted(list(set(l)))] *)
Definition sorted_set (l : list string) : list string :=
  fold_right insert_sorted [] (nodup string_dec l).

(** A parser for signed decimal integer literals, the instance of
    [parse_number] used on concrete inputs. *)
Definition digit_of (c : ascii) : option Z :=
  let n := nat_of_ascii c in
  if ((48 <=? n)%nat && (n <=? 57)%nat) then Some (Z.of_nat n - 48) else None.

Fixpoint parse_digits (acc : Z) (l : list ascii) : option Z :=
  match l with
  | [] => Some acc
  | c :: l' =>
      match digit_of c with
      | Some d => parse_digits (10 * acc + d) l'
      | None => None
      end
  end.

Definition parse_decimal (s : string) : option Qc :=
  match list_ascii_of_string s with
  | [] => None
  | "-"%char :: ((_ :: _) as digits) =>
      option_map (fun z => Qc_of_Z (- z)) (parse_digits 0 digits)
  | l => option_map Qc_of_Z (parse_digits 0 l)
  end.

(** ** Tract keys *)

(** A tract identifier as it arrives from a file: integer, float, text or
    missing. *)
Inductive raw_key : Type :=
| KInt (z : Z)
| KFloat (q : Qc)
| KStr (s : string)
| KNull.

Global Instance raw_key_eq_dec : EqDecision raw_key.
Proof.
  intros a b. unfold Decision.
  decide equality; first [apply Z.eq_dec | apply Qc_eq_dec | apply string_dec].
Defined.

(** What [astype(str)] writes for a missing nullable integer. *)
Definition NA_str : string := "<NA>".

(** The characters of the text of an integer: digits and the sign. *)
Definition key_char (c : ascii) : bool :=
  let n := nat_of_ascii c in
  ((48 <=? n)%nat && (n <=? 57)%nat) || (n =? 45)%nat.

Definition is_integral (q : Qc) : bool := Pos.eqb (Qden q) 1.

(** Integer part, rounding toward zero. *)
Definition Qc_trunc (q : Qc) : Z := Z.quot (Qnum q) (Zpos (Qden q)).

(** [astype(pd.Int64Dtype())]: a float column converts only when every
    value present is integral; [None] is the [TypeError]. *)
Definition astype_Int64 (col : list (option Qc)) : option (list (option Z)) :=
  if forallb (fun o => match o with Some q => is_integral q | None => true end) col
  then Some (List.map (option_map Qc_trunc) col)
  else None.

(** [.astype(str).str.strip()] on a nullable integer column. *)
Definition astype_str_strip (col : list (option Z)) : list string :=
  List.map (fun o => strip (match o with Some z => pretty z | None => NA_str end)) col.

(** ** Data frames *)

(** A row of the Base Geo Table: its tract key and its attribute cells. *)
Record grow : Type := mk_grow {
  g_tract : string;
  g_cells : list (string * cell)
}.

Record GeoDataFrame : Type := mk_gdf {
  gdf_columns : list string;
  gdf_rows : list grow
}.

(** A row of the Visitation Table, with keys of type [K]. *)
Record vrow (K : Type) : Type := mk_vrow {
  v_tract : K;
  v_cells : list (string * cell)
}.
Arguments mk_vrow {K} _ _.
Arguments v_tract {K} _.
Arguments v_cells {K} _.

Record DataFrame (K : Type) : Type := mk_df {
  df_columns : list string;
  df_rows : list (vrow K)
}.
Arguments mk_df {K} _ _.
Arguments df_columns {K} _.
Arguments df_rows {K} _.

Fixpoint lookup_cell (c : string) (l : list (string * cell)) : cell :=
  match l with
  | [] => None
  | (k, v) :: l' => if String.eqb c k then v else lookup_cell c l'
  end.

(** pandas has one missing marker for floats: NaN is missing. *)
Definition to_pandas (c : cell) : cell :=
  match c with
  | Some NaN => None
  | _ => c
  end.

(** [gdf.drop(columns=[c])] *)
Definition drop_column (c : string) (g : GeoDataFrame) : GeoDataFrame :=
  {| gdf_columns := List.filter (fun k => negb (String.eqb c k)) (gdf_columns g);
     gdf_rows :=
       List.map
         (fun r => {| g_tract := g_tract r;
                      g_cells := List.filter (fun kv => negb (String.eqb c (fst kv))) (g_cells r) |})
         (gdf_rows g) |}.

Definition add_cell (c : string) (v : cell) (r : grow) : grow :=
  {| g_tract := g_tract r; g_cells := g_cells r ++ [(c, v)] |}.

(** [gdf[c] = values] for a label [c] that is not yet a column; [values]
    is aligned with the rows. *)
Definition assign_column (c : string) (values : list cell) (g : GeoDataFrame)
  : GeoDataFrame :=
  {| gdf_columns := gdf_columns g ++ [c];
     gdf_rows := List.map (fun rv => add_cell c (snd rv) (fst rv))
                          (combine (gdf_rows g) values) |}.

(** [gdf[cols]] *)
Definition select_columns (cols : list string) (g : GeoDataFrame) : GeoDataFrame :=
  {| gdf_columns := cols;
     gdf_rows :=
       List.map
         (fun r => {| g_tract := g_tract r;
                      g_cells := List.map (fun c => (c, lookup_cell c (g_cells r)))
                                   (List.filter (fun c => negb (str_in c ["Origin_tract"; "geometry"])) cols) |})
         (gdf_rows g) |}.

(** The column of [c] as a list of cells, one per row. *)
Definition column_values (c : string) (g : GeoDataFrame) : list cell :=
  List.map (fun r => lookup_cell c (g_cells r)) (gdf_rows g).

(** ** Aggregation engine *)

(** *** Weighted sum: the DuckDB query *)

(** NULL-propagating [*] and [+] of SQL. *)
Definition sql_mul (a b : cell) : cell :=
  match a, b with
  | Some x, Some y => Some (fmul x y)
  | _, _ => None
  end.

Definition sql_add (a b : cell) : cell :=
  match a, b with
  | Some x, Some y => Some (fadd x y)
  | _, _ => None
  end.

(** ["col"::DOUBLE * "perc_visit"::DOUBLE] *)
Definition weighted_term (r : list (string * cell)) (col : string) : cell :=
  sql_mul (lookup_cell col r) (lookup_cell "perc_visit" r).

(** [" + ".join(weighted_sum_expr_parts)], evaluated on one row. *)
Definition weighted_sum_sql (cols : list string) (r : list (string * cell)) : cell :=
  match cols with
  | [] => None
  | c :: cs => fold_left (fun acc col => sql_add acc (weighted_term r col)) cs (weighted_term r c)
  end.

(** [WHERE "perc_visit" IS NOT NULL AND "perc_visit" != 0] *)
Definition where_clause (r : list (string * cell)) : bool :=
  match lookup_cell "perc_visit" r with
  | None => false
  | Some w => negb (fnum_eqb w (Fin (Qc_of_Z 0)))
  end.

(** The aggregate [SUM]: NULL inputs are skipped, and the sum of no value
    is NULL. *)
Definition sum_step (acc v : cell) : cell :=
  match v with
  | None => acc
  | Some x => match acc with
              | None => Some x
              | Some a => Some (fadd a x)
              end
  end.

Definition sql_sum (vals : list cell) : cell := fold_left sum_step vals None.

Section Query.
Context {K : Type} `{EqDecision K}.

Definition rows_of_group (k : K) (rows : list (vrow K)) : list (vrow K) :=
  List.filter (fun r => bool_decide (v_tract r = k)) rows.

(** [SELECT "Origin_tract", SUM(...) AS total_weighted_sum FROM ...
    WHERE ... GROUP BY "Origin_tract"]: one result row per key that has
    a row passing the [WHERE] clause. *)
Definition weighted_sum_query (cols : list string) (rows : list (vrow K))
  : list (K * cell) :=
  let kept := List.filter (fun r => where_clause (v_cells r)) rows in
  List.map
    (fun k => (k, sql_sum (List.map (fun r => weighted_sum_sql cols (v_cells r))
                                    (rows_of_group k kept))))
    (remove_dups (List.map v_tract kept)).
End Query.

(** [.replace([np.inf, -np.inf], np.nan)] on what [fetchdf] returned. *)
Definition replace_inf (c : cell) : cell :=
  match to_pandas c with
  | Some PInf | Some NInf => None
  | other => other
  end.

(** [(total_sum / num_vars * 100.0)] *)
Definition final_index_value (num_vars : nat) (total_weighted_sum : cell) : cell :=
  match replace_inf total_weighted_sum with
  | None => None
  | Some x => to_pandas (Some (fmul (fdiv_count x num_vars) hundred))
  end.

(** *** Unweighted mean *)

Definition present_values (vals : list cell) : list fnum :=
  omap to_pandas vals.

(** [mean(axis=1, skipna=True)] on one row. *)
Definition mean_skipna (vals : list cell) : cell :=
  match present_values vals with
  | [] => None
  | x :: xs => to_pandas (Some (fdiv_count (fold_left fadd xs x) (S (length xs))))
  end.

(** [gdf[cols].mean(axis=1, skipna=True) * 100.0], one value per row. *)
Definition residential_values (cols : list string) (g : GeoDataFrame) : list cell :=
  List.map
    (fun r =>
       match mean_skipna (List.map (fun c => lookup_cell c (g_cells r)) cols) with
       | None => None
       | Some m => to_pandas (Some (fmul m hundred))
       end)
    (gdf_rows g).

(** ** Merge *)

(** [left.merge(right, on="Origin_tract", how="left")] where [right] has
    the key and one value column [c]: the left rows in order, each once
    per matching right row, or once with a missing value when nothing
    matches. *)
Definition merge_row (c : string) (right : list (string * cell)) (r : grow)
  : list grow :=
  match List.filter (fun kv => String.eqb (fst kv) (g_tract r)) right with
  | [] => [add_cell c None r]
  | ms => List.map (fun kv => add_cell c (snd kv) r) ms
  end.

Definition merge_left (c : string) (g : GeoDataFrame) (right : list (string * cell))
  : GeoDataFrame :=
  {| gdf_columns := gdf_columns g ++ [c];
     gdf_rows := flat_map (merge_row c right) (gdf_rows g) |}.

(** ** Tract-Key Normalizer *)

Section Normalizer.
(** [pd.to_numeric] on one text value; [None] when the text is not a
    number. *)
Variable parse_number : string -> option Qc.

(** [pd.to_numeric(col, errors='coerce')] on one value. *)
Definition to_numeric_coerce (k : raw_key) : option Qc :=
  match k with
  | KInt z => Some (Qc_of_Z z)
  | KFloat q => Some q
  | KStr s => parse_number s
  | KNull => None
  end.

(** The conversion of [app.py]: numeric, then nullable integer (the
    fallback after a [TypeError] repeats the same cast), then text.
    [None] is the exception that leaves the [try] block. *)
Definition robust_tract_conversion (col : list raw_key) : option (list string) :=
  let numeric_tracts := List.map to_numeric_coerce col in
  let int_tracts :=
    match astype_Int64 numeric_tracts with
    | Some ints => Some ints
    | None => astype_Int64 numeric_tracts
    end in
  option_map astype_str_strip int_tracts.

(** The conversion of [app_local.py]: after a [TypeError] the fallback is
    [fillna(0).astype(np.int64)]. *)
Definition robust_tract_conversion_local (col : list raw_key) : list string :=
  let numeric_tracts := List.map to_numeric_coerce col in
  let int_tracts :=
    match astype_Int64 numeric_tracts with
    | Some ints => ints
    | None =>
        List.map (fun o => Some (Qc_trunc (default (Qc_of_Z 0) o))) numeric_tracts
    end in
  astype_str_strip int_tracts.

(** The key one value gets when the column converts. *)
Definition normalize_key (k : raw_key) : string :=
  strip (match to_numeric_coerce k with
         | Some q => pretty (Qc_trunc q)
         | None => NA_str
         end).
End Normalizer.

(** ** Variable catalog *)

Definition valid_index_variables_for_selection : list string :=
  sorted_set
    [ "no_high_school_ed"; "no_high_school_rate"; "no_car_rate"; "total_no_work_rate";
      "poverty_rate"; "renter_rate"; "total_no_ins_rate"; "sdwalk_length_m";
      "bik_length_m"; "park_area"; "sidewalk_per_cap"; "park_per_cap";
      "bike_per_cap"; "healthy_retailer"; "pharma"; "clinic"; "healthy_ret_cap";
      "pharma_cap"; "clinic_cap"; "PRE1960PCT"; "OZONE"; "PM25"; "PNPL"; "PRMP";
      "PTSDF"; "DSLPM"; "unhealthy_ret_cap"; "liq_tab_cap"; "food_retailer_cap" ].

Definition variable_name_map_js_to_backend : list (string * string) :=
  List.map (fun var => (var, clean_col_name var)) valid_index_variables_for_selection.

(** [d.get(key)] *)
Fixpoint dict_get (key : string) (d : list (string * string)) : option string :=
  match d with
  | [] => None
  | (k, v) :: d' => if String.eqb key k then Some v else dict_get key d'
  end.

(** ** Requests and responses *)

(** The JSON body [{name, variables}]; a key may be absent. *)
Record request : Type := mk_request {
  req_name : option string;
  req_variables : option (list string)
}.

Inductive response : Type :=
| Json (doc : GeoDataFrame)
| JsonNames (names : list string)
| Error (status : nat) (message : string).

Definition status_of (r : response) : nat :=
  match r with
  | Json _ | JsonNames _ => 200%nat
  | Error status _ => status
  end.

(** [l.remove(x)]: the first occurrence goes. *)
Fixpoint list_remove (x : string) (l : list string) : list string :=
  match l with
  | [] => []
  | y :: l' => if String.eqb x y then l' else y :: list_remove x l'
  end.

(** The name loop shared by the two activity routes:
    [(selected_vars_backend, invalid_vars_received,
      required_zscore_d_cols_for_request)]. *)
Fixpoint resolve_activity (selected_vars_js : list string)
  : list string * list string * list string :=
  match selected_vars_js with
  | [] => ([], [], [])
  | var_js :: rest =>
      let '(sel, inv, req) := resolve_activity rest in
      match dict_get var_js variable_name_map_js_to_backend with
      | Some backend_name =>
          if String.eqb backend_name "" then (sel, var_js :: inv, req)
          else (backend_name :: sel, inv, (backend_name +:+ "_zscore_d") :: req)
      | None => (sel, var_js :: inv, req)
      end
  end.

Definition row_count_warning : string := "WARNING: Row count changed after merge!".

(** The merge block of [generate_activity_index] in [app.py], after the
    drop of an existing column: the merged frame (already assigned to
    [global_gdf]), the exception raised if any, and the warnings printed. *)
Definition merge_checked (index_col_name : string) (g : GeoDataFrame)
    (index_to_merge : list (string * cell))
  : GeoDataFrame * option string * list string :=
  let original_rows := length (gdf_rows g) in
  let merged := merge_left index_col_name g index_to_merge in
  let warnings :=
    if (length (gdf_rows merged) =? original_rows)%nat then [] else [row_count_warning] in
  if str_in index_col_name (gdf_columns merged)
  then (merged, None, warnings)
  else (merged, Some ("Column '" +:+ index_col_name +:+ "' missing after merge."), warnings).

(** The merge block of [generate_index] in [app_local.py]:
    [original_rows] is computed and not compared. *)
Definition merge_checked_local (index_col_name : string) (g : GeoDataFrame)
    (index_to_merge : list (string * cell))
  : GeoDataFrame + string :=
  let original_rows := length (gdf_rows g) in
  let merged_gdf := merge_left index_col_name g index_to_merge in
  if str_in index_col_name (gdf_columns merged_gdf)
  then inl merged_gdf
  else inr ("Column '" +:+ index_col_name +:+ "' missing after merge.").

(** The checks on the JSON body shared by the four generation routes:
    the error message of the first failing check, or
    [(cleaned_base_name, selected_vars_js)].  The body [None] is a body
    that is absent or empty. *)
Definition validate_inputs (invalid_request invalid_name : string) (body : option request)
  : string + (string * list string) :=
  match body with
  | None => inl invalid_request
  | Some data =>
      let base_name_from_user := strip (default "" (req_name data)) in
      let selected_vars_js := default [] (req_variables data) in
      if String.eqb base_name_from_user "" then inl "Index name required."
      else match selected_vars_js with
      | [] => inl "No variables selected."
      | _ =>
          let cleaned_base_name := clean_index_name base_name_from_user in
          if String.eqb cleaned_base_name "" then inl invalid_name
          else inr (cleaned_base_name, selected_vars_js)
      end
  end.

(** ** The routes of [app.py] *)

Module App.

Record state : Type := mk_state {
  global_gdf : option GeoDataFrame;
  parquet_df : option (DataFrame string);
  generated_index_columns : gset string;
  available_geojson_columns : list string;
  verified_frontend_cols : list string;
  available_residential_vars_js : list string
}.

Definition set_gdf (g : GeoDataFrame) (s : state) : state :=
  {| global_gdf := Some g;
     parquet_df := parquet_df s;
     generated_index_columns := generated_index_columns s;
     available_geojson_columns := available_geojson_columns s;
     verified_frontend_cols := verified_frontend_cols s;
     available_residential_vars_js := available_residential_vars_js s |}.

(** The updates made when an existing column is dropped. *)
Definition unregister (c : string) (s : state) : state :=
  {| global_gdf := global_gdf s;
     parquet_df := parquet_df s;
     generated_index_columns := generated_index_columns s ∖ {[ c ]};
     available_geojson_columns :=
       if str_in c (available_geojson_columns s)
       then list_remove c (available_geojson_columns s)
       else available_geojson_columns s;
     verified_frontend_cols := verified_frontend_cols s;
     available_residential_vars_js := available_residential_vars_js s |}.

(** The updates made after a column was attached. *)
Definition register (c : string) (s : state) : state :=
  {| global_gdf := global_gdf s;
     parquet_df := parquet_df s;
     generated_index_columns := {[ c ]} ∪ generated_index_columns s;
     available_geojson_columns :=
       if str_in c (available_geojson_columns s)
       then available_geojson_columns s
       else available_geojson_columns s ++ [c];
     verified_frontend_cols := verified_frontend_cols s;
     available_residential_vars_js := available_residential_vars_js s |}.

Definition get_columns_for_frontend (s : state) : list string :=
  match global_gdf s with
  | None => []
  | Some g =>
      let current_gdf_cols := gdf_columns g in
      let cols_to_send :=
        verified_frontend_cols s
        ++ ["Origin_tract"; "geometry"; "COUNTYFP"; "population_x_o"; "race"]
        ++ List.filter (fun idx_col => str_in idx_col current_gdf_cols)
             (elements (generated_index_columns s)) in
      sorted_set (List.filter (fun c => str_in c current_gdf_cols) cols_to_send)
  end.

(** [/geojson] *)
Definition geojson (s : state) : response :=
  match global_gdf s with
  | None => Error 503 "Map data not loaded on server."
  | Some g =>
      let cols_to_send := get_columns_for_frontend s in
      if negb (str_in "geometry" cols_to_send)
      then Error 500 "Internal error preparing map data (geometry missing)."
      else Json (select_columns cols_to_send g)
  end.

(** [/get_index_fields] *)
Definition get_index_fields (s : state) : response :=
  JsonNames valid_index_variables_for_selection.

(** The last block of both generation routes: the snapshot sent back.
    [to_crs] needs the geometry column, and the route reads the new
    column from the snapshot. *)
Definition send_updated (require_geometry : bool) (index_col_name message : string)
    (s : state) : response :=
  match global_gdf s with
  | None => Error 500 "Internal error selecting columns for response."
  | Some g =>
      let cols_to_send := get_columns_for_frontend s in
      match cols_to_send with
      | [] => Error 500 "Internal error selecting columns for response."
      | _ =>
          if require_geometry && negb (str_in "geometry" cols_to_send)
          then Error 500 "Internal error selecting columns for response."
          else if str_in index_col_name cols_to_send && str_in "geometry" cols_to_send
          then Json (select_columns cols_to_send g)
          else Error 500 message
      end
  end.

(** The drop of a column of the same name, with its registry entry. *)
Definition drop_existing (index_col_name : string) (gdf : GeoDataFrame) (s : state)
  : GeoDataFrame * state :=
  if str_in index_col_name (gdf_columns gdf)
  then let gdf1 := drop_column index_col_name gdf in
       (gdf1, unregister index_col_name (set_gdf gdf1 s))
  else (gdf, s).

Section Routes.
Variable parse_number : string -> option Qc.

(** DuckDB scans the pandas frame: NaN arrives as NULL. *)
Definition scan_pandas (df : DataFrame string) : list (vrow string) :=
  List.map
    (fun r => {| v_tract := v_tract r;
                 v_cells := List.map (fun kv => (fst kv, to_pandas (snd kv))) (v_cells r) |})
    (df_rows df).

(** From the query result to [index_to_merge]: keys normalised, value
    column computed.  [None] is the failure of the key conversion. *)
Definition index_to_merge_of (num_vars : nat) (index_by_tract_df : list (string * cell))
  : option (list (string * cell)) :=
  match robust_tract_conversion parse_number
          (List.map (fun kv => KStr (fst kv)) index_by_tract_df) with
  | None => None
  | Some keys =>
      Some (combine keys
              (List.map (fun kv => final_index_value num_vars (snd kv)) index_by_tract_df))
  end.

(** [generate_activity_index] up to [index_to_merge]: nothing is
    written before this point.  The result is the error response, or
    [(index_col_name, index_to_merge)]. *)
Definition prepare_activity_index (pq : DataFrame string) (body : option request)
  : response + (string * list (string * cell)) :=
  match validate_inputs "Invalid request data." "Invalid index name after cleaning." body with
  | inl message => inl (Error 400 message)
  | inr (cleaned_base_name, selected_vars_js) =>
    let index_col_name := cleaned_base_name +:+ "_ACT" in
    let '(selected_vars_backend, invalid_vars_received, required_zscore_d_cols_for_request) :=
      resolve_activity selected_vars_js in
    match selected_vars_backend with
    | [] => inl (Error 400 "No valid variables selected.")
    | _ =>
      let missing_parquet_cols :=
        List.filter (fun col => negb (str_in col (df_columns pq)))
          required_zscore_d_cols_for_request in
      match missing_parquet_cols with
      | _ :: _ =>
          inl (Error 400 ("Required data columns missing from source: "
                          +:+ join_comma missing_parquet_cols))
      | [] =>
        if negb (str_in "perc_visit" (df_columns pq))
        then inl (Error 400 "Required data column 'perc_visit' missing from source.")
        else
        let index_by_tract_df :=
          weighted_sum_query required_zscore_d_cols_for_request (scan_pandas pq) in
        let num_vars := length selected_vars_backend in
        match index_to_merge_of num_vars index_by_tract_df with
        | None => inl (Error 500 "Failed post-processing tract IDs.")
        | Some index_to_merge => inr (index_col_name, index_to_merge)
        end
      end
    end
  end.

(** The rest of [generate_activity_index]: drop, merge, register,
    send. *)
Definition merge_and_send (s : state) (gdf : GeoDataFrame) (index_col_name : string)
    (index_to_merge : list (string * cell)) : response * state :=
  let '(gdf1, s1) := drop_existing index_col_name gdf s in
  let '(merged, e_merge, _) := merge_checked index_col_name gdf1 index_to_merge in
  match e_merge with
  | Some e => (Error 500 ("Failed to merge index results: " +:+ e), set_gdf merged s1)
  | None =>
      let s2 := register index_col_name (set_gdf merged s1) in
      (send_updated false index_col_name "Failed to format final data" s2, s2)
  end.

(** [/generate_index] *)
Definition generate_activity_index (s : state) (body : option request)
  : response * state :=
  match global_gdf s, parquet_df s with
  | None, None => (Error 503 "Required data not loaded: GeoJSON Parquet", s)
  | None, Some _ => (Error 503 "Required data not loaded: GeoJSON", s)
  | Some _, None => (Error 503 "Required data not loaded: Parquet", s)
  | Some gdf, Some pq =>
      match prepare_activity_index pq body with
      | inl error => (error, s)
      | inr (index_col_name, index_to_merge) =>
          merge_and_send s gdf index_col_name index_to_merge
      end
  end.

(** The name loop of the residential route:
    [(required_zscore_o_cols, invalid_vars_for_residential)]. *)
Fixpoint resolve_residential (available : list string) (selected_vars_js : list string)
  : list string * list string :=
  match selected_vars_js with
  | [] => ([], [])
  | var_js :: rest =>
      let '(req, inv) := resolve_residential available rest in
      match dict_get var_js variable_name_map_js_to_backend with
      | Some backend_name =>
          if String.eqb backend_name "" then (req, inv)
          else
            let zscore_col := backend_name +:+ "_zscore_o" in
            if str_in zscore_col available then (zscore_col :: req, inv)
            else (req, var_js :: inv)
      | None => (req, inv)
      end
  end.

(** [generate_residential_index] up to [index_values]: the error
    response, or [(index_col_name, cols_to_average, index_values)]. *)
Definition prepare_residential_index (s : state) (gdf : GeoDataFrame)
    (body : option request) : response + (string * list string * list cell) :=
  match validate_inputs "Invalid request." "Invalid index name." body with
  | inl message => inl (Error 400 message)
  | inr (cleaned_base_name, selected_vars_js) =>
    let index_col_name := cleaned_base_name +:+ "_RES" in
    let '(required_zscore_o_cols, invalid_vars_for_residential) :=
      resolve_residential (available_geojson_columns s) selected_vars_js in
    match required_zscore_o_cols with
    | [] =>
        let error_msg := "None of the selected variables have required data (_zscore_o columns) available in the map data." in
        inl (Error 400 (match invalid_vars_for_residential with
                        | [] => error_msg
                        | _ => error_msg +:+ " (Missing data for: "
                               +:+ join_comma invalid_vars_for_residential +:+ ")"
                        end))
    | _ =>
      let cols_to_average :=
        List.filter (fun col => str_in col (gdf_columns gdf)) required_zscore_o_cols in
      match cols_to_average with
      | [] => inl (Error 500 "No valid columns found in GeoDataFrame for averaging.")
      | _ => inr (index_col_name, cols_to_average, residential_values cols_to_average gdf)
      end
    end
  end.

(** The rest of [generate_residential_index]: drop, attach, register,
    send. *)
Definition attach_and_send (s : state) (gdf : GeoDataFrame) (index_col_name : string)
    (index_values : list cell) : response * state :=
  let '(gdf1, s1) := drop_existing index_col_name gdf s in
  let s2 := register index_col_name
              (set_gdf (assign_column index_col_name index_values gdf1) s1) in
  (send_updated true index_col_name "Failed to format final data for residential" s2, s2).

(** [/generate_residential_index] *)
Definition generate_residential_index (s : state) (body : option request)
  : response * state :=
  match global_gdf s with
  | None => (Error 503 "Map data not loaded.", s)
  | Some gdf =>
      match prepare_residential_index s gdf body with
      | inl error => (error, s)
      | inr (index_col_name, _, index_values) =>
          attach_and_send s gdf index_col_name index_values
      end
  end.
End Routes.

End App.

(** ** The routes of [data/app_local.py] *)

Module AppLocal.

Record state : Type := mk_state {
  global_gdf : option GeoDataFrame;
  generated_index_columns : gset string;
  available_geojson_columns : list string;
  verified_frontend_cols : list string;
  available_residential_vars_js : list string
}.

Definition set_gdf (g : GeoDataFrame) (s : state) : state :=
  {| global_gdf := Some g;
     generated_index_columns := generated_index_columns s;
     available_geojson_columns := available_geojson_columns s;
     verified_frontend_cols := verified_frontend_cols s;
     available_residential_vars_js := available_residential_vars_js s |}.

Definition remove_if_in (c : string) (l : list string) : list string :=
  if str_in c l then list_remove c l else l.

Definition unregister (c : string) (s : state) : state :=
  {| global_gdf := global_gdf s;
     generated_index_columns := generated_index_columns s ∖ {[ c ]};
     available_geojson_columns := remove_if_in c (available_geojson_columns s);
     verified_frontend_cols := remove_if_in c (verified_frontend_cols s);
     available_residential_vars_js := available_residential_vars_js s |}.

Definition register (c : string) (s : state) : state :=
  {| global_gdf := global_gdf s;
     generated_index_columns := {[ c ]} ∪ generated_index_columns s;
     available_geojson_columns :=
       if str_in c (available_geojson_columns s)
       then available_geojson_columns s
       else available_geojson_columns s ++ [c];
     verified_frontend_cols := verified_frontend_cols s;
     available_residential_vars_js := available_residential_vars_js s |}.

Definition get_columns_for_frontend (s : state) : list string :=
  match global_gdf s with
  | None => []
  | Some g =>
      let cols_to_send :=
        verified_frontend_cols s
        ++ List.filter (fun idx_col => str_in idx_col (gdf_columns g))
             (elements (generated_index_columns s))
        ++ List.filter (fun essential => str_in essential (gdf_columns g))
             ["Origin_tract"; "geometry"] in
      sorted_set (List.filter (fun c => str_in c (gdf_columns g)) cols_to_send)
  end.

(** [/geojson] *)
Definition geojson (s : state) : response :=
  match global_gdf s with
  | None => Error 500 "Map data not loaded on server. Check server logs."
  | Some g =>
      let cols_to_send := get_columns_for_frontend s in
      if negb (str_in "geometry" cols_to_send)
      then Error 500 "Internal error preparing GeoJSON data for display."
      else Json (select_columns cols_to_send g)
  end.

(** [/get_index_fields] *)
Definition get_index_fields (s : state) : response :=
  JsonNames valid_index_variables_for_selection.

(** The last block of both generation routes.  The residential route
    reads the new column from the snapshot ([read_index_col]); the
    activity route only prints whether it is there. *)
Definition send_updated (read_index_col : bool) (index_col_name message : string)
    (s : state) : response :=
  match global_gdf s with
  | None => Error 500 "Internal error selecting columns."
  | Some g =>
      let cols_to_send := get_columns_for_frontend s in
      if negb (str_in "geometry" cols_to_send)
      then Error 500 "Internal error selecting columns."
      else if read_index_col && negb (str_in index_col_name cols_to_send)
      then Error 500 message
      else Json (select_columns cols_to_send g)
  end.

(** [global_gdf['Origin_tract'] = keys] *)
Definition set_keys (keys : list string) (g : GeoDataFrame) : GeoDataFrame :=
  {| gdf_columns := gdf_columns g;
     gdf_rows := List.map (fun rk => {| g_tract := snd rk; g_cells := g_cells (fst rk) |})
                          (combine (gdf_rows g) keys) |}.

Definition drop_existing (index_col_name : string) (gdf : GeoDataFrame) (s : state)
  : GeoDataFrame * state :=
  if str_in index_col_name (gdf_columns gdf)
  then let gdf1 := drop_column index_col_name gdf in
       (gdf1, unregister index_col_name (set_gdf gdf1 s))
  else (gdf, s).

Section Routes.
Variable parse_number : string -> option Qc.

(** The Parquet file read by the query; [None] when it cannot be read. *)
Variable parquet_file : option (DataFrame raw_key).

(** The main query on the file; [None] is a DuckDB exception. *)
Definition main_query (required_zscore_d_cols_for_request : list string)
  : option (list (raw_key * cell)) :=
  match parquet_file with
  | None => None
  | Some pq =>
      if forallb (fun col => str_in col (df_columns pq))
           ("Origin_tract" :: "perc_visit" :: required_zscore_d_cols_for_request)
      then Some (weighted_sum_query required_zscore_d_cols_for_request (df_rows pq))
      else None
  end.

Definition index_to_merge_of (num_vars : nat) (index_by_tract_df : list (raw_key * cell))
  : list (string * cell) :=
  combine (robust_tract_conversion_local parse_number (List.map fst index_by_tract_df))
          (List.map (fun kv => final_index_value num_vars (snd kv)) index_by_tract_df).

(** [generate_index] up to [index_to_merge]: the error response, or
    [(index_col_name, index_to_merge)]. *)
Definition prepare_index (body : option request)
  : response + (string * list (string * cell)) :=
  match validate_inputs "Invalid request data." "Invalid index name." body with
  | inl message => inl (Error 400 message)
  | inr (cleaned_base_name, selected_vars_js) =>
    let index_col_name := cleaned_base_name +:+ "_ACT" in
    let '(selected_vars_backend, invalid_vars_received, required_zscore_d_cols_for_request) :=
      resolve_activity selected_vars_js in
    match selected_vars_backend with
    | [] => inl (Error 400 "No valid variables selected.")
    | _ =>
      match main_query required_zscore_d_cols_for_request with
      | None => inl (Error 500 "Data query failed during aggregation.")
      | Some index_by_tract_df =>
          inr (index_col_name,
               index_to_merge_of (length selected_vars_backend) index_by_tract_df)
      end
    end
  end.

(** The rest of [generate_index]: drop, key conversion of the base
    table, merge, register, send. *)
Definition merge_and_send (s : state) (gdf : GeoDataFrame) (index_col_name : string)
    (index_to_merge : list (string * cell)) : response * state :=
  let '(gdf1, s1) := drop_existing index_col_name gdf s in
  if negb (str_in "Origin_tract" (gdf_columns gdf1))
  then (Error 500 "Base map missing 'Origin_tract'.", s1)
  else
    let gdf2 :=
      set_keys (robust_tract_conversion_local parse_number
                  (List.map (fun r => KStr (g_tract r)) (gdf_rows gdf1))) gdf1 in
    let s2 := set_gdf gdf2 s1 in
    match merge_checked_local index_col_name gdf2 index_to_merge with
    | inr e_merge1 => (Error 500 ("Merge failed unexpectedly: " +:+ e_merge1), s2)
    | inl merged_gdf =>
        let s3 := register index_col_name (set_gdf merged_gdf s2) in
        (send_updated false index_col_name "Failed to compute activity index" s3, s3)
    end.

(** [/generate_index] *)
Definition generate_index (s : state) (body : option request) : response * state :=
  match global_gdf s with
  | None => (Error 500 "Map data not loaded on server. Check server logs.", s)
  | Some gdf =>
      match prepare_index body with
      | inl error => (error, s)
      | inr (index_col_name, index_to_merge) =>
          merge_and_send s gdf index_col_name index_to_merge
      end
  end.

(** The name loop of the residential route:
    [(required_zscore_o_cols, invalid_vars_for_residential)]. *)
Fixpoint resolve_residential (available_vars_js gdf_cols : list string)
    (selected_vars_js : list string) : list string * list string :=
  match selected_vars_js with
  | [] => ([], [])
  | var_js :: rest =>
      let '(req, inv) := resolve_residential available_vars_js gdf_cols rest in
      match dict_get var_js variable_name_map_js_to_backend with
      | Some backend_name =>
          if String.eqb backend_name "" then (req, inv)
          else if str_in var_js available_vars_js
          then
            let zscore_col := backend_name +:+ "_zscore_o" in
            if str_in zscore_col gdf_cols then (zscore_col :: req, inv)
            else (req, var_js :: inv)
          else (req, var_js :: inv)
      | None => (req, inv)
      end
  end.

Definition prepare_residential_index (s : state) (gdf : GeoDataFrame)
    (body : option request) : response + (string * list string * list cell) :=
  match validate_inputs "Invalid request." "Invalid index name." body with
  | inl message => inl (Error 400 message)
  | inr (cleaned_base_name, selected_vars_js) =>
    let index_col_name := cleaned_base_name +:+ "_RES" in
    let '(required_zscore_o_cols, invalid_vars_for_residential) :=
      resolve_residential (available_residential_vars_js s) (gdf_columns gdf)
        selected_vars_js in
    match required_zscore_o_cols with
    | [] =>
        let error_msg := "None of the selected variables have required data (_zscore_o columns) available." in
        inl (Error 400 (match invalid_vars_for_residential with
                        | [] => error_msg
                        | _ => error_msg +:+ " (Missing data for: "
                               +:+ join_comma invalid_vars_for_residential +:+ ")"
                        end))
    | _ =>
        inr (index_col_name, required_zscore_o_cols,
             residential_values required_zscore_o_cols gdf)
    end
  end.

Definition attach_and_send (s : state) (gdf : GeoDataFrame) (index_col_name : string)
    (index_values : list cell) : response * state :=
  let '(gdf1, s1) := drop_existing index_col_name gdf s in
  let s2 := register index_col_name
              (set_gdf (assign_column index_col_name index_values gdf1) s1) in
  (send_updated true index_col_name "Failed to compute residential index" s2, s2).

(** [/generate_residential_index] *)
Definition generate_residential_index (s : state) (body : option request)
  : response * state :=
  match global_gdf s with
  | None => (Error 500 "Map data not loaded.", s)
  | Some gdf =>
      match prepare_residential_index s gdf body with
      | inl error => (error, s)
      | inr (index_col_name, _, index_values) =>
          attach_and_send s gdf index_col_name index_values
      end
  end.
End Routes.

End AppLocal.

(** ** The statements in the words of the specification *)

Definition Qc_sum (l : list Qc) : Qc := fold_right Qcplus (Qc_of_Z 0) l.


(** "Non-null, non-zero weight". *)
Definition weight_counts (r : list (string * cell)) : Prop :=
  exists w, lookup_cell "perc_visit" r = Some w /\ w <> Fin (Qc_of_Z 0).



(** The non-null values among the selected columns of one tract. *)
Definition spec_non_null (vals : list cell) : list Qc :=
  omap (fun c => match c with Some (Fin q) => Some q | _ => None end) vals.

(** Mean over the non-null values, times 100; null when all are null. *)
Definition spec_mean_index (vals : list cell) : cell :=
  match spec_non_null vals with
  | [] => None
  | qs => Some (Fin (Qc_sum qs / Qc_of_Z (Z.of_nat (length qs)) * Qc_of_Z 100)%Qc)
  end.

(** Every cell of a row carries a label of the frame. *)
Definition wf_gdf (g : GeoDataFrame) : Prop :=
  forall r, In r (gdf_rows g) -> forall kv, In kv (g_cells r) -> In (fst kv) (gdf_columns g).


Global Instance fnum_eq_dec : EqDecision fnum.
Proof.
  intros a b. unfold Decision. decide equality. apply Qc_eq_dec.
Defined.

Global Instance weight_counts_dec (r : list (string * cell)) : Decision (weight_counts r).
Proof.
  unfold weight_counts, Decision.
  destruct (lookup_cell "perc_visit" r) as [w|].
  - destruct (decide (w = Fin (Qc_of_Z 0))) as [Heq | Hne].
    + right. intros [w' [[= <-] Hw]]. now apply Hw.
    + left. now exists w.
  - right. intros [w [Hw _]]. discriminate.
Defined.


(** No cell of the columns [cols] is infinite. *)
Definition no_infinite_cell (cols : list string) (g : GeoDataFrame) : Prop :=
  forall r c, In r (gdf_rows g) -> In c cols ->
              lookup_cell c (g_cells r) <> Some PInf /\ lookup_cell c (g_cells r) <> Some NInf.

(** The cells of one row in the columns [cols]. *)
Definition row_cells (cols : list string) (r : grow) : list cell :=
  List.map (fun c => lookup_cell c (g_cells r)) cols.

(** "The variable list is empty, or the name is missing, empty or
    sanitizes to empty." *)
Definition invalid_request (body : option request) : Prop :=
  match body with
  | None => True
  | Some data =>
      default [] (req_variables data) = []
      \/ req_name data = None
      \/ clean_index_name (strip (default "" (req_name data))) = ""
  end.

(** The keys of the Visitation Table are in the form the load-time
    conversion leaves them in. *)
Definition keys_normalized (parse_number : string -> option Qc) (pq : DataFrame string) : Prop :=
  forall r, In r (df_rows pq) -> normalize_key parse_number (KStr (v_tract r)) = v_tract r.

(** ** Sample data *)

Definition ratio (n : Z) (d : positive) : cell := Some (Fin (Q2Qc (n # d))).

Definition sample_gdf : GeoDataFrame :=
  {| gdf_columns := ["Origin_tract"; "geometry"; "OZONE_zscore_o"; "PM25_zscore_o"];
     gdf_rows :=
       [ {| g_tract := "1"; g_cells := [("OZONE_zscore_o", ratio 1 5); ("PM25_zscore_o", None)] |};
         {| g_tract := "2"; g_cells := [("OZONE_zscore_o", None); ("PM25_zscore_o", None)] |} ] |}.

(** One visitation row: weight 2.0, z-score 1.5. *)
Definition sample_visit : vrow string :=
  {| v_tract := "1";
     v_cells := [("perc_visit", ratio 2 1); ("OZONE_zscore_d", ratio 3 2);
                 ("PM25_zscore_d", None)] |}.

Definition sample_parquet : DataFrame string :=
  {| df_columns := ["Origin_tract"; "perc_visit"; "OZONE_zscore_d"; "PM25_zscore_d"];
     df_rows := [sample_visit] |}.

Definition sample_state : App.state :=
  {| App.global_gdf := Some sample_gdf;
     App.parquet_df := Some sample_parquet;
     App.generated_index_columns := ∅;
     App.available_geojson_columns := gdf_columns sample_gdf;
     App.verified_frontend_cols := ["Origin_tract"; "geometry"];
     App.available_residential_vars_js := ["OZONE"; "PM25"] |}.

Definition sample_request : option request :=
  Some {| req_name := Some "  My Index!! "; req_variables := Some ["OZONE"] |}.

Definition sample_residential_request : option request :=
  Some {| req_name := Some "Home"; req_variables := Some ["OZONE"; "PM25"] |}.

Definition empty_variables_request : option request :=
  Some {| req_name := Some "My Index"; req_variables := Some [] |}.

Definition unloaded_state : App.state :=
  {| App.global_gdf := None;
     App.parquet_df := None;
     App.generated_index_columns := ∅;
     App.available_geojson_columns := [];
     App.verified_frontend_cols := [];
     App.available_residential_vars_js := [] |}.

Definition sample_local_state : AppLocal.state :=
  {| AppLocal.global_gdf := Some sample_gdf;
     AppLocal.generated_index_columns := ∅;
     AppLocal.available_geojson_columns := gdf_columns sample_gdf;
     AppLocal.verified_frontend_cols := ["Origin_tract"; "geometry"];
     AppLocal.available_residential_vars_js := ["OZONE"; "PM25"] |}.

Definition unloaded_local_state : AppLocal.state :=
  {| AppLocal.global_gdf := None;
     AppLocal.generated_index_columns := ∅;
     AppLocal.available_geojson_columns := [];
     AppLocal.verified_frontend_cols := [];
     AppLocal.available_residential_vars_js := [] |}.

(** A Parquet file whose text keys ["1"] and ["01"] name the same tract. *)
Definition duplicate_key_parquet : DataFrame raw_key :=
  {| df_columns := ["Origin_tract"; "perc_visit"; "OZONE_zscore_d"];
     df_rows :=
       [ {| v_tract := KStr "1";
            v_cells := [("perc_visit", ratio 2 1); ("OZONE_zscore_d", ratio 3 2)] |};
         {| v_tract := KStr "01";
            v_cells := [("perc_visit", ratio 1 1); ("OZONE_zscore_d", ratio 1 1)] |} ] |}.




(** A residential z-score that is infinite. *)
Definition infinite_gdf : GeoDataFrame :=
  {| gdf_columns := ["Origin_tract"; "geometry"; "OZONE_zscore_o"];
     gdf_rows := [ {| g_tract := "1"; g_cells := [("OZONE_zscore_o", Some PInf)] |} ] |}.

Definition infinite_state : App.state :=
  {| App.global_gdf := Some infinite_gdf;
     App.parquet_df := None;
     App.generated_index_columns := ∅;
     App.available_geojson_columns := gdf_columns infinite_gdf;
     App.verified_frontend_cols := ["Origin_tract"; "geometry"];
     App.available_residential_vars_js := ["OZONE"] |}.

Definition infinite_local_state : AppLocal.state :=
  {| AppLocal.global_gdf := Some infinite_gdf;
     AppLocal.generated_index_columns := ∅;
     AppLocal.available_geojson_columns := gdf_columns infinite_gdf;
     AppLocal.verified_frontend_cols := ["Origin_tract"; "geometry"];
     AppLocal.available_residential_vars_js := ["OZONE"] |}.

(** The sanitized name a request asks for. *)
Definition index_name_of (body : option request) : string :=
  match body with
  | Some data => clean_index_name (strip (default "" (req_name data)))
  | None => ""
  end.

Definition local_generate : AppLocal.state -> option request -> response * AppLocal.state :=
  AppLocal.generate_index parse_decimal (Some duplicate_key_parquet).

(** The column [c] of the table of an optional frame. *)
Definition column_of (c : string) (g : option GeoDataFrame) : list cell :=
  match g with
  | Some g => column_values c g
  | None => []
  end.

Definition row_count (g : option GeoDataFrame) : nat :=
  match g with
  | Some g => length (gdf_rows g)
  | None => 0%nat
  end.

(** ** Statements about names *)

(** [var_js] is a key of [variable_name_map_js_to_backend]. *)
Definition known_variable (var_js : string) : bool :=
  str_in var_js valid_index_variables_for_selection.

Definition zscore_d_col (backend_name : string) : string := backend_name +:+ "_zscore_d".
Definition zscore_o_col (backend_name : string) : string := backend_name +:+ "_zscore_o".

(** [s.endswith(suffix)] *)
Definition ends_with (suffix s : string) : Prop := exists p, s = p +:+ suffix.

(** Every registered index is a column of the Base Geo Table. *)
Definition registry_in_table (s : App.state) : Prop :=
  forall g, App.global_gdf s = Some g ->
  forall c, c ∈ App.generated_index_columns s -> In c (gdf_columns g).

(** Consecutive elements are in [<=] order. *)
Fixpoint ascending (l : list string) : Prop :=
  match l with
  | x :: ((y :: _) as l') => String.leb x y = true /\ ascending l'
  | _ => True
  end.

(** A value that [pd.to_numeric] reads as a number with a fractional part. *)
Definition fractional_key (parse_number : string -> option Qc) (k : raw_key) : Prop :=
  exists q, to_numeric_coerce parse_number k = Some q /\ is_integral q = false.

(** The parser reads the text of an integer back, and does not read
    ["<NA>"]. *)
Definition reads_integers (parse_number : string -> option Qc) : Prop :=
  (forall z : Z, parse_number (pretty z) = Some (Qc_of_Z z))
  /\ parse_number NA_str = None.

(** A JSON body with a name and a list of variables. *)
Definition request_of (name : option string) (variables : list string) : option request :=
  Some {| req_name := name; req_variables := Some variables |}.

(** The catalog names whose [_zscore_o] column the residential route of
    [app.py] finds. *)
Definition usable_residential (available : list string) (var_js : string) : bool :=
  known_variable var_js && str_in (zscore_o_col var_js) available.

(** The same for [app_local.py]. *)
Definition usable_residential_local (available_vars_js gdf_cols : list string)
    (var_js : string) : bool :=
  known_variable var_js && str_in var_js available_vars_js
  && str_in (zscore_o_col var_js) gdf_cols.

(** The text of an integer, or the text of a missing one. *)
Definition canonical_key (k : string) : Prop :=
  k = NA_str \/ exists z : Z, k = pretty z.

(** ** Login *)

(** [bool(o)] for a text that may be absent: [None] and [""] are false. *)
Definition truthy (o : option string) : bool :=
  match o with
  | Some s => negb (String.eqb s "")
  | None => false
  end.

Module Auth.

(** The Flask session: the entry ['logged_in'] (absent, or its value),
    the [permanent] flag, and the flashed messages as
    [(category, message)]. *)
Record session : Type := mk_session {
  logged_in : option bool;
  permanent : bool;
  flashes : list (string * string)
}.

Definition flash (message category : string) (sess : session) : session :=
  {| logged_in := logged_in sess;
     permanent := permanent sess;
     flashes := flashes sess ++ [(category, message)] |}.

(** [url_for('index')], [url_for('login')], [url_for('login', next=...)],
    or a URL taken from the request. *)
Inductive location : Type :=
| UrlForIndex
| UrlForLogin (next : option string)
| Url (u : string).

Inductive page : Type :=
| Redirect (target : location)
| RenderTemplate (template : string).

(** [/login]; [CORRECT_PASSCODE] is [os.environ.get('APP_PASSCODE')],
    [form_passcode] is [request.form.get('passcode')] and [args_next] is
    [request.args.get('next')]. *)
Definition login (CORRECT_PASSCODE : option string) (method : string)
    (form_passcode args_next : option string) (sess : session) : page * session :=
  if String.eqb method "POST" then
    let entered_passcode := form_passcode in
    if truthy entered_passcode && bool_decide (entered_passcode = CORRECT_PASSCODE)
    then
      let sess1 :=
        flash "You were successfully logged in!" "success"
          {| logged_in := Some true; permanent := true; flashes := flashes sess |} in
      let next_page := args_next in
      (Redirect (if truthy next_page then Url (default "" next_page) else UrlForIndex), sess1)
    else
      (RenderTemplate "login.html",
       flash "Invalid passcode. Please try again." "danger" sess)
  else (RenderTemplate "login.html", sess).

(** [/logout] *)
Definition logout (sess : session) : page * session :=
  (Redirect (UrlForLogin None),
   flash "You have been logged out." "info"
     {| logged_in := None; permanent := permanent sess; flashes := flashes sess |}).

(** The decorator: the view [f] runs only with ['logged_in'] in the
    session; [request_url] is [request.url]. *)
Definition login_required {A : Type} (f : session -> A * session) (request_url : string)
    (sess : session) : (page + A) * session :=
  match logged_in sess with
  | None =>
      (inl (Redirect (UrlForLogin (Some request_url))),
       flash "Please log in to access this page." "warning" sess)
  | Some _ => let '(a, sess1) := f sess in (inr a, sess1)
  end.

(** [/] of [app.py], before the decorator. *)
Definition index (s : App.state) (sess : session) : page * session :=
  (RenderTemplate "index.html",
   match App.global_gdf s, App.parquet_df s with
   | Some _, Some _ => sess
   | _, _ => flash "Error: Essential application data failed to load." "danger" sess
   end).

End Auth.

(** ** Loading the Visitation Table *)

(** [parquet_df_loaded['Origin_tract'] = keys] *)
Definition with_keys (keys : list string) (df : DataFrame raw_key) : DataFrame string :=
  {| df_columns := df_columns df;
     df_rows := List.map (fun rk => {| v_tract := snd rk; v_cells := v_cells (fst rk) |})
                         (combine (df_rows df) keys) |}.

Definition set_parquet (pq : option (DataFrame string)) (s : App.state) : App.state :=
  {| App.global_gdf := App.global_gdf s;
     App.parquet_df := pq;
     App.generated_index_columns := App.generated_index_columns s;
     App.available_geojson_columns := App.available_geojson_columns s;
     App.verified_frontend_cols := App.verified_frontend_cols s;
     App.available_residential_vars_js := App.available_residential_vars_js s |}.

(** [load_parquet_from_b2] of [app.py].  [s3_client] tells whether the
    client exists, [parquet_table] is the frame that [get_object],
    [read_table] and [to_pandas] produce, [None] when one of them
    raises.  The downcast of [perc_visit] only rounds. *)
Definition load_parquet_from_b2 (parse_number : string -> option Qc)
    (s3_client : bool) (B2_BUCKET_NAME : option string)
    (parquet_table : option (DataFrame raw_key)) (s : App.state) : bool * App.state :=
  if negb s3_client then (false, s)
  else if negb (truthy B2_BUCKET_NAME) then (false, s)
  else
    match parquet_table with
    | None => (false, set_parquet None s)
    | Some parquet_df_loaded =>
        if str_in "Origin_tract" (df_columns parquet_df_loaded)
        then
          match robust_tract_conversion parse_number
                  (List.map v_tract (df_rows parquet_df_loaded)) with
          | None => (false, s)
          | Some keys => (true, set_parquet (Some (with_keys keys parquet_df_loaded)) s)
          end
        else (false, s)
    end.

Definition logged_out_session : Auth.session :=
  {| Auth.logged_in := None; Auth.permanent := false; Auth.flashes := [] |}.

(** A file whose keys are integers, floats and text. *)
Definition sample_parquet_file : DataFrame raw_key :=
  {| df_columns := ["Origin_tract"; "perc_visit"; "OZONE_zscore_d"];
     df_rows :=
       [ {| v_tract := KInt 1;
            v_cells := [("perc_visit", ratio 2 1); ("OZONE_zscore_d", ratio 3 2)] |};
         {| v_tract := KStr "02";
            v_cells := [("perc_visit", ratio 1 1); ("OZONE_zscore_d", ratio 1 1)] |};
         {| v_tract := KFloat (Q2Qc (3 # 1));
            v_cells := [("perc_visit", None); ("OZONE_zscore_d", ratio 1 2)] |} ] |}.

(** [available_geojson_columns] lists the columns of the Base Geo Table,
    which are pairwise distinct. *)
Definition columns_in_sync (s : App.state) : Prop :=
  forall g, App.global_gdf s = Some g ->
  App.available_geojson_columns s = gdf_columns g /\ List.NoDup (gdf_columns g).

Definition local_columns_in_sync (s : AppLocal.state) : Prop :=
  forall g, AppLocal.global_gdf s = Some g ->
  AppLocal.available_geojson_columns s = gdf_columns g /\ List.NoDup (gdf_columns g).

(** * Properties *)

(** ** Text and list helpers *)

Lemma str_in_In (x : string) (l : list string) : str_in x l = true <-> In x l.
Proof.
  unfold str_in. rewrite existsb_exists. split.
  - intros [y [Hy Heq]]. apply String.eqb_eq in Heq. now subst.
  - intros H. exists x. split; [assumption | apply String.eqb_refl].
Qed.

Lemma str_in_false (x : string) (l : list string) : str_in x l = false <-> ~ In x l.
Proof.
  rewrite <- str_in_In. destruct (str_in x l); split; congruence.
Qed.

Lemma str_in_app_last (c : string) (l : list string) : str_in c (l ++ [c]) = true.
Proof. apply str_in_In, in_or_app. right. now left. Qed.

(** ** Validation *)

Lemma validate_inputs_invalid (m1 m2 : string) (body : option request) :
  invalid_request body -> exists m, validate_inputs m1 m2 body = inl m.
Proof.
  unfold invalid_request, validate_inputs. destruct body as [data|]; [|eauto].
  intros H.
  destruct (String.eqb (strip (default "" (req_name data))) "") eqn:Hname; [eauto|].
  destruct H as [H | [H | H]].
  - rewrite H. eauto.
  - rewrite H in Hname. vm_compute in Hname. discriminate.
  - destruct (default [] (req_variables data)); [eauto|].
    rewrite H. simpl. eauto.
Qed.

(** C8.  A generation request whose variable list is empty, or whose name
    is missing, empty or sanitizes to empty, is answered with status 400 by
    each of the four generation routes (activity and residential, in
    [app.py] and in [app_local.py]) once the source data is loaded, and the
    state after the request (Base Geo Table, registry and column lists) is
    the state before it. *)
Theorem invalid_input_rejected
    (parse_number : string -> option Qc) (parquet_file : option (DataFrame raw_key))
    (s : App.state) (ls : AppLocal.state) (body : option request) :
  invalid_request body ->
  App.global_gdf s <> None -> App.parquet_df s <> None ->
  AppLocal.global_gdf ls <> None ->
  (status_of (fst (App.generate_activity_index parse_number s body)) = 400%nat
   /\ snd (App.generate_activity_index parse_number s body) = s)
  /\ (status_of (fst (App.generate_residential_index s body)) = 400%nat
      /\ snd (App.generate_residential_index s body) = s)
  /\ (status_of (fst (AppLocal.generate_index parse_number parquet_file ls body)) = 400%nat
      /\ snd (AppLocal.generate_index parse_number parquet_file ls body) = ls)
  /\ (status_of (fst (AppLocal.generate_residential_index ls body)) = 400%nat
      /\ snd (AppLocal.generate_residential_index ls body) = ls).
Proof.
  intros Hinv Hg Hp Hl.
  unfold App.generate_activity_index, App.generate_residential_index,
    AppLocal.generate_index, AppLocal.generate_residential_index,
    App.prepare_activity_index, App.prepare_residential_index,
    AppLocal.prepare_index, AppLocal.prepare_residential_index.
  destruct (App.global_gdf s) as [g|]; [|congruence].
  destruct (App.parquet_df s) as [pq|]; [|congruence].
  destruct (AppLocal.global_gdf ls) as [lg|]; [|congruence].
  destruct (validate_inputs_invalid "Invalid request data." "Invalid index name after cleaning." body Hinv) as [m1 ->].
  destruct (validate_inputs_invalid "Invalid request." "Invalid index name." body Hinv) as [m2 ->].
  destruct (validate_inputs_invalid "Invalid request data." "Invalid index name." body Hinv) as [m3 ->].
  simpl. repeat split.
Qed.

Lemma invalid_input_rejected_witness :
  invalid_request empty_variables_request
  /\ status_of (fst (App.generate_activity_index parse_decimal sample_state empty_variables_request)) = 400%nat
  /\ snd (App.generate_activity_index parse_decimal sample_state empty_variables_request) = sample_state.
Proof.
  split; [left; reflexivity|].
  apply (invalid_input_rejected parse_decimal None sample_state sample_local_state
           empty_variables_request).
  - left; reflexivity.
  - discriminate.
  - discriminate.
  - discriminate.
Defined.

(** ** Data not loaded *)

(** C9, as amended.  While the Base Geo Table is not loaded, [/geojson]
    and both generation routes of [app.py] answer 503, and so does its
    activity route while the Visitation Table is not loaded; the same three
    routes of [app_local.py] answer 500. *)
Theorem not_loaded_status
    (parse_number : string -> option Qc) (parquet_file : option (DataFrame raw_key))
    (s sp : App.state) (ls : AppLocal.state) (body : option request) :
  App.global_gdf s = None ->
  App.parquet_df sp = None ->
  AppLocal.global_gdf ls = None ->
  status_of (App.geojson s) = 503%nat
  /\ status_of (fst (App.generate_activity_index parse_number s body)) = 503%nat
  /\ status_of (fst (App.generate_activity_index parse_number sp body)) = 503%nat
  /\ status_of (fst (App.generate_residential_index s body)) = 503%nat
  /\ status_of (AppLocal.geojson ls) = 500%nat
  /\ status_of (fst (AppLocal.generate_index parse_number parquet_file ls body)) = 500%nat
  /\ status_of (fst (AppLocal.generate_residential_index ls body)) = 500%nat.
Proof.
  intros Hs Hsp Hls.
  unfold App.geojson, App.generate_activity_index, App.generate_residential_index,
    AppLocal.geojson, AppLocal.generate_index, AppLocal.generate_residential_index.
  rewrite Hs, Hsp, Hls.
  destruct (App.parquet_df s), (App.global_gdf sp); repeat split.
Qed.

Lemma not_loaded_status_witness :
  status_of (App.geojson unloaded_state) = 503%nat
  /\ status_of (AppLocal.geojson unloaded_local_state) = 500%nat.
Proof.
  pose proof (not_loaded_status parse_decimal None unloaded_state unloaded_state
                unloaded_local_state sample_request eq_refl eq_refl eq_refl) as H.
  split; [apply H | apply H].
Defined.

(** C9, counterexample.  The routes of [app_local.py] do not answer 503
    when the Base Geo Table is not loaded. *)
Lemma local_not_loaded_is_500 :
  AppLocal.global_gdf unloaded_local_state = None
  /\ status_of (AppLocal.geojson unloaded_local_state) <> 503%nat
  /\ status_of (fst (AppLocal.generate_index parse_decimal None unloaded_local_state sample_request)) <> 503%nat
  /\ status_of (fst (AppLocal.generate_residential_index unloaded_local_state sample_request)) <> 503%nat.
Proof. repeat split; vm_compute; discriminate. Qed.

(** ** Row count after the merge *)



(** ** Infinite values *)

(** C7.  On a Base Geo Table whose selected residential z-score is
    +infinity, the residential route of [app.py] and that of
    [app_local.py] answer 200 and the generated column holds +infinity:
    the infinite value is not coerced to null. *)
Theorem residential_index_keeps_infinity :
  status_of (fst (App.generate_residential_index infinite_state sample_request)) = 200%nat
  /\ column_of "My_Index_RES"
       (App.global_gdf (snd (App.generate_residential_index infinite_state sample_request)))
     = [Some PInf]
  /\ status_of (fst (AppLocal.generate_residential_index infinite_local_state sample_request)) = 200%nat
  /\ column_of "My_Index_RES"
       (AppLocal.global_gdf
          (snd (AppLocal.generate_residential_index infinite_local_state sample_request)))
     = [Some PInf].
Proof. repeat split; vm_compute; reflexivity. Qed.

Lemma final_index_value_not_infinite (num_vars : nat) (total : cell) :
  final_index_value num_vars total <> Some PInf
  /\ final_index_value num_vars total <> Some NInf.
Proof.
  unfold final_index_value, replace_inf, to_pandas.
  destruct total as [[q| | |]|]; simpl; split; discriminate.
Qed.

(** ** Tract keys *)

(** Closes a goal between concrete tables: the two sides are evaluated,
    and rationals are compared by value. *)
Ltac table_eq :=
  vm_compute;
  repeat first [ reflexivity
               | apply Qc_is_canon; vm_compute; reflexivity
               | f_equal ].

Lemma pretty_N_char_key (x : N) : key_char (pretty_N_char x) = true.
Proof.
  unfold pretty_N_char. repeat case_match; reflexivity.
Qed.

Lemma pretty_N_go_chars (x : N) (s : string) :
  forallb key_char (list_ascii_of_string s) = true ->
  forallb key_char (list_ascii_of_string (pretty_N_go x s)) = true.
Proof.
  revert s. induction (N.lt_wf_0 x) as [x _ IH]. intros s Hs.
  destruct (decide (x = 0%N)) as [-> | Hx].
  - now rewrite pretty_N_go_0.
  - rewrite pretty_N_go_step by lia.
    apply IH.
    + apply N.div_lt; lia.
    + simpl. rewrite pretty_N_char_key. exact Hs.
Qed.

Lemma pretty_Z_chars (z : Z) :
  forallb key_char (list_ascii_of_string (pretty z)) = true.
Proof.
  assert (Hpos : forall p : positive,
             forallb key_char (list_ascii_of_string (pretty p)) = true).
  { intros p. unfold pretty, pretty_positive, pretty, pretty_N.
    destruct (decide (N.pos p = 0%N)); [discriminate|].
    now apply pretty_N_go_chars. }
  destruct z as [|p|p]; unfold pretty, pretty_Z.
  - reflexivity.
  - apply Hpos.
  - simpl. apply Hpos.
Qed.







(** ** Merge *)


Lemma merge_row_shape (c : string) (right : list (string * cell)) (r r' : grow) :
  In r' (merge_row c right r) -> exists v, r' = add_cell c v r.
Proof.
  unfold merge_row.
  destruct (List.filter (fun kv => String.eqb (fst kv) (g_tract r)) right) as [|m ms].
  - intros [<- | []]. eauto.
  - intros H. apply in_map_iff in H as [kv [<- _]]. eauto.
Qed.




(** ** The keys of the aggregation result *)

Lemma robust_tract_conversion_keys
    (parse_number : string -> option Qc) (col : list raw_key) (keys : list string) :
  robust_tract_conversion parse_number col = Some keys ->
  keys = List.map (normalize_key parse_number) col.
Proof.
  unfold robust_tract_conversion, astype_Int64.
  destruct (forallb _ _); [|discriminate].
  simpl. intros [= <-]. unfold astype_str_strip.
  rewrite !map_map. apply map_ext. intros k. unfold normalize_key.
  now destruct (to_numeric_coerce parse_number k).
Qed.

Lemma weighted_sum_query_keys {K : Type} `{EqDecision K}
    (cols : list string) (rows : list (vrow K)) (k : K) (t : cell) :
  In (k, t) (weighted_sum_query cols rows) ->
  exists r, In r rows /\ v_tract r = k /\ where_clause (v_cells r) = true.
Proof.
  unfold weighted_sum_query. intros H.
  apply in_map_iff in H as [k' [[= -> _] Hk]].
  rewrite <- list_elem_of_In, elem_of_remove_dups, list_elem_of_In in Hk.
  apply in_map_iff in Hk as [r [Hr Hin]].
  apply filter_In in Hin as [Hin Hw]. eauto.
Qed.

Lemma scan_pandas_keys (pq : DataFrame string) (r : vrow string) :
  In r (App.scan_pandas pq) -> exists r0, In r0 (df_rows pq) /\ v_tract r = v_tract r0.
Proof.
  unfold App.scan_pandas. intros H. apply in_map_iff in H as [r0 [<- Hin]]. eauto.
Qed.




(** ** Weighted sum *)














(** ** The weighted-sum index on finite data *)

Lemma Qc_of_Z_0 : Qc_of_Z 0 = 0%Qc.
Proof. reflexivity. Qed.











(** ** Unweighted mean *)

Lemma present_values_finite (vals : list cell) :
  (forall v, In v vals -> v <> Some PInf /\ v <> Some NInf) ->
  present_values vals = List.map Fin (spec_non_null vals).
Proof.
  unfold present_values, spec_non_null.
  induction vals as [|v vals IH]; intros H; [reflexivity|].
  assert (IH' := IH (fun v' Hv' => H v' (or_intror Hv'))).
  destruct (H v (or_introl eq_refl)) as [Hp Hn].
  cbn [omap list_omap]. unfold present_values, spec_non_null in IH'.
  destruct v as [[q| | |]|]; cbn; try congruence; now rewrite IH'.
Qed.

Lemma fold_fadd_finite (qs : list Qc) (a : Qc) :
  fold_left fadd (List.map Fin qs) (Fin a) = Fin (a + Qc_sum qs)%Qc.
Proof.
  revert a. induction qs as [|q qs IH]; intros a; simpl.
  - rewrite Qc_of_Z_0, Qcplus_0_r. reflexivity.
  - rewrite IH, Qcplus_assoc. reflexivity.
Qed.

Lemma mean_skipna_finite (vals : list cell) :
  (forall v, In v vals -> v <> Some PInf /\ v <> Some NInf) ->
  match mean_skipna vals with
  | None => None
  | Some m => to_pandas (Some (fmul m hundred))
  end = spec_mean_index vals.
Proof.
  intros H. unfold mean_skipna, spec_mean_index.
  rewrite (present_values_finite vals H).
  destruct (spec_non_null vals) as [|q qs]; [reflexivity|].
  cbn [List.map]. rewrite fold_fadd_finite, length_map. reflexivity.
Qed.

Lemma residential_values_mean (cols : list string) (g : GeoDataFrame) :
  no_infinite_cell cols g ->
  residential_values cols g
  = List.map (fun r => spec_mean_index (row_cells cols r)) (gdf_rows g).
Proof.
  intros H. unfold residential_values. apply map_ext_in. intros r Hr.
  apply mean_skipna_finite. intros v Hv.
  apply in_map_iff in Hv as [c [<- Hc]]. now apply H.
Qed.

Lemma prepare_residential_values (s : App.state) (gdf : GeoDataFrame)
    (body : option request) (name : string) (cols : list string) (values : list cell) :
  App.prepare_residential_index s gdf body = inr (name, cols, values) ->
  cols <> [] /\ values = residential_values cols gdf.
Proof.
  unfold App.prepare_residential_index.
  destruct (validate_inputs _ _ body) as [m | [cleaned vars]]; [discriminate|].
  destruct (App.resolve_residential _ vars) as [req inv].
  destruct req as [|c0 req]; [discriminate|].
  destruct (List.filter _ (c0 :: req)) as [|c1 avg]; [discriminate|].
  intros Heq. inversion Heq. split; [discriminate | reflexivity].
Qed.

Lemma prepare_residential_values_local (s : AppLocal.state) (gdf : GeoDataFrame)
    (body : option request) (name : string) (cols : list string) (values : list cell) :
  AppLocal.prepare_residential_index s gdf body = inr (name, cols, values) ->
  cols <> [] /\ values = residential_values cols gdf.
Proof.
  unfold AppLocal.prepare_residential_index.
  destruct (validate_inputs _ _ body) as [m | [cleaned vars]]; [discriminate|].
  destruct (AppLocal.resolve_residential _ _ vars) as [req inv].
  destruct req as [|c0 req]; [discriminate|].
  intros Heq. inversion Heq. split; [discriminate | reflexivity].
Qed.

(** C2.  For a residential request that passes resolution, in [app.py] or
    in [app_local.py], the list of resolved columns is not empty and, when
    none of the selected cells is infinite, the value computed for each
    tract is the mean of the non-null values among its selected columns,
    times 100, and null when all of them are null. *)
Theorem residential_index_is_mean_of_non_null
    (s : App.state) (ls : AppLocal.state) (gdf : GeoDataFrame) (body : option request)
    (name : string) (cols : list string) (values : list cell) :
  App.prepare_residential_index s gdf body = inr (name, cols, values)
  \/ AppLocal.prepare_residential_index ls gdf body = inr (name, cols, values) ->
  no_infinite_cell cols gdf ->
  cols <> []
  /\ values = List.map (fun r => spec_mean_index (row_cells cols r)) (gdf_rows gdf).
Proof.
  intros Hprep Hfin.
  assert (H : cols <> [] /\ values = residential_values cols gdf).
  { destruct Hprep as [Hp | Hp].
    - now apply prepare_residential_values in Hp.
    - now apply prepare_residential_values_local in Hp. }
  destruct H as [Hne ->]. split; [exact Hne | now apply residential_values_mean].
Qed.

Lemma residential_index_is_mean_of_non_null_witness :
  [ratio 20 1; None]
  = List.map (fun r => spec_mean_index (row_cells ["OZONE_zscore_o"; "PM25_zscore_o"] r))
      (gdf_rows sample_gdf).
Proof.
  refine (proj2 (residential_index_is_mean_of_non_null sample_state sample_local_state
                   sample_gdf sample_residential_request "Home_RES"
                   ["OZONE_zscore_o"; "PM25_zscore_o"] [ratio 20 1; None] _ _)).
  - left. table_eq.
  - intros r c Hr Hc.
    destruct Hr as [<- | [<- | []]]; destruct Hc as [<- | [<- | []]];
      split; vm_compute; discriminate.
Defined.

Example mean_of_one_fifth_and_null :
  spec_mean_index [ratio 1 5; None] = ratio 20 1.
Proof. table_eq. Qed.

(** ** Regeneration under the same name *)

(** C5, in [app_local.py].  With a Parquet file whose text keys [1] and
    [01] name the same tract, two successful generations of the same index
    leave five rows where one generation leaves three, and the columns
    differ. *)
Lemma regeneration_multiplies_rows :
  status_of (fst (local_generate sample_local_state sample_request)) = 200%nat
  /\ status_of (fst (local_generate (snd (local_generate sample_local_state sample_request))
                       sample_request)) = 200%nat
  /\ row_count (AppLocal.global_gdf (snd (local_generate sample_local_state sample_request)))
     = 3%nat
  /\ row_count (AppLocal.global_gdf
                  (snd (local_generate (snd (local_generate sample_local_state sample_request))
                          sample_request))) = 5%nat
  /\ column_of "My_Index_ACT"
       (AppLocal.global_gdf
          (snd (local_generate (snd (local_generate sample_local_state sample_request))
                  sample_request)))
     <> column_of "My_Index_ACT"
          (AppLocal.global_gdf (snd (local_generate sample_local_state sample_request))).
Proof.
  repeat split; try (vm_compute; reflexivity).
  intros H. apply (f_equal (@length cell)) in H. vm_compute in H. discriminate.
Qed.

Lemma merge_checked_eq (index_col_name : string) (g : GeoDataFrame)
    (index_to_merge : list (string * cell)) :
  merge_checked index_col_name g index_to_merge
  = (merge_left index_col_name g index_to_merge, None,
     if (length (gdf_rows (merge_left index_col_name g index_to_merge)) =? length (gdf_rows g))%nat
     then [] else [row_count_warning]).
Proof.
  unfold merge_checked.
  replace (str_in index_col_name (gdf_columns (merge_left index_col_name g index_to_merge)))
    with true; [reflexivity|].
  symmetry. simpl. apply str_in_app_last.
Qed.

Lemma combine_map {A B C : Type} (f : A -> B) (h : A -> C) (l : list A) :
  combine (List.map f l) (List.map h l) = List.map (fun x => (f x, h x)) l.
Proof. induction l as [|x l IH]; simpl; [reflexivity | now rewrite IH]. Qed.

Lemma weighted_sum_query_NoDup {K : Type} `{EqDecision K}
    (cols : list string) (rows : list (vrow K)) :
  NoDup (List.map fst (weighted_sum_query cols rows)).
Proof.
  unfold weighted_sum_query. rewrite map_map. simpl. rewrite map_id.
  apply NoDup_remove_dups.
Qed.

Lemma index_to_merge_NoDup
    (parse_number : string -> option Qc) (pq : DataFrame string) (cols : list string)
    (num_vars : nat) (right : list (string * cell)) :
  keys_normalized parse_number pq ->
  App.index_to_merge_of parse_number num_vars
    (weighted_sum_query cols (App.scan_pandas pq)) = Some right ->
  NoDup (List.map fst right).
Proof.
  intros Hnorm. unfold App.index_to_merge_of.
  destruct (robust_tract_conversion _ _) as [keys|] eqn:Hk; [|discriminate].
  intros [= <-]. apply robust_tract_conversion_keys in Hk. subst keys.
  rewrite map_map, combine_map, map_map. simpl.
  replace (List.map (fun x => normalize_key parse_number (KStr (fst x)))
             (weighted_sum_query cols (App.scan_pandas pq)))
    with (List.map fst (weighted_sum_query cols (App.scan_pandas pq))).
  - apply weighted_sum_query_NoDup.
  - apply map_ext_in. intros [k t] Hin. simpl.
    apply weighted_sum_query_keys in Hin as [r [Hr [Ht _]]].
    apply scan_pandas_keys in Hr as [r0 [Hr0 Heq]].
    rewrite <- Ht, Heq. symmetry. now apply Hnorm.
Qed.

Lemma filter_none {A : Type} (f : A -> bool) (l : list A) :
  (forall x, In x l -> f x = false) -> List.filter f l = [].
Proof.
  induction l as [|x l IH]; intros H; simpl; [reflexivity|].
  rewrite (H x (or_introl eq_refl)). apply IH. intros y Hy. apply H. now right.
Qed.

Lemma filter_all {A : Type} (f : A -> bool) (l : list A) :
  (forall x, In x l -> f x = true) -> List.filter f l = l.
Proof.
  induction l as [|x l IH]; intros H; simpl; [reflexivity|].
  rewrite (H x (or_introl eq_refl)). f_equal. apply IH. intros y Hy. apply H. now right.
Qed.

Lemma merge_row_single (c : string) (right : list (string * cell)) (r : grow) :
  NoDup (List.map fst right) -> exists v, merge_row c right r = [add_cell c v r].
Proof.
  intros Hnd. unfold merge_row.
  assert (Hlen : (length (List.filter (fun kv => String.eqb (fst kv) (g_tract r)) right) <= 1)%nat).
  { induction right as [|kv right IH]; simpl; [lia|].
    inversion Hnd as [|? ? Hnotin Hnd']. subst.
    destruct (String.eqb (fst kv) (g_tract r)) eqn:E; [|now apply IH].
    apply String.eqb_eq in E. rewrite filter_none; [simpl; lia|].
    intros kv' Hin. apply String.eqb_neq. intros Heq. apply Hnotin.
    apply list_elem_of_In, in_map_iff. exists kv'. split; [congruence | exact Hin]. }
  destruct (List.filter _ right) as [|m [|m' ms]]; simpl in *; [eauto | eauto | lia].
Qed.

Lemma drop_merge_left (c : string) (g : GeoDataFrame) (right : list (string * cell)) :
  NoDup (List.map fst right) ->
  ~ In c (gdf_columns g) ->
  (forall r kv, In r (gdf_rows g) -> In kv (g_cells r) -> fst kv <> c) ->
  drop_column c (merge_left c g right) = g.
Proof.
  intros Hnd Hcol Hcells. destruct g as [cols rows]. unfold drop_column. simpl in *. f_equal.
  - rewrite List.filter_app. simpl. rewrite String.eqb_refl. simpl. rewrite app_nil_r.
    apply filter_all. intros k Hk. apply negb_true_iff, String.eqb_neq. congruence.
  - induction rows as [|r rows IH]; simpl; [reflexivity|].
    destruct (merge_row_single c right r Hnd) as [v ->]. simpl. f_equal.
    + destruct r as [t cells]. unfold add_cell. simpl. f_equal.
      rewrite List.filter_app. simpl. rewrite String.eqb_refl. simpl. rewrite app_nil_r.
      apply filter_all. intros kv Hkv. apply negb_true_iff, String.eqb_neq.
      intros Heq. apply (Hcells _ kv (or_introl eq_refl)); [exact Hkv | congruence].
    + apply IH. intros r' kv Hr'. apply Hcells. now right.
Qed.

Lemma drop_existing_clean (c : string) (gdf : GeoDataFrame) (s : App.state) :
  wf_gdf gdf ->
  ~ In c (gdf_columns (fst (App.drop_existing c gdf s)))
  /\ forall r kv, In r (gdf_rows (fst (App.drop_existing c gdf s))) -> In kv (g_cells r) ->
                  fst kv <> c.
Proof.
  intros Hwf. unfold App.drop_existing.
  destruct (str_in c (gdf_columns gdf)) eqn:E; simpl.
  - split.
    + intros Hin. apply filter_In in Hin as [_ Hin]. now rewrite String.eqb_refl in Hin.
    + intros r kv Hr Hkv Heq. apply in_map_iff in Hr as [r0 [<- _]]. simpl in Hkv.
      apply filter_In in Hkv as [_ Hkv]. rewrite Heq, String.eqb_refl in Hkv. discriminate.
  - apply str_in_false in E. split; [exact E|].
    intros r kv Hr Hkv Heq. apply E. rewrite <- Heq. now apply (Hwf r Hr kv).
Qed.

Lemma prepare_activity_index_error
    (parse_number : string -> option Qc) (pq : DataFrame string) (body : option request)
    (e : response) :
  App.prepare_activity_index parse_number pq body = inl e -> status_of e <> 200%nat.
Proof.
  unfold App.prepare_activity_index.
  destruct (validate_inputs _ _ body) as [m | [cleaned vars]].
  - intros [= <-]. discriminate.
  - destruct (resolve_activity vars) as [[sel inv] cols].
    destruct sel as [|b sel]; [intros [= <-]; discriminate|].
    destruct (List.filter _ cols) as [|m ms]; [|intros [= <-]; discriminate].
    destruct (negb _); [intros [= <-]; discriminate|].
    destruct (App.index_to_merge_of _ _ _); [discriminate | intros [= <-]; discriminate].
Qed.

Lemma validate_inputs_name (m1 m2 : string) (body : option request)
    (cleaned : string) (vars : list string) :
  validate_inputs m1 m2 body = inr (cleaned, vars) -> cleaned = index_name_of body.
Proof.
  unfold validate_inputs, index_name_of. destruct body as [data|]; [|discriminate].
  destruct (String.eqb _ ""); [discriminate|].
  destruct (default [] (req_variables data)); [discriminate|].
  destruct (String.eqb _ ""); [discriminate|]. now intros [= <- _].
Qed.

Lemma prepare_activity_index_ok
    (parse_number : string -> option Qc) (pq : DataFrame string) (body : option request)
    (c : string) (right : list (string * cell)) :
  keys_normalized parse_number pq ->
  App.prepare_activity_index parse_number pq body = inr (c, right) ->
  c = index_name_of body +:+ "_ACT" /\ NoDup (List.map fst right).
Proof.
  intros Hnorm. unfold App.prepare_activity_index.
  destruct (validate_inputs _ _ body) as [m | [cleaned vars]] eqn:Hv; [discriminate|].
  apply validate_inputs_name in Hv. subst cleaned.
  destruct (resolve_activity vars) as [[sel inv] cols].
  destruct sel as [|b sel]; [discriminate|].
  destruct (List.filter _ cols) as [|m ms]; [|discriminate].
  destruct (negb _); [discriminate|].
  destruct (App.index_to_merge_of _ _ _) as [right'|] eqn:Hr; [|discriminate].
  intros [= <- <-]. split; [reflexivity|].
  exact (index_to_merge_NoDup parse_number pq cols _ right' Hnorm Hr).
Qed.

Lemma generate_activity_index_success
    (parse_number : string -> option Qc) (s : App.state) (body : option request) :
  status_of (fst (App.generate_activity_index parse_number s body)) = 200%nat ->
  exists gdf pq c right,
    App.global_gdf s = Some gdf /\ App.parquet_df s = Some pq
    /\ App.prepare_activity_index parse_number pq body = inr (c, right)
    /\ App.generate_activity_index parse_number s body = App.merge_and_send s gdf c right.
Proof.
  unfold App.generate_activity_index.
  destruct (App.global_gdf s) as [gdf|], (App.parquet_df s) as [pq|]; try discriminate.
  destruct (App.prepare_activity_index parse_number pq body) as [e | [c right]] eqn:Hp.
  - intros H. now apply prepare_activity_index_error in Hp.
  - intros _. exists gdf, pq, c, right. tauto.
Qed.

Lemma merge_and_send_state (s : App.state) (gdf : GeoDataFrame) (c : string)
    (right : list (string * cell)) :
  snd (App.merge_and_send s gdf c right)
  = App.register c
      (App.set_gdf (merge_left c (fst (App.drop_existing c gdf s)) right)
         (snd (App.drop_existing c gdf s))).
Proof.
  unfold App.merge_and_send. destruct (App.drop_existing c gdf s) as [gdf1 s1].
  rewrite merge_checked_eq. reflexivity.
Qed.

Lemma drop_existing_parquet (c : string) (gdf : GeoDataFrame) (s : App.state) :
  App.parquet_df (snd (App.drop_existing c gdf s)) = App.parquet_df s.
Proof. unfold App.drop_existing. now destruct (str_in c (gdf_columns gdf)). Qed.

Lemma count_occ_app_last (c : string) (l : list string) :
  ~ In c l -> count_occ string_dec (l ++ [c]) c = 1%nat.
Proof.
  intros H. rewrite count_occ_app. simpl.
  destruct (string_dec c c); [|congruence].
  apply (count_occ_not_In string_dec) in H. lia.
Qed.

(** C5, for [app.py].  Let the Visitation Table keys be in normal form (as
    the load leaves them) and the Base Geo Table be well formed.  After two
    successful generations under the same sanitized name, the Base Geo
    Table has exactly one column of that name, the registry has exactly one
    entry of that name, and the table and the registry are those a single
    generation of the second request from the initial state produces. *)
Theorem regeneration_is_idempotent
    (parse_number : string -> option Qc) (s : App.state) (gdf : GeoDataFrame)
    (pq : DataFrame string) (body1 body2 : option request) :
  App.global_gdf s = Some gdf ->
  App.parquet_df s = Some pq ->
  wf_gdf gdf ->
  keys_normalized parse_number pq ->
  index_name_of body1 = index_name_of body2 ->
  status_of (fst (App.generate_activity_index parse_number s body1)) = 200%nat ->
  status_of (fst (App.generate_activity_index parse_number
                    (snd (App.generate_activity_index parse_number s body1)) body2)) = 200%nat ->
  let c := index_name_of body2 +:+ "_ACT" in
  let s2 := snd (App.generate_activity_index parse_number
                   (snd (App.generate_activity_index parse_number s body1)) body2) in
  let fresh := snd (App.generate_activity_index parse_number s body2) in
  (exists g2, App.global_gdf s2 = Some g2 /\ count_occ string_dec (gdf_columns g2) c = 1%nat)
  /\ count_occ string_dec (elements (App.generated_index_columns s2)) c = 1%nat
  /\ App.global_gdf s2 = App.global_gdf fresh
  /\ App.generated_index_columns s2 = App.generated_index_columns fresh.
Proof.
  intros Hg Hp Hwf Hnorm Hname H1 H2 c s2 fresh.
  apply generate_activity_index_success in H1 as (gdf' & pq' & c1 & right1 & Hg' & Hp' & Hprep1 & Hgen1).
  rewrite Hg in Hg'. rewrite Hp in Hp'. injection Hg' as <-. injection Hp' as <-.
  destruct (prepare_activity_index_ok _ _ _ _ _ Hnorm Hprep1) as [Hc1 Hnd1].
  rewrite Hname in Hc1. fold c in Hc1. subst c1.
  subst s2. rewrite Hgen1 in H2 |- *.
  set (s1 := snd (App.merge_and_send s gdf c right1)) in *.
  destruct (App.drop_existing c gdf s) as [gdfA sA] eqn:Hdrop.
  assert (Hs1 : s1 = App.register c (App.set_gdf (merge_left c gdfA right1) sA)).
  { unfold s1. rewrite merge_and_send_state, Hdrop. reflexivity. }
  destruct (drop_existing_clean c gdf s Hwf) as [HcolA HcellsA]. rewrite Hdrop in HcolA, HcellsA.
  simpl in HcolA, HcellsA.
  assert (HpqA : App.parquet_df sA = Some pq).
  { pose proof (drop_existing_parquet c gdf s) as H. rewrite Hdrop in H. simpl in H. congruence. }
  apply generate_activity_index_success in H2 as (g1 & pq1 & c2 & right2 & Hg1 & Hp1 & Hprep2 & Hgen2).
  rewrite Hs1 in Hg1, Hp1. simpl in Hg1, Hp1. injection Hg1 as <-.
  rewrite HpqA in Hp1. injection Hp1 as <-.
  destruct (prepare_activity_index_ok _ _ _ _ _ Hnorm Hprep2) as [Hc2 _].
  fold c in Hc2. subst c2.
  assert (Hfresh : fresh = App.register c (App.set_gdf (merge_left c gdfA right2) sA)).
  { unfold fresh, App.generate_activity_index. rewrite Hg, Hp, Hprep2.
    rewrite merge_and_send_state, Hdrop. reflexivity. }
  assert (Hdrop2 : App.drop_existing c (merge_left c gdfA right1) s1
                   = (gdfA, App.unregister c (App.set_gdf gdfA s1))).
  { unfold App.drop_existing.
    replace (str_in c (gdf_columns (merge_left c gdfA right1))) with true
      by (symmetry; apply str_in_app_last).
    now rewrite (drop_merge_left c gdfA right1 Hnd1 HcolA HcellsA). }
  assert (Hs2 : snd (App.generate_activity_index parse_number s1 body2)
                = App.register c (App.set_gdf (merge_left c gdfA right2)
                                    (App.unregister c (App.set_gdf gdfA s1)))).
  { rewrite Hgen2, merge_and_send_state, Hdrop2. reflexivity. }
  rewrite Hs2, Hfresh, Hs1. simpl. repeat split.
  - eexists. split; [reflexivity|]. simpl. now apply count_occ_app_last.
  - apply NoDup_count_occ'; [apply NoDup_ListNoDup, NoDup_elements|].
    apply list_elem_of_In, elem_of_elements.
    apply elem_of_union_l, elem_of_singleton. reflexivity.
  - apply set_eq. intros y.
    rewrite !elem_of_union, elem_of_difference, !elem_of_union, !elem_of_singleton.
    destruct (decide (y = c)); tauto.
Qed.

Lemma regeneration_is_idempotent_witness :
  App.global_gdf
    (snd (App.generate_activity_index parse_decimal
            (snd (App.generate_activity_index parse_decimal sample_state sample_request))
            sample_request))
  = App.global_gdf (snd (App.generate_activity_index parse_decimal sample_state sample_request)).
Proof.
  refine (proj1 (proj2 (proj2
    (regeneration_is_idempotent parse_decimal sample_state sample_gdf sample_parquet
       sample_request sample_request _ _ _ _ _ _ _)))).
  - reflexivity.
  - reflexivity.
  - intros r Hr kv Hkv. simpl in Hr.
    destruct Hr as [<- | [<- | []]]; simpl in Hkv;
      destruct Hkv as [<- | [<- | []]]; simpl; tauto.
  - intros r [<- | []]. vm_compute. reflexivity.
  - reflexivity.
  - vm_compute. reflexivity.
  - vm_compute. reflexivity.
Defined.

(** * Further properties *)

(** ** Variable resolver *)

Lemma dict_get_map (f : string -> string) (l : list string) (key : string) :
  dict_get key (List.map (fun x => (x, f x)) l)
  = if str_in key l then Some (f key) else None.
Proof.
  induction l as [|x l IH]; [reflexivity|].
  cbn [List.map dict_get]. unfold str_in. cbn [existsb]. fold (str_in key l).
  destruct (String.eqb key x) eqn:E.
  - apply String.eqb_eq in E. now subst.
  - exact IH.
Qed.

Lemma catalog_backend_names (v : string) :
  known_variable v = true -> clean_col_name v = v /\ String.eqb v "" = false.
Proof.
  intros H. apply str_in_In in H.
  assert (Hall : forallb (fun v => String.eqb (clean_col_name v) v && negb (String.eqb v ""))
                   valid_index_variables_for_selection = true) by (vm_compute; reflexivity).
  rewrite forallb_forall in Hall. specialize (Hall v H).
  apply andb_true_iff in Hall as [H1 H2]. apply String.eqb_eq in H1.
  apply negb_true_iff in H2. tauto.
Qed.

Lemma dict_get_catalog (v : string) :
  dict_get v variable_name_map_js_to_backend
  = if known_variable v then Some v else None.
Proof.
  unfold variable_name_map_js_to_backend. rewrite dict_get_map.
  fold (known_variable v). destruct (known_variable v) eqn:E; [|reflexivity].
  now rewrite (proj1 (catalog_backend_names v E)).
Qed.

Lemma resolve_activity_filters (selected_vars_js : list string) :
  resolve_activity selected_vars_js
  = (List.filter known_variable selected_vars_js,
     List.filter (fun v => negb (known_variable v)) selected_vars_js,
     List.map zscore_d_col (List.filter known_variable selected_vars_js)).
Proof.
  induction selected_vars_js as [|v vs IH]; [reflexivity|].
  cbn [resolve_activity List.filter]. rewrite IH, dict_get_catalog.
  destruct (known_variable v) eqn:E; [|reflexivity].
  rewrite (proj2 (catalog_backend_names v E)). reflexivity.
Qed.

(** X1. The activity variable resolver splits the submitted names in two, keeping their
    order: the names of the catalog are accepted, all others are reported as invalid, and
    the z-score columns requested from the visitation table are the accepted names followed
    by _zscore_d. *)
Theorem resolve_activity_partition (selected_vars_js : list string) :
  resolve_activity selected_vars_js
  = (List.filter known_variable selected_vars_js,
     List.filter (fun v => negb (known_variable v)) selected_vars_js,
     List.map zscore_d_col (List.filter known_variable selected_vars_js)).
Proof. exact (resolve_activity_filters selected_vars_js). Qed.

Lemma resolve_residential_filters (available selected_vars_js : list string) :
  App.resolve_residential available selected_vars_js
  = (List.map zscore_o_col
       (List.filter (fun v => known_variable v && str_in (zscore_o_col v) available)
          selected_vars_js),
     List.filter (fun v => known_variable v && negb (str_in (zscore_o_col v) available))
       selected_vars_js).
Proof.
  induction selected_vars_js as [|v vs IH]; [reflexivity|].
  cbn [App.resolve_residential List.filter]. rewrite IH, dict_get_catalog.
  destruct (known_variable v) eqn:E; [|reflexivity].
  rewrite (proj2 (catalog_backend_names v E)). fold (zscore_o_col v).
  now destruct (str_in (zscore_o_col v) available).
Qed.

(** X2. The residential variable resolver of app.py uses, in request order, the column
    <name>_zscore_o of every catalog name whose column is among the available residential
    columns, reports the catalog names without such a column as invalid, and silently
    ignores names outside the catalog. *)
Theorem resolve_residential_partition (available selected_vars_js : list string) :
  App.resolve_residential available selected_vars_js
  = (List.map zscore_o_col
       (List.filter (fun v => known_variable v && str_in (zscore_o_col v) available)
          selected_vars_js),
     List.filter (fun v => known_variable v && negb (str_in (zscore_o_col v) available))
       selected_vars_js).
Proof. exact (resolve_residential_filters available selected_vars_js). Qed.

Lemma resolve_residential_local_filters
    (available_vars_js gdf_cols selected_vars_js : list string) :
  AppLocal.resolve_residential available_vars_js gdf_cols selected_vars_js
  = (List.map zscore_o_col
       (List.filter (fun v => known_variable v && str_in v available_vars_js
                              && str_in (zscore_o_col v) gdf_cols)
          selected_vars_js),
     List.filter (fun v => known_variable v
                           && negb (str_in v available_vars_js
                                    && str_in (zscore_o_col v) gdf_cols))
       selected_vars_js).
Proof.
  induction selected_vars_js as [|v vs IH]; [reflexivity|].
  cbn [AppLocal.resolve_residential List.filter]. rewrite IH, dict_get_catalog.
  destruct (known_variable v) eqn:E; [|reflexivity].
  rewrite (proj2 (catalog_backend_names v E)). fold (zscore_o_col v).
  destruct (str_in v available_vars_js); [|reflexivity].
  now destruct (str_in (zscore_o_col v) gdf_cols).
Qed.

(** X3. The residential variable resolver of app_local.py uses a catalog name only if it is
    in the list of usable variables computed at start-up and its _zscore_o column is still a
    column of the table; the other catalog names are reported as invalid and names outside
    the catalog are ignored. *)
Theorem resolve_residential_local_partition
    (available_vars_js gdf_cols selected_vars_js : list string) :
  AppLocal.resolve_residential available_vars_js gdf_cols selected_vars_js
  = (List.map zscore_o_col
       (List.filter (fun v => known_variable v && str_in v available_vars_js
                              && str_in (zscore_o_col v) gdf_cols)
          selected_vars_js),
     List.filter (fun v => known_variable v
                           && negb (str_in v available_vars_js
                                    && str_in (zscore_o_col v) gdf_cols))
       selected_vars_js).
Proof. exact (resolve_residential_local_filters available_vars_js gdf_cols selected_vars_js). Qed.

(** ** Index names *)

Lemma word_not_space (c : ascii) : is_word c = true -> is_space c = false.
Proof.
  destruct c as [b0 b1 b2 b3 b4 b5 b6 b7].
  destruct b0, b1, b2, b3, b4, b5, b6, b7; vm_compute; congruence.
Qed.

Lemma key_char_not_space (c : ascii) : key_char c = true -> is_space c = false.
Proof.
  destruct c as [b0 b1 b2 b3 b4 b5 b6 b7].
  destruct b0, b1, b2, b3, b4, b5, b6, b7; vm_compute; congruence.
Qed.

Lemma lstrip_no_space (l : list ascii) :
  forallb (fun c => negb (is_space c)) l = true -> lstrip l = l.
Proof.
  destruct l as [|c l]; [reflexivity|]. simpl.
  intros H. apply andb_true_iff in H as [H _]. apply negb_true_iff in H. now rewrite H.
Qed.

Lemma forallb_rev {A : Type} (f : A -> bool) (l : list A) :
  forallb f (rev l) = forallb f l.
Proof.
  induction l as [|x l IH]; [reflexivity|].
  simpl. rewrite forallb_app, IH. simpl. rewrite andb_true_r. apply andb_comm.
Qed.

Lemma strip_no_space (s : string) :
  forallb (fun c => negb (is_space c)) (list_ascii_of_string s) = true -> strip s = s.
Proof.
  intros H. unfold strip. rewrite (lstrip_no_space _ H).
  rewrite lstrip_no_space by now rewrite forallb_rev.
  rewrite rev_involutive. apply string_of_list_ascii_of_string.
Qed.

Lemma forallb_impl {A : Type} (f g : A -> bool) (l : list A) :
  (forall x, f x = true -> g x = true) -> forallb f l = true -> forallb g l = true.
Proof.
  intros Hfg. rewrite !forallb_forall. intros H x Hx. now apply Hfg, H.
Qed.

Lemma sub_spaces_no_space (l : list ascii) :
  forallb (fun c => negb (is_space c)) l = true -> sub_spaces false l = l.
Proof.
  induction l as [|c l IH]; [reflexivity|]. simpl. intros H.
  apply andb_true_iff in H as [Hc Hl]. apply negb_true_iff in Hc. rewrite Hc.
  now rewrite IH.
Qed.

Lemma clean_index_name_chars (name : string) :
  forallb is_word (list_ascii_of_string (clean_index_name name)) = true.
Proof.
  unfold clean_index_name. rewrite list_ascii_of_string_of_list_ascii.
  apply forallb_filter.
Qed.

Lemma word_chars_fixed (s : string) :
  forallb is_word (list_ascii_of_string s) = true ->
  strip s = s /\ clean_index_name s = s.
Proof.
  intros H.
  assert (Hns : forallb (fun c => negb (is_space c)) (list_ascii_of_string s) = true).
  { revert H. apply forallb_impl. intros c Hc. now rewrite (word_not_space c Hc). }
  split; [now apply strip_no_space|].
  unfold clean_index_name. rewrite (sub_spaces_no_space _ Hns).
  rewrite forallb_filter_id by exact H. apply string_of_list_ascii_of_string.
Qed.

(** X4. A sanitized index name consists of letters, digits and underscores only, and
    sanitizing it again (after the route's strip) gives the same name, so submitting the
    name a column was stored under addresses the same column. *)
Theorem sanitized_name_is_stable (name : string) :
  forallb is_word (list_ascii_of_string (clean_index_name name)) = true
  /\ clean_index_name (strip (clean_index_name name)) = clean_index_name name.
Proof.
  pose proof (clean_index_name_chars name) as H. split; [exact H|].
  destruct (word_chars_fixed _ H) as [Hs Hc]. now rewrite Hs, Hc.
Qed.

(** ** The suffix of an index column *)

Lemma list_ascii_of_string_app (a b : string) :
  list_ascii_of_string (a +:+ b) = list_ascii_of_string a ++ list_ascii_of_string b.
Proof. induction a as [|c a IH]; simpl; [reflexivity | now rewrite IH]. Qed.

Lemma ends_with_last (suffix s : string) (c : ascii) :
  ends_with suffix s ->
  hd c (rev (list_ascii_of_string suffix)) = hd c (rev (list_ascii_of_string s))
  \/ suffix = "".
Proof.
  intros [p ->]. rewrite list_ascii_of_string_app, rev_app_distr.
  destruct suffix as [|x suffix]; [now right|]. left.
  destruct (rev (list_ascii_of_string (String x suffix))) as [|y l] eqn:E; [|reflexivity].
  apply (f_equal (@length ascii)) in E. rewrite length_rev in E. discriminate.
Qed.

(** X5. Whatever name the user submits, the generated column names <name>_ACT and <name>_RES
    differ from Origin_tract, geometry, perc_visit and from every column ending in _zscore_o
    or _zscore_d, so the drop of an existing index column never removes a key, geometry or
    z-score column. *)
Theorem index_column_is_no_source_column (cleaned_base_name k : string) :
  k = "Origin_tract" \/ k = "geometry" \/ k = "perc_visit"
  \/ ends_with "_zscore_o" k \/ ends_with "_zscore_d" k ->
  cleaned_base_name +:+ "_ACT" <> k /\ cleaned_base_name +:+ "_RES" <> k.
Proof.
  intros Hk.
  assert (Hlast : hd " "%char (rev (list_ascii_of_string k)) <> "T"%char
                  /\ hd " "%char (rev (list_ascii_of_string k)) <> "S"%char).
  { destruct Hk as [-> | [-> | [-> | [H | H]]]]; try (split; vm_compute; discriminate);
      destruct (ends_with_last _ _ " "%char H) as [<- | E];
      try discriminate; split; vm_compute; discriminate. }
  split; intros <-;
    rewrite list_ascii_of_string_app, rev_app_distr in Hlast; simpl in Hlast; tauto.
Qed.

(** ** What a generation changes *)

Lemma drop_column_absent (c : string) (g : GeoDataFrame) :
  wf_gdf g -> ~ In c (gdf_columns g) -> drop_column c g = g.
Proof.
  intros Hwf Hc. destruct g as [cols rows]. unfold drop_column. simpl in *. f_equal.
  - apply filter_all. intros k Hk. apply negb_true_iff, String.eqb_neq. congruence.
  - rewrite <- (map_id rows) at 2. apply map_ext_in. intros r Hr.
    destruct r as [t cells]. simpl. f_equal.
    apply filter_all. intros kv Hkv. apply negb_true_iff, String.eqb_neq.
    intros ->. apply Hc. exact (Hwf _ Hr kv Hkv).
Qed.

Lemma drop_existing_gdf (c : string) (g : GeoDataFrame) (s : App.state) :
  wf_gdf g -> fst (App.drop_existing c g s) = drop_column c g.
Proof.
  intros Hwf. unfold App.drop_existing.
  destruct (str_in c (gdf_columns g)) eqn:E; [reflexivity|]. simpl.
  symmetry. apply drop_column_absent; [exact Hwf | now apply str_in_false].
Qed.

Lemma wf_drop_column (c : string) (g : GeoDataFrame) : wf_gdf g -> wf_gdf (drop_column c g).
Proof.
  intros Hwf r Hr kv Hkv. simpl in *.
  apply in_map_iff in Hr as [r0 [<- Hr0]]. simpl in Hkv.
  apply filter_In in Hkv as [Hkv Hne]. apply filter_In. split; [|exact Hne].
  exact (Hwf _ Hr0 kv Hkv).
Qed.

Lemma wf_add_cell (c : string) (v : cell) (r : grow) (cols : list string) :
  (forall kv, In kv (g_cells r) -> In (fst kv) cols) ->
  forall kv, In kv (g_cells (add_cell c v r)) -> In (fst kv) (cols ++ [c]).
Proof.
  intros H kv Hkv. simpl in Hkv. apply in_app_or in Hkv as [Hkv | [<- | []]].
  - apply in_or_app. left. now apply H.
  - apply in_or_app. right. now left.
Qed.

Lemma wf_merge_left (c : string) (g : GeoDataFrame) (right : list (string * cell)) :
  wf_gdf g -> wf_gdf (merge_left c g right).
Proof.
  intros Hwf r Hr. simpl in Hr. apply in_flat_map in Hr as [r0 [Hr0 Hr]].
  apply merge_row_shape in Hr as [v ->]. apply wf_add_cell. exact (Hwf _ Hr0).
Qed.

Lemma wf_assign_column (c : string) (values : list cell) (g : GeoDataFrame) :
  wf_gdf g -> wf_gdf (assign_column c values g).
Proof.
  intros Hwf r Hr. simpl in Hr. apply in_map_iff in Hr as [[r0 v] [<- Hin]].
  apply in_combine_l in Hin. apply wf_add_cell. exact (Hwf _ Hin).
Qed.

Lemma drop_add_cell (c : string) (v : cell) (r : grow) :
  (forall kv, In kv (g_cells r) -> fst kv <> c) ->
  {| g_tract := g_tract (add_cell c v r);
     g_cells := List.filter (fun kv => negb (String.eqb c (fst kv))) (g_cells (add_cell c v r)) |}
  = r.
Proof.
  intros H. destruct r as [t cells]. simpl in *. f_equal.
  rewrite List.filter_app. simpl. rewrite String.eqb_refl. simpl. rewrite app_nil_r.
  apply filter_all. intros kv Hkv. apply negb_true_iff, String.eqb_neq.
  intros Heq. now apply (H kv Hkv).
Qed.

Lemma drop_assign_column (c : string) (values : list cell) (g : GeoDataFrame) :
  length values = length (gdf_rows g) ->
  ~ In c (gdf_columns g) ->
  (forall r kv, In r (gdf_rows g) -> In kv (g_cells r) -> fst kv <> c) ->
  drop_column c (assign_column c values g) = g
  /\ column_values c (assign_column c values g) = values.
Proof.
  intros Hlen Hcol Hcells. destruct g as [cols rows].
  unfold drop_column, column_values, assign_column. simpl in *. split.
  - f_equal.
    + rewrite List.filter_app. simpl. rewrite String.eqb_refl. simpl. rewrite app_nil_r.
      apply filter_all. intros k Hk. apply negb_true_iff, String.eqb_neq. congruence.
    + revert values Hlen. induction rows as [|r rows IH]; intros values Hlen.
      * reflexivity.
      * destruct values as [|v values]; [discriminate|]. simpl. f_equal.
        -- apply drop_add_cell. intros kv Hkv. exact (Hcells r kv (or_introl eq_refl) Hkv).
        -- apply IH; [|simpl in Hlen; lia]. intros r' kv Hr'. apply Hcells. now right.
  - revert values Hlen. induction rows as [|r rows IH]; intros values Hlen.
    + now destruct values.
    + destruct values as [|v values]; [discriminate|]. simpl. f_equal.
      * assert (Hr : forall kv, In kv (g_cells r) -> fst kv <> c)
          by (intros kv Hkv; exact (Hcells r kv (or_introl eq_refl) Hkv)).
        clear -Hr. induction (g_cells r) as [|[k x] cells IHc]; simpl.
        -- now rewrite String.eqb_refl.
        -- destruct (String.eqb c k) eqn:E.
           ++ apply String.eqb_eq in E. exfalso. apply (Hr (k, x)); [now left | now subst].
           ++ apply IHc. intros kv Hkv. apply Hr. now right.
      * apply IH; [|simpl in Hlen; lia]. intros r' kv Hr'. apply Hcells. now right.
Qed.

Lemma prepare_activity_index_name
    (parse_number : string -> option Qc) (pq : DataFrame string) (body : option request)
    (c : string) (right : list (string * cell)) :
  App.prepare_activity_index parse_number pq body = inr (c, right) ->
  c = index_name_of body +:+ "_ACT".
Proof.
  unfold App.prepare_activity_index.
  destruct (validate_inputs _ _ body) as [m | [cleaned vars]] eqn:Hv; [discriminate|].
  apply validate_inputs_name in Hv. subst cleaned.
  destruct (resolve_activity vars) as [[sel inv] cols].
  destruct sel as [|b sel]; [discriminate|].
  destruct (List.filter _ cols) as [|m ms]; [|discriminate].
  destruct (negb _); [discriminate|].
  destruct (App.index_to_merge_of _ _ _) as [right'|]; [|discriminate].
  now intros [= <- _].
Qed.

Lemma prepare_residential_index_name (s : App.state) (gdf : GeoDataFrame)
    (body : option request) (c : string) (cols : list string) (values : list cell) :
  App.prepare_residential_index s gdf body = inr (c, cols, values) ->
  c = index_name_of body +:+ "_RES".
Proof.
  unfold App.prepare_residential_index.
  destruct (validate_inputs _ _ body) as [m | [cleaned vars]] eqn:Hv; [discriminate|].
  apply validate_inputs_name in Hv. subst cleaned.
  destruct (App.resolve_residential _ vars) as [req inv].
  destruct req as [|c0 req]; [discriminate|].
  destruct (List.filter _ (c0 :: req)) as [|c1 avg]; [discriminate|].
  now intros [= <- _ _].
Qed.

Lemma generate_activity_index_cases
    (parse_number : string -> option Qc) (s : App.state) (body : option request) :
  App.generate_activity_index parse_number s body
  = (fst (App.generate_activity_index parse_number s body), s)
  \/ exists gdf pq right,
      App.global_gdf s = Some gdf /\ App.parquet_df s = Some pq
      /\ App.prepare_activity_index parse_number pq body
         = inr (index_name_of body +:+ "_ACT", right)
      /\ App.generate_activity_index parse_number s body
         = App.merge_and_send s gdf (index_name_of body +:+ "_ACT") right.
Proof.
  unfold App.generate_activity_index.
  destruct (App.global_gdf s) as [gdf|], (App.parquet_df s) as [pq|]; try now left.
  destruct (App.prepare_activity_index parse_number pq body) as [e | [c right]] eqn:Hp;
    [now left|].
  right. pose proof (prepare_activity_index_name _ _ _ _ _ Hp) as ->.
  exists gdf, pq, right. tauto.
Qed.

Lemma prepare_residential_index_error (s : App.state) (gdf : GeoDataFrame)
    (body : option request) (e : response) :
  App.prepare_residential_index s gdf body = inl e -> status_of e <> 200%nat.
Proof.
  unfold App.prepare_residential_index.
  destruct (validate_inputs _ _ body) as [m | [cleaned vars]]; [intros [= <-]; discriminate|].
  destruct (App.resolve_residential _ vars) as [req inv].
  destruct req as [|c0 req]; [intros [= <-]; discriminate|].
  destruct (List.filter _ (c0 :: req)) as [|c1 avg]; [intros [= <-]; discriminate | discriminate].
Qed.

Lemma generate_residential_index_cases (s : App.state) (gdf : GeoDataFrame)
    (body : option request) :
  App.global_gdf s = Some gdf ->
  (exists e, status_of e <> 200%nat /\ App.generate_residential_index s body = (e, s))
  \/ exists cols,
      App.prepare_residential_index s gdf body
      = inr (index_name_of body +:+ "_RES", cols, residential_values cols gdf)
      /\ App.generate_residential_index s body
         = App.attach_and_send s gdf (index_name_of body +:+ "_RES")
             (residential_values cols gdf).
Proof.
  intros Hg. unfold App.generate_residential_index. rewrite Hg.
  destruct (App.prepare_residential_index s gdf body) as [e | [[c cols] values]] eqn:Hp.
  - left. exists e. split; [now apply prepare_residential_index_error in Hp | reflexivity].
  - right. pose proof (prepare_residential_index_name _ _ _ _ _ _ Hp) as ->.
    destruct (prepare_residential_values _ _ _ _ _ _ Hp) as [_ ->].
    exists cols. tauto.
Qed.

Lemma attach_and_send_state (s : App.state) (gdf : GeoDataFrame) (c : string)
    (values : list cell) :
  snd (App.attach_and_send s gdf c values)
  = App.register c
      (App.set_gdf (assign_column c values (fst (App.drop_existing c gdf s)))
         (snd (App.drop_existing c gdf s))).
Proof.
  unfold App.attach_and_send. now destruct (App.drop_existing c gdf s) as [gdf1 s1].
Qed.

Lemma length_drop_column (c : string) (g : GeoDataFrame) :
  length (gdf_rows (drop_column c g)) = length (gdf_rows g).
Proof. simpl. apply length_map. Qed.

(** X6. With both tables loaded, well-formed rows and normalized visitation keys, an
    activity generation request (whatever its body and outcome) leaves a well-formed Base
    Geo Table that equals the old one once the column <name>_ACT is dropped from both: no
    other column, no row and no key changes. *)
Theorem activity_generation_changes_one_column
    (parse_number : string -> option Qc) (s : App.state) (gdf : GeoDataFrame)
    (pq : DataFrame string) (body : option request) :
  App.global_gdf s = Some gdf ->
  App.parquet_df s = Some pq ->
  wf_gdf gdf ->
  keys_normalized parse_number pq ->
  exists gdf',
    App.global_gdf (snd (App.generate_activity_index parse_number s body)) = Some gdf'
    /\ wf_gdf gdf'
    /\ drop_column (index_name_of body +:+ "_ACT") gdf'
       = drop_column (index_name_of body +:+ "_ACT") gdf.
Proof.
  intros Hg Hp Hwf Hnorm.
  destruct (generate_activity_index_cases parse_number s body)
    as [-> | (gdf0 & pq0 & right & Hg0 & Hp0 & Hprep & ->)].
  - exists gdf. simpl. tauto.
  - rewrite Hg in Hg0. rewrite Hp in Hp0. injection Hg0 as <-. injection Hp0 as <-.
    set (c := index_name_of body +:+ "_ACT") in *.
    destruct (prepare_activity_index_ok _ _ _ _ _ Hnorm Hprep) as [_ Hnd].
    rewrite merge_and_send_state. simpl. eexists. split; [reflexivity|].
    destruct (drop_existing_clean c gdf s Hwf) as [Hcol Hcells].
    rewrite (drop_existing_gdf c gdf s Hwf) in *. split.
    + apply wf_merge_left, wf_drop_column, Hwf.
    + now apply drop_merge_left.
Qed.

(** X7. With the Base Geo Table loaded and well-formed, a residential generation request
    leaves a well-formed table that equals the old one once the column <name>_RES is dropped
    from both; when the response has status 200 that column holds the row means computed by
    the request. *)
Theorem residential_generation_changes_one_column
    (s : App.state) (gdf : GeoDataFrame) (body : option request) :
  App.global_gdf s = Some gdf ->
  wf_gdf gdf ->
  exists gdf',
    App.global_gdf (snd (App.generate_residential_index s body)) = Some gdf'
    /\ wf_gdf gdf'
    /\ drop_column (index_name_of body +:+ "_RES") gdf'
       = drop_column (index_name_of body +:+ "_RES") gdf
    /\ (status_of (fst (App.generate_residential_index s body)) = 200%nat ->
        exists cols,
          App.prepare_residential_index s gdf body
          = inr (index_name_of body +:+ "_RES", cols, residential_values cols gdf)
          /\ column_values (index_name_of body +:+ "_RES") gdf' = residential_values cols gdf).
Proof.
  intros Hg Hwf.
  destruct (generate_residential_index_cases s gdf body Hg)
    as [(e & He & ->) | (cols & Hprep & ->)].
  - exists gdf. simpl. repeat split; try assumption. intros H200. contradiction.
  - set (c := index_name_of body +:+ "_RES") in *.
    rewrite attach_and_send_state. simpl. eexists. split; [reflexivity|].
    destruct (drop_existing_clean c gdf s Hwf) as [Hcol Hcells].
    rewrite (drop_existing_gdf c gdf s Hwf) in *.
    assert (Hlen : length (residential_values cols gdf)
                   = length (gdf_rows (drop_column c gdf))).
    { unfold residential_values. now rewrite length_map, length_drop_column. }
    destruct (drop_assign_column c _ _ Hlen Hcol Hcells) as [Hdrop Hvals].
    split; [apply wf_assign_column, wf_drop_column, Hwf|].
    split; [exact Hdrop|]. intros _. exists cols. split; [exact Hprep | exact Hvals].
Qed.

(** ** The registry *)

Lemma sample_gdf_wf : wf_gdf sample_gdf.
Proof.
  intros r Hr kv Hkv. simpl in Hr.
  destruct Hr as [<- | [<- | []]]; simpl in Hkv;
    destruct Hkv as [<- | [<- | []]]; simpl; tauto.
Qed.

Lemma sample_parquet_normalized : keys_normalized parse_decimal sample_parquet.
Proof. intros r [<- | []]. vm_compute. reflexivity. Qed.

Lemma drop_existing_registry (c : string) (gdf : GeoDataFrame) (s : App.state) :
  App.global_gdf s = Some gdf ->
  registry_in_table s ->
  forall x, x ∈ App.generated_index_columns (snd (App.drop_existing c gdf s)) ->
            x <> c /\ In x (gdf_columns (fst (App.drop_existing c gdf s))).
Proof.
  intros Hg Hreg x. unfold App.drop_existing.
  destruct (str_in c (gdf_columns gdf)) eqn:E; simpl.
  - rewrite elem_of_difference, elem_of_singleton. intros [Hx Hne]. split; [exact Hne|].
    apply filter_In. split; [exact (Hreg gdf Hg x Hx)|].
    apply negb_true_iff, String.eqb_neq. congruence.
  - intros Hx. pose proof (Hreg gdf Hg x Hx) as Hin. split; [|exact Hin].
    intros ->. apply str_in_false in E. contradiction.
Qed.

Lemma registered_state (c : string) (g1 g' : GeoDataFrame) (gdf : GeoDataFrame) (s : App.state) :
  App.global_gdf s = Some gdf ->
  registry_in_table s ->
  g1 = fst (App.drop_existing c gdf s) ->
  gdf_columns g' = gdf_columns g1 ++ [c] ->
  registry_in_table (App.register c (App.set_gdf g' (snd (App.drop_existing c gdf s)))).
Proof.
  intros Hg Hreg -> Hcols g Hg' x Hx. simpl in Hg', Hx. injection Hg' as <-.
  rewrite Hcols. apply in_or_app.
  apply elem_of_union in Hx as [Hx | Hx].
  - apply elem_of_singleton in Hx. right. now left.
  - left. now apply (drop_existing_registry c gdf s Hg Hreg x).
Qed.

(** X8. If every registered index is a column of the Base Geo Table, this still holds after
    any activity or residential generation request, whether it succeeds or fails. *)
Theorem registry_stays_in_table
    (parse_number : string -> option Qc) (s : App.state) (body : option request) :
  registry_in_table s ->
  registry_in_table (snd (App.generate_activity_index parse_number s body))
  /\ registry_in_table (snd (App.generate_residential_index s body)).
Proof.
  intros Hreg. split.
  - destruct (generate_activity_index_cases parse_number s body)
      as [-> | (gdf & pq & right & Hg & Hp & Hprep & ->)]; [exact Hreg|].
    rewrite merge_and_send_state. now apply (registered_state _ _ _ gdf s Hg Hreg eq_refl).
  - destruct (App.global_gdf s) as [gdf|] eqn:Hg.
    + destruct (generate_residential_index_cases s gdf body Hg)
        as [(e & He & ->) | (cols & Hprep & ->)]; [exact Hreg|].
      rewrite attach_and_send_state.
      now apply (registered_state _ _ _ gdf s Hg Hreg eq_refl).
    + unfold App.generate_residential_index. now rewrite Hg.
Qed.

(** ** The columns sent to the frontend *)

Lemma insert_sorted_In (x y : string) (l : list string) :
  In y (insert_sorted x l) <-> y = x \/ In y l.
Proof.
  induction l as [|z l IH]; simpl; [intuition congruence|].
  destruct (String.leb x z); simpl; [intuition congruence|].
  rewrite IH. intuition congruence.
Qed.

Lemma sorted_set_In (x : string) (l : list string) : In x (sorted_set l) <-> In x l.
Proof.
  unfold sorted_set. rewrite <- (nodup_In string_dec l x).
  induction (nodup string_dec l) as [|y n IH]; simpl; [tauto|].
  rewrite insert_sorted_In, IH. intuition congruence.
Qed.

Lemma insert_sorted_NoDup (x : string) (l : list string) :
  ~ In x l -> List.NoDup l -> List.NoDup (insert_sorted x l).
Proof.
  induction l as [|z l IH]; simpl; intros Hx Hnd.
  - constructor; [tauto | constructor].
  - destruct (String.leb x z).
    + constructor; [simpl; tauto | exact Hnd].
    + inversion Hnd as [|? ? Hz Hnd']. subst. constructor.
      * rewrite insert_sorted_In. intuition congruence.
      * apply IH; tauto.
Qed.

Lemma sorted_set_NoDup (l : list string) : List.NoDup (sorted_set l).
Proof.
  unfold sorted_set. pose proof (List.NoDup_nodup string_dec l) as Hnd.
  induction (nodup string_dec l) as [|y n IH]; simpl; [constructor|].
  inversion Hnd as [|? ? Hy Hnd']. subst. apply insert_sorted_NoDup; [|now apply IH].
  intros Hin. apply Hy. clear -Hin.
  induction n as [|z n IH]; simpl in *; [exact Hin|].
  apply insert_sorted_In in Hin as [-> | Hin]; [now left | right; now apply IH].
Qed.

Lemma insert_sorted_ascending (x : string) (l : list string) :
  ascending l -> ascending (insert_sorted x l).
Proof.
  induction l as [|z l IH]; intros Hasc; [exact I|].
  cbn [insert_sorted]. destruct (String.leb x z) eqn:E.
  - change (String.leb x z = true /\ ascending (z :: l)). split; assumption.
  - assert (Hzx : String.leb z x = true).
    { destruct (String.leb_total x z) as [H | H]; congruence. }
    destruct l as [|w l].
    + simpl. split; [exact Hzx | exact I].
    + destruct Hasc as [Hzw Hasc]. specialize (IH Hasc). cbn [insert_sorted] in *.
      destruct (String.leb x w).
      * change (String.leb z x = true /\ ascending (x :: w :: l)). split; assumption.
      * change (String.leb z w = true /\ ascending (w :: insert_sorted x l)).
        split; assumption.
Qed.

Lemma sorted_set_ascending (l : list string) : ascending (sorted_set l).
Proof.
  unfold sorted_set. induction (nodup string_dec l) as [|y n IH]; [exact I|].
  simpl. now apply insert_sorted_ascending.
Qed.

Lemma frontend_columns_In (s : App.state) (g : GeoDataFrame) (c : string) :
  App.global_gdf s = Some g ->
  (In c (App.get_columns_for_frontend s)
   <-> In c (gdf_columns g)
       /\ (In c (App.verified_frontend_cols s)
           \/ In c ["Origin_tract"; "geometry"; "COUNTYFP"; "population_x_o"; "race"]
           \/ c ∈ App.generated_index_columns s)).
Proof.
  intros Hg. unfold App.get_columns_for_frontend. rewrite Hg.
  assert (Hel : In c (elements (App.generated_index_columns s))
                <-> c ∈ App.generated_index_columns s).
  { rewrite <- list_elem_of_In. apply elem_of_elements. }
  rewrite sorted_set_In, filter_In, str_in_In, !in_app_iff, filter_In, str_in_In, Hel.
  tauto.
Qed.

(** X9. The column list sent to the front end contains exactly the columns of the Base Geo
    Table that are verified front-end columns, one of the five essential columns or
    registered indices; it has no duplicates and is sorted. *)
Theorem frontend_columns_membership (s : App.state) (g : GeoDataFrame) (c : string) :
  App.global_gdf s = Some g ->
  (In c (App.get_columns_for_frontend s)
   <-> In c (gdf_columns g)
       /\ (In c (App.verified_frontend_cols s)
           \/ In c ["Origin_tract"; "geometry"; "COUNTYFP"; "population_x_o"; "race"]
           \/ c ∈ App.generated_index_columns s))
  /\ List.NoDup (App.get_columns_for_frontend s)
  /\ ascending (App.get_columns_for_frontend s).
Proof.
  intros Hg. split; [now apply frontend_columns_In|].
  unfold App.get_columns_for_frontend. rewrite Hg.
  split; [apply sorted_set_NoDup | apply sorted_set_ascending].
Qed.

Lemma frontend_columns_membership_witness :
  In "geometry" (App.get_columns_for_frontend sample_state)
  /\ ~ In "OZONE_zscore_o" (App.get_columns_for_frontend sample_state).
Proof.
  pose proof (fun c => proj1 (frontend_columns_membership sample_state sample_gdf c eq_refl)) as H.
  split.
  - apply H. simpl. tauto.
  - intros Hin. apply H in Hin as [_ [Hin | [Hin | Hin]]].
    + simpl in Hin. intuition discriminate.
    + simpl in Hin. intuition discriminate.
    + simpl in Hin. now apply not_elem_of_empty in Hin.
Defined.

(** X10. GET /geojson of app.py answers 503 exactly when the Base Geo Table is not loaded
    and 200 exactly when it is loaded and has a geometry column; a 200 document has the
    front-end columns and the table's rows in order. *)
Theorem geojson_status (s : App.state) :
  (status_of (App.geojson s) = 503%nat <-> App.global_gdf s = None)
  /\ (status_of (App.geojson s) = 200%nat
      <-> exists g, App.global_gdf s = Some g /\ In "geometry" (gdf_columns g))
  /\ (forall doc, App.geojson s = Json doc ->
        gdf_columns doc = App.get_columns_for_frontend s
        /\ List.map g_tract (gdf_rows doc)
           = match App.global_gdf s with
             | Some g => List.map g_tract (gdf_rows g)
             | None => []
             end).
Proof.
  unfold App.geojson. destruct (App.global_gdf s) as [g|] eqn:Hg.
  - assert (Hgeo : str_in "geometry" (App.get_columns_for_frontend s) = true
                   <-> In "geometry" (gdf_columns g)).
    { rewrite str_in_In. pose proof (frontend_columns_In s g "geometry" Hg) as H.
      rewrite H. simpl. tauto. }
    destruct (str_in "geometry" (App.get_columns_for_frontend s)) eqn:E; simpl.
    + repeat split; try discriminate.
      * intros _. exists g. split; [reflexivity | now apply Hgeo].
      * now injection H as <-.
      * injection H as <-. simpl. now rewrite map_map.
    + repeat split; try discriminate.
      intros [g' [[= <-] Hin]]. apply Hgeo in Hin. discriminate.
  - simpl. repeat split; try discriminate. intros [g [? _]]. discriminate.
Qed.

Lemma geojson_status_witness :
  status_of (App.geojson sample_state) = 200%nat
  /\ status_of (App.geojson unloaded_state) = 503%nat.
Proof.
  split.
  - apply (proj1 (proj2 (geojson_status sample_state))).
    exists sample_gdf. split; [reflexivity | simpl; tauto].
  - apply (proj1 (geojson_status unloaded_state)). reflexivity.
Defined.

Lemma index_column_is_no_source_column_witness :
  "Home" +:+ "_ACT" <> zscore_o_col "OZONE" /\ "Home" +:+ "_RES" <> zscore_o_col "OZONE".
Proof.
  apply (index_column_is_no_source_column "Home" (zscore_o_col "OZONE")).
  right. right. right. left. exists "OZONE". reflexivity.
Defined.

Lemma activity_generation_changes_one_column_witness :
  exists gdf',
    App.global_gdf (snd (App.generate_activity_index parse_decimal sample_state sample_request))
    = Some gdf'
    /\ wf_gdf gdf'
    /\ drop_column (index_name_of sample_request +:+ "_ACT") gdf'
       = drop_column (index_name_of sample_request +:+ "_ACT") sample_gdf.
Proof.
  apply (activity_generation_changes_one_column parse_decimal sample_state sample_gdf
           sample_parquet sample_request).
  - reflexivity.
  - reflexivity.
  - exact sample_gdf_wf.
  - exact sample_parquet_normalized.
Defined.

Lemma residential_generation_changes_one_column_witness :
  exists gdf',
    App.global_gdf (snd (App.generate_residential_index sample_state sample_residential_request))
    = Some gdf'
    /\ wf_gdf gdf'
    /\ drop_column (index_name_of sample_residential_request +:+ "_RES") gdf'
       = drop_column (index_name_of sample_residential_request +:+ "_RES") sample_gdf.
Proof.
  destruct (residential_generation_changes_one_column sample_state sample_gdf
              sample_residential_request eq_refl sample_gdf_wf) as [g' [H1 [H2 [H3 _]]]].
  exists g'. tauto.
Defined.

Lemma sample_registry_in_table : registry_in_table sample_state.
Proof. intros g _ c Hc. simpl in Hc. now apply not_elem_of_empty in Hc. Qed.

Lemma registry_stays_in_table_witness :
  registry_in_table
    (snd (App.generate_activity_index parse_decimal sample_state sample_request)).
Proof.
  apply (registry_stays_in_table parse_decimal sample_state sample_request).
  exact sample_registry_in_table.
Defined.

(** ** Row count of the merge *)

Lemma length_merge_row (c : string) (right : list (string * cell)) (r : grow) :
  (1 <= length (merge_row c right r))%nat.
Proof.
  unfold merge_row.
  destruct (List.filter (fun kv => String.eqb (fst kv) (g_tract r)) right); simpl; lia.
Qed.

(** X11. The left merge never returns fewer rows than the Base Geo Table has; when the keys
    of the index table are pairwise distinct it returns the same number of rows with the
    same keys in the same order. *)
Theorem merge_left_row_count (c : string) (g : GeoDataFrame) (right : list (string * cell)) :
  (length (gdf_rows g) <= length (gdf_rows (merge_left c g right)))%nat
  /\ (NoDup (List.map fst right) ->
      length (gdf_rows (merge_left c g right)) = length (gdf_rows g)
      /\ List.map g_tract (gdf_rows (merge_left c g right)) = List.map g_tract (gdf_rows g)).
Proof.
  simpl. split.
  - induction (gdf_rows g) as [|r rows IH]; simpl; [lia|].
    rewrite length_app. pose proof (length_merge_row c right r). lia.
  - intros Hnd. induction (gdf_rows g) as [|r rows IH]; simpl; [tauto|].
    destruct (merge_row_single c right r Hnd) as [v ->]. simpl.
    destruct IH as [IH1 IH2]. rewrite IH1, IH2. tauto.
Qed.

Lemma merge_left_row_count_witness :
  length (gdf_rows (merge_left "My_Index_ACT" sample_gdf [("1", ratio 300 1)]))
  = length (gdf_rows sample_gdf).
Proof.
  apply (proj2 (merge_left_row_count "My_Index_ACT" sample_gdf [("1", ratio 300 1)])).
  apply NoDup_ListNoDup. simpl. constructor; [simpl; tauto | constructor].
Defined.

(** ** Responses *)

Lemma send_updated_status (b : bool) (c m : string) (s : App.state) :
  status_of (App.send_updated b c m s) = 200%nat
  \/ status_of (App.send_updated b c m s) = 500%nat.
Proof.
  unfold App.send_updated. destruct (App.global_gdf s); [|now right].
  destruct (App.get_columns_for_frontend s); [now right|].
  destruct (b && _); [now right|]. destruct (_ && _); [now left | now right].
Qed.

Lemma send_updated_doc (b : bool) (c m : string) (s : App.state) (doc : GeoDataFrame) :
  App.send_updated b c m s = Json doc ->
  exists g, App.global_gdf s = Some g
            /\ In c (gdf_columns doc) /\ In "geometry" (gdf_columns doc)
            /\ gdf_columns doc = App.get_columns_for_frontend s
            /\ List.map g_tract (gdf_rows doc) = List.map g_tract (gdf_rows g).
Proof.
  unfold App.send_updated. destruct (App.global_gdf s) as [g|]; [|discriminate].
  destruct (App.get_columns_for_frontend s) as [|x cols] eqn:Hcols; [discriminate|].
  destruct (b && _); [discriminate|].
  destruct (str_in c (x :: cols) && str_in "geometry" (x :: cols)) eqn:E; [|discriminate].
  apply andb_true_iff in E as [E1 E2]. apply str_in_In in E1, E2.
  intros [= <-]. exists g. simpl. rewrite map_map. simpl. tauto.
Qed.

(** X12. In app.py, a generation request answered with status 400 or 503 leaves the whole
    server state (table, registry, column lists) unchanged. *)
Theorem client_errors_change_nothing
    (parse_number : string -> option Qc) (s : App.state) (body : option request) :
  (status_of (fst (App.generate_activity_index parse_number s body)) = 400%nat
   \/ status_of (fst (App.generate_activity_index parse_number s body)) = 503%nat ->
   snd (App.generate_activity_index parse_number s body) = s)
  /\ (status_of (fst (App.generate_residential_index s body)) = 400%nat
      \/ status_of (fst (App.generate_residential_index s body)) = 503%nat ->
      snd (App.generate_residential_index s body) = s).
Proof.
  split.
  - unfold App.generate_activity_index.
    destruct (App.global_gdf s) as [gdf|], (App.parquet_df s) as [pq|]; try reflexivity.
    destruct (App.prepare_activity_index parse_number pq body) as [e | [c right]];
      [reflexivity|].
    unfold App.merge_and_send. destruct (App.drop_existing c gdf s) as [gdf1 s1].
    rewrite merge_checked_eq. simpl.
    destruct (send_updated_status false c "Failed to format final data"
                (App.register c (App.set_gdf (merge_left c gdf1 right) s1))) as [H | H];
      rewrite H; intros [? | ?]; discriminate.
  - unfold App.generate_residential_index.
    destruct (App.global_gdf s) as [gdf|]; [|reflexivity].
    destruct (App.prepare_residential_index s gdf body) as [e | [[c cols] values]];
      [reflexivity|].
    unfold App.attach_and_send. destruct (App.drop_existing c gdf s) as [gdf1 s1]. simpl.
    destruct (send_updated_status true c "Failed to format final data for residential"
                (App.register c (App.set_gdf (assign_column c values gdf1) s1))) as [H | H];
      rewrite H; intros [? | ?]; discriminate.
Qed.

Lemma client_errors_change_nothing_witness :
  snd (App.generate_activity_index parse_decimal sample_state empty_variables_request)
  = sample_state.
Proof.
  apply (proj1 (client_errors_change_nothing parse_decimal sample_state
                  empty_variables_request)).
  left. vm_compute. reflexivity.
Defined.

Lemma send_updated_ok (b : bool) (c m : string) (s : App.state) :
  status_of (App.send_updated b c m s) = 200%nat ->
  exists doc, App.send_updated b c m s = Json doc.
Proof.
  unfold App.send_updated. destruct (App.global_gdf s); [|discriminate].
  destruct (App.get_columns_for_frontend s); [discriminate|].
  destruct (b && _); [discriminate|]. destruct (_ && _); [eauto | discriminate].
Qed.

(** X13. In app.py, a generation request answered with status 200 returns a document that
    contains the new index column and the geometry column and has the keys of the stored
    table in order, and the new column is registered. *)
Theorem successful_response_shows_new_column
    (parse_number : string -> option Qc) (s : App.state) (body : option request) :
  (status_of (fst (App.generate_activity_index parse_number s body)) = 200%nat ->
   exists doc g',
     fst (App.generate_activity_index parse_number s body) = Json doc
     /\ App.global_gdf (snd (App.generate_activity_index parse_number s body)) = Some g'
     /\ In (index_name_of body +:+ "_ACT") (gdf_columns doc)
     /\ In "geometry" (gdf_columns doc)
     /\ index_name_of body +:+ "_ACT"
        ∈ App.generated_index_columns (snd (App.generate_activity_index parse_number s body))
     /\ List.map g_tract (gdf_rows doc) = List.map g_tract (gdf_rows g'))
  /\ (status_of (fst (App.generate_residential_index s body)) = 200%nat ->
      exists doc g',
        fst (App.generate_residential_index s body) = Json doc
        /\ App.global_gdf (snd (App.generate_residential_index s body)) = Some g'
        /\ In (index_name_of body +:+ "_RES") (gdf_columns doc)
        /\ In "geometry" (gdf_columns doc)
        /\ index_name_of body +:+ "_RES"
           ∈ App.generated_index_columns (snd (App.generate_residential_index s body))
        /\ List.map g_tract (gdf_rows doc) = List.map g_tract (gdf_rows g')).
Proof.
  split.
  - intros H200.
    destruct (generate_activity_index_success parse_number s body H200)
      as (gdf & pq & c & right & Hg & Hp & Hprep & Hgen).
    pose proof (prepare_activity_index_name _ _ _ _ _ Hprep) as ->.
    rewrite Hgen in H200 |- *. revert H200.
    unfold App.merge_and_send. destruct (App.drop_existing _ gdf s) as [gdf1 s1].
    rewrite merge_checked_eq. simpl. intros H200.
    destruct (send_updated_ok _ _ _ _ H200) as [doc Hsend]. rewrite Hsend.
    destruct (send_updated_doc _ _ _ _ _ Hsend) as (g' & Hg' & Hc & Hgeo & _ & Hrows).
    exists doc, g'. repeat split; try assumption.
    apply elem_of_union_l, elem_of_singleton. reflexivity.
  - intros H200. destruct (App.global_gdf s) as [gdf|] eqn:Hg.
    + destruct (generate_residential_index_cases s gdf body Hg)
        as [(e & He & Heq) | (cols & Hprep & Heq)].
      * rewrite Heq in H200. simpl in H200. contradiction.
      * rewrite Heq in H200 |- *. revert H200.
        unfold App.attach_and_send. destruct (App.drop_existing _ gdf s) as [gdf1 s1]. simpl.
        intros H200.
        destruct (send_updated_ok _ _ _ _ H200) as [doc Hsend]. rewrite Hsend.
        destruct (send_updated_doc _ _ _ _ _ Hsend) as (g' & Hg' & Hc & Hgeo & _ & Hrows).
        exists doc, g'. repeat split; try assumption.
        apply elem_of_union_l, elem_of_singleton. reflexivity.
    + exfalso. revert H200. unfold App.generate_residential_index. rewrite Hg. discriminate.
Qed.

Lemma successful_response_shows_new_column_witness :
  exists doc g',
    fst (App.generate_activity_index parse_decimal sample_state sample_request) = Json doc
    /\ App.global_gdf (snd (App.generate_activity_index parse_decimal sample_state sample_request))
       = Some g'
    /\ In (index_name_of sample_request +:+ "_ACT") (gdf_columns doc)
    /\ In "geometry" (gdf_columns doc)
    /\ index_name_of sample_request +:+ "_ACT"
       ∈ App.generated_index_columns
           (snd (App.generate_activity_index parse_decimal sample_state sample_request))
    /\ List.map g_tract (gdf_rows doc) = List.map g_tract (gdf_rows g').
Proof.
  apply (proj1 (successful_response_shows_new_column parse_decimal sample_state sample_request)).
  vm_compute. reflexivity.
Defined.

(** ** Tract keys *)

Lemma strip_pretty (z : Z) : strip (pretty z) = pretty z.
Proof.
  apply strip_no_space. generalize (pretty_Z_chars z). apply forallb_impl.
  intros c Hc. now rewrite (key_char_not_space c Hc).
Qed.

Lemma Qc_of_Z_this (z : Z) : this (Qc_of_Z z) = (z # 1)%Q.
Proof.
  unfold Qc_of_Z, Q2Qc. simpl. apply Qred_identity. simpl. apply Z.gcd_1_r.
Qed.

Lemma Qc_trunc_of_Z (z : Z) : Qc_trunc (Qc_of_Z z) = z.
Proof. unfold Qc_trunc. rewrite Qc_of_Z_this. simpl. apply Z.quot_1_r. Qed.

Lemma is_integral_of_Z (z : Z) : is_integral (Qc_of_Z z) = true.
Proof. unfold is_integral. now rewrite Qc_of_Z_this. Qed.

Lemma forallb_false_ex {A : Type} (f : A -> bool) (l : list A) :
  forallb f l = false <-> exists x, In x l /\ f x = false.
Proof.
  induction l as [|a l IH]; simpl.
  - split; [discriminate | intros [x [[] _]]].
  - rewrite andb_false_iff, IH. split.
    + intros [H | [x [Hx Hf]]]; [exists a; tauto | exists x; tauto].
    + intros [x [[<- | Hx] Hf]]; [now left | right; now exists x].
Qed.

Lemma astype_Int64_numeric (parse_number : string -> option Qc) (col : list raw_key) :
  astype_Int64 (List.map (to_numeric_coerce parse_number) col) = None
  <-> exists k, In k col /\ fractional_key parse_number k.
Proof.
  unfold astype_Int64.
  destruct (forallb _ _) eqn:E.
  - split; [discriminate|]. intros [k [Hk [q [Hq Hi]]]]. exfalso.
    rewrite forallb_forall in E.
    specialize (E (to_numeric_coerce parse_number k) (in_map _ _ _ Hk)).
    rewrite Hq in E. congruence.
  - split; [|intros _; reflexivity]. intros _.
    apply forallb_false_ex in E as [o [Ho Hf]].
    apply in_map_iff in Ho as [k [<- Hk]]. exists k. split; [exact Hk|]. unfold fractional_key.
    destruct (to_numeric_coerce parse_number k) as [q|]; [|discriminate].
    now exists q.
Qed.

Lemma astype_Int64_numeric_fails (parse_number : string -> option Qc) (col : list raw_key) :
  robust_tract_conversion parse_number col = None
  <-> exists k, In k col /\ fractional_key parse_number k.
Proof.
  rewrite <- astype_Int64_numeric. unfold robust_tract_conversion.
  destruct (astype_Int64 _); simpl; split; congruence.
Qed.






(** *** Reading a key back *)

Lemma digit_of_pretty_N_char (d : N) :
  (d < 10)%N -> digit_of (pretty_N_char d) = Some (Z.of_N d).
Proof.
  intros H.
  destruct d as [|p]; [reflexivity|].
  do 4 (destruct p as [p|p|]; try reflexivity; try lia).
Qed.

Lemma parse_digits_go (x : N) (s : string) :
  parse_digits 0 (list_ascii_of_string (pretty_N_go x s))
  = parse_digits (Z.of_N x) (list_ascii_of_string s).
Proof.
  revert s. induction (N.lt_wf_0 x) as [x _ IH]. intros s.
  destruct (decide (x = 0%N)) as [-> | Hx].
  - now rewrite pretty_N_go_0.
  - rewrite pretty_N_go_step by lia.
    rewrite IH by (apply N.div_lt; lia).
    simpl. rewrite digit_of_pretty_N_char by (apply N.mod_lt; lia).
    f_equal. rewrite (N.div_mod x 10) at 3 by lia. lia.
Qed.

Lemma parse_decimal_digits (l : list ascii) (z : Z) :
  z <> 0 -> parse_digits 0 l = Some z ->
  parse_decimal (string_of_list_ascii l) = Some (Qc_of_Z z).
Proof.
  intros Hz H. unfold parse_decimal. rewrite list_ascii_of_string_of_list_ascii.
  destruct l as [|c l]; [simpl in H; congruence|].
  destruct (ascii_dec c "-") as [-> | Hc]; [simpl in H; discriminate|].
  destruct c as [[] [] [] [] [] [] [] []]; try (rewrite H; reflexivity).
  now destruct Hc.
Qed.

Lemma parse_decimal_pretty (z : Z) : parse_decimal (pretty z) = Some (Qc_of_Z z).
Proof.
  assert (Hpos : forall p, parse_digits 0 (list_ascii_of_string (pretty (Zpos p)))
                           = Some (Zpos p)).
  { intros p. unfold pretty, pretty_Z, pretty, pretty_positive, pretty, pretty_N.
    destruct (decide (N.pos p = 0%N)); [discriminate|].
    rewrite parse_digits_go. reflexivity. }
  destruct z as [|p|p].
  - reflexivity.
  - rewrite <- (string_of_list_ascii_of_string (pretty (Z.pos p))).
    apply parse_decimal_digits; [discriminate | apply Hpos].
  - specialize (Hpos p).
    change (pretty (Z.neg p)) with ("-" +:+ pretty (Z.pos p)).
    unfold parse_decimal.
    change (list_ascii_of_string ("-" +:+ pretty (Z.pos p)))
      with ("-"%char :: list_ascii_of_string (pretty (Z.pos p))).
    destruct (list_ascii_of_string (pretty (Z.pos p))) as [|c l] eqn:E;
      [simpl in Hpos; congruence|].
    cbv iota beta. rewrite Hpos. reflexivity.
Qed.

Lemma parse_decimal_reads_integers : reads_integers parse_decimal.
Proof. split; [apply parse_decimal_pretty | reflexivity]. Qed.

Lemma normalize_key_cases (parse_number : string -> option Qc) (k : raw_key) :
  (to_numeric_coerce parse_number k = None /\ normalize_key parse_number k = NA_str)
  \/ (exists q, to_numeric_coerce parse_number k = Some q
                /\ normalize_key parse_number k = pretty (Qc_trunc q)).
Proof.
  unfold normalize_key. destruct (to_numeric_coerce parse_number k) as [q|].
  - right. exists q. split; [reflexivity | apply strip_pretty].
  - left. split; reflexivity.
Qed.

Lemma normalize_key_fixed (parse_number : string -> option Qc) (k : raw_key) :
  reads_integers parse_number ->
  normalize_key parse_number (KStr (normalize_key parse_number k))
  = normalize_key parse_number k.
Proof.
  intros [Hint Hna].
  destruct (normalize_key_cases parse_number k) as [[_ ->] | [q [_ ->]]].
  - unfold normalize_key. simpl. rewrite Hna. reflexivity.
  - unfold normalize_key at 1. simpl. rewrite Hint, Qc_trunc_of_Z. apply strip_pretty.
Qed.

(** X16. A normalized key is <NA> or the decimal text of an integer, and normalizing it
    again returns it unchanged, provided the number parser reads the decimal text of an
    integer back and does not read <NA>. *)
Theorem normalized_key_is_canonical (parse_number : string -> option Qc) (k : raw_key) :
  (normalize_key parse_number k = NA_str
   \/ exists z : Z, normalize_key parse_number k = pretty z)
  /\ (reads_integers parse_number ->
      normalize_key parse_number (KStr (normalize_key parse_number k))
      = normalize_key parse_number k).
Proof.
  split; [|apply normalize_key_fixed].
  destruct (normalize_key_cases parse_number k) as [[_ ->] | [q [_ ->]]];
    [now left | right; now exists (Qc_trunc q)].
Qed.

Lemma normalized_key_is_canonical_witness :
  normalize_key parse_decimal (KStr (normalize_key parse_decimal (KStr "0012")))
  = normalize_key parse_decimal (KStr "0012").
Proof.
  apply (proj2 (normalized_key_is_canonical parse_decimal (KStr "0012"))).
  exact parse_decimal_reads_integers.
Defined.

(** ** Names the routes do not use *)

Lemma filter_idem {A : Type} (f : A -> bool) (l : list A) :
  List.filter f (List.filter f l) = List.filter f l.
Proof.
  induction l as [|x l IH]; [reflexivity|]. simpl.
  destruct (f x) eqn:E; [|exact IH]. simpl. now rewrite E, IH.
Qed.

Lemma validate_inputs_variables (a b : string) (name : option string)
    (vs vs' : list string) :
  vs <> [] -> vs' <> [] ->
  (exists m, validate_inputs a b (request_of name vs) = inl m
             /\ validate_inputs a b (request_of name vs') = inl m)
  \/ (exists c, validate_inputs a b (request_of name vs) = inr (c, vs)
                /\ validate_inputs a b (request_of name vs') = inr (c, vs')).
Proof.
  intros Hvs Hvs'. unfold validate_inputs, request_of.
  cbn [req_name req_variables default].
  destruct (String.eqb (strip (default "" name)) ""); [left; eauto|].
  destruct vs as [|v vs]; [now destruct Hvs|].
  destruct vs' as [|v' vs']; [now destruct Hvs'|].
  destruct (String.eqb (clean_index_name (strip (default "" name))) "");
    [left; eauto | right; eauto].
Qed.

Lemma filter_nonempty {A : Type} (f : A -> bool) (l : list A) :
  List.filter f l <> [] -> l <> [].
Proof. now destruct l. Qed.

Lemma prepare_activity_index_known (parse_number : string -> option Qc)
    (pq : DataFrame string) (name : option string) (vs : list string) :
  List.filter known_variable vs <> [] ->
  App.prepare_activity_index parse_number pq (request_of name vs)
  = App.prepare_activity_index parse_number pq
      (request_of name (List.filter known_variable vs)).
Proof.
  intros Hne. unfold App.prepare_activity_index.
  destruct (validate_inputs_variables "Invalid request data."
              "Invalid index name after cleaning." name vs
              (List.filter known_variable vs) (filter_nonempty _ _ Hne) Hne)
    as [(m & -> & ->) | (c & -> & ->)]; [reflexivity|].
  rewrite !resolve_activity_filters, filter_idem. reflexivity.
Qed.

Lemma prepare_index_known (parse_number : string -> option Qc)
    (parquet_file : option (DataFrame raw_key)) (name : option string) (vs : list string) :
  List.filter known_variable vs <> [] ->
  AppLocal.prepare_index parse_number parquet_file (request_of name vs)
  = AppLocal.prepare_index parse_number parquet_file
      (request_of name (List.filter known_variable vs)).
Proof.
  intros Hne. unfold AppLocal.prepare_index.
  destruct (validate_inputs_variables "Invalid request data." "Invalid index name."
              name vs (List.filter known_variable vs) (filter_nonempty _ _ Hne) Hne)
    as [(m & -> & ->) | (c & -> & ->)]; [reflexivity|].
  rewrite !resolve_activity_filters, filter_idem. reflexivity.
Qed.

(** X17. An activity request that names unknown variables gets the same response and leaves
    the same state as the request with only its catalog variables, as long as one catalog
    variable is selected; this holds for app.py and app_local.py. *)
Theorem unknown_variables_are_ignored
    (parse_number : string -> option Qc) (s : App.state)
    (parquet_file : option (DataFrame raw_key)) (sl : AppLocal.state)
    (name : option string) (vs : list string) :
  List.filter known_variable vs <> [] ->
  App.generate_activity_index parse_number s (request_of name vs)
  = App.generate_activity_index parse_number s
      (request_of name (List.filter known_variable vs))
  /\ AppLocal.generate_index parse_number parquet_file sl (request_of name vs)
     = AppLocal.generate_index parse_number parquet_file sl
         (request_of name (List.filter known_variable vs)).
Proof.
  intros Hne. split.
  - unfold App.generate_activity_index.
    destruct (App.global_gdf s), (App.parquet_df s); try reflexivity.
    now rewrite prepare_activity_index_known.
  - unfold AppLocal.generate_index.
    destruct (AppLocal.global_gdf sl); [|reflexivity].
    now rewrite prepare_index_known.
Qed.

Lemma map_nonempty {A B : Type} (f : A -> B) (l : list A) : l <> [] -> List.map f l <> [].
Proof. now destruct l. Qed.

Lemma prepare_residential_index_usable (s : App.state) (gdf : GeoDataFrame)
    (name : option string) (vs : list string) :
  List.filter (usable_residential (App.available_geojson_columns s)) vs <> [] ->
  App.prepare_residential_index s gdf (request_of name vs)
  = App.prepare_residential_index s gdf
      (request_of name (List.filter (usable_residential (App.available_geojson_columns s)) vs)).
Proof.
  intros Hne. unfold App.prepare_residential_index.
  destruct (validate_inputs_variables "Invalid request." "Invalid index name."
              name vs _ (filter_nonempty _ _ Hne) Hne)
    as [(m & -> & ->) | (c & -> & ->)]; [reflexivity|].
  rewrite !resolve_residential_filters.
  change (fun v => known_variable v && str_in (zscore_o_col v) (App.available_geojson_columns s))
    with (usable_residential (App.available_geojson_columns s)).
  rewrite filter_idem. cbv beta iota.
  destruct (List.map zscore_o_col
              (List.filter (usable_residential (App.available_geojson_columns s)) vs))
    eqn:E; [|reflexivity].
  now destruct (map_nonempty zscore_o_col _ Hne).
Qed.

Lemma prepare_residential_index_local_usable (sl : AppLocal.state) (gdf : GeoDataFrame)
    (name : option string) (vs : list string) :
  List.filter (usable_residential_local (AppLocal.available_residential_vars_js sl)
                 (gdf_columns gdf)) vs <> [] ->
  AppLocal.prepare_residential_index sl gdf (request_of name vs)
  = AppLocal.prepare_residential_index sl gdf
      (request_of name
         (List.filter (usable_residential_local (AppLocal.available_residential_vars_js sl)
                         (gdf_columns gdf)) vs)).
Proof.
  intros Hne. unfold AppLocal.prepare_residential_index.
  destruct (validate_inputs_variables "Invalid request." "Invalid index name."
              name vs _ (filter_nonempty _ _ Hne) Hne)
    as [(m & -> & ->) | (c & -> & ->)]; [reflexivity|].
  rewrite !resolve_residential_local_filters.
  change (fun v => known_variable v && str_in v (AppLocal.available_residential_vars_js sl)
                   && str_in (zscore_o_col v) (gdf_columns gdf))
    with (usable_residential_local (AppLocal.available_residential_vars_js sl)
            (gdf_columns gdf)).
  rewrite filter_idem. cbv beta iota.
  destruct (List.map zscore_o_col
              (List.filter (usable_residential_local
                              (AppLocal.available_residential_vars_js sl)
                              (gdf_columns gdf)) vs))
    eqn:E; [|reflexivity].
  now destruct (map_nonempty zscore_o_col _ Hne).
Qed.

(** X18. A residential request gets the same response and leaves the same state as the
    request with only its usable variables (catalog names whose _zscore_o column is
    available), as long as one variable is usable; unknown names and names without data only
    produce warnings. *)
Theorem unusable_residential_variables_are_ignored
    (s : App.state) (sl : AppLocal.state) (gdf : GeoDataFrame)
    (name : option string) (vs : list string) :
  (List.filter (usable_residential (App.available_geojson_columns s)) vs <> [] ->
   App.generate_residential_index s (request_of name vs)
   = App.generate_residential_index s
       (request_of name
          (List.filter (usable_residential (App.available_geojson_columns s)) vs)))
  /\ (AppLocal.global_gdf sl = Some gdf ->
      List.filter (usable_residential_local (AppLocal.available_residential_vars_js sl)
                     (gdf_columns gdf)) vs <> [] ->
      AppLocal.generate_residential_index sl (request_of name vs)
      = AppLocal.generate_residential_index sl
          (request_of name
             (List.filter (usable_residential_local
                             (AppLocal.available_residential_vars_js sl)
                             (gdf_columns gdf)) vs))).
Proof.
  split.
  - intros Hne. unfold App.generate_residential_index.
    destruct (App.global_gdf s) as [g|]; [|reflexivity].
    now rewrite prepare_residential_index_usable.
  - intros Hg Hne. unfold AppLocal.generate_residential_index. rewrite Hg.
    now rewrite prepare_residential_index_local_usable.
Qed.

Lemma unknown_variables_are_ignored_witness :
  App.generate_activity_index parse_decimal sample_state
    (request_of (Some "Air") ["OZONE"; "no_such_variable"])
  = App.generate_activity_index parse_decimal sample_state
      (request_of (Some "Air") (List.filter known_variable ["OZONE"; "no_such_variable"])).
Proof.
  refine (proj1 (unknown_variables_are_ignored parse_decimal sample_state None
                   sample_local_state (Some "Air") ["OZONE"; "no_such_variable"] _)).
  vm_compute. discriminate.
Defined.

Lemma unusable_residential_variables_are_ignored_witness :
  App.generate_residential_index sample_state
    (request_of (Some "Home") ["OZONE"; "PTSDF"; "no_such_variable"])
  = App.generate_residential_index sample_state
      (request_of (Some "Home")
         (List.filter (usable_residential (App.available_geojson_columns sample_state))
            ["OZONE"; "PTSDF"; "no_such_variable"])).
Proof.
  apply (proj1 (unusable_residential_variables_are_ignored sample_state sample_local_state
                  sample_gdf (Some "Home") ["OZONE"; "PTSDF"; "no_such_variable"])).
  vm_compute. discriminate.
Defined.

(** ** The routes of [app_local.py] *)

Lemma local_frontend_columns_In (s : AppLocal.state) (g : GeoDataFrame) (c : string) :
  AppLocal.global_gdf s = Some g ->
  (In c (AppLocal.get_columns_for_frontend s)
   <-> In c (gdf_columns g)
       /\ (In c (AppLocal.verified_frontend_cols s)
           \/ c ∈ AppLocal.generated_index_columns s
           \/ In c ["Origin_tract"; "geometry"])).
Proof.
  intros Hg. unfold AppLocal.get_columns_for_frontend. rewrite Hg.
  assert (Hel : In c (elements (AppLocal.generated_index_columns s))
                <-> c ∈ AppLocal.generated_index_columns s).
  { rewrite <- list_elem_of_In. apply elem_of_elements. }
  rewrite sorted_set_In, filter_In, str_in_In, !in_app_iff, !filter_In, !str_in_In, Hel.
  tauto.
Qed.

(** X19. In app_local.py the column list sent to the front end contains exactly the columns
    of the Base Geo Table that are verified front-end columns, registered indices,
    Origin_tract or geometry; it has no duplicates and is sorted. *)
Theorem local_frontend_columns_membership
    (s : AppLocal.state) (g : GeoDataFrame) (c : string) :
  AppLocal.global_gdf s = Some g ->
  (In c (AppLocal.get_columns_for_frontend s)
   <-> In c (gdf_columns g)
       /\ (In c (AppLocal.verified_frontend_cols s)
           \/ c ∈ AppLocal.generated_index_columns s
           \/ In c ["Origin_tract"; "geometry"]))
  /\ List.NoDup (AppLocal.get_columns_for_frontend s)
  /\ ascending (AppLocal.get_columns_for_frontend s).
Proof.
  intros Hg. split; [now apply local_frontend_columns_In|].
  unfold AppLocal.get_columns_for_frontend. rewrite Hg.
  split; [apply sorted_set_NoDup | apply sorted_set_ascending].
Qed.

Lemma local_frontend_columns_membership_witness :
  In "geometry" (AppLocal.get_columns_for_frontend sample_local_state)
  /\ ~ In "OZONE_zscore_o" (AppLocal.get_columns_for_frontend sample_local_state).
Proof.
  pose proof (fun c => proj1 (local_frontend_columns_membership sample_local_state
                                sample_gdf c eq_refl)) as H.
  split.
  - apply H. simpl. tauto.
  - intros Hin. apply H in Hin as [_ [Hin | [Hin | Hin]]].
    + simpl in Hin. intuition discriminate.
    + simpl in Hin. now apply not_elem_of_empty in Hin.
    + simpl in Hin. intuition discriminate.
Defined.

Lemma local_send_updated_status (b : bool) (c m : string) (s : AppLocal.state) :
  status_of (AppLocal.send_updated b c m s) = 200%nat
  \/ status_of (AppLocal.send_updated b c m s) = 500%nat.
Proof.
  unfold AppLocal.send_updated. destruct (AppLocal.global_gdf s); [|now right].
  destruct (negb _); [now right|]. destruct (b && _); [now right | now left].
Qed.

Lemma local_send_updated_ok (b : bool) (c m : string) (s : AppLocal.state) :
  status_of (AppLocal.send_updated b c m s) = 200%nat ->
  exists doc g,
    AppLocal.send_updated b c m s = Json doc
    /\ AppLocal.global_gdf s = Some g
    /\ In "geometry" (gdf_columns doc)
    /\ gdf_columns doc = AppLocal.get_columns_for_frontend s
    /\ List.map g_tract (gdf_rows doc) = List.map g_tract (gdf_rows g).
Proof.
  unfold AppLocal.send_updated. destruct (AppLocal.global_gdf s) as [g|]; [|discriminate].
  destruct (str_in "geometry" (AppLocal.get_columns_for_frontend s)) eqn:E;
    [|discriminate].
  simpl negb. cbv iota. apply str_in_In in E.
  destruct (b && _); [discriminate|]. intros _.
  eexists _, g. split; [reflexivity|]. simpl. rewrite map_map. simpl. tauto.
Qed.

Lemma merge_checked_local_eq (c : string) (g : GeoDataFrame)
    (index_to_merge : list (string * cell)) :
  merge_checked_local c g index_to_merge = inl (merge_left c g index_to_merge).
Proof.
  unfold merge_checked_local.
  replace (str_in c (gdf_columns (merge_left c g index_to_merge))) with true; [reflexivity|].
  symmetry. simpl. apply str_in_app_last.
Qed.

Lemma local_merge_and_send_status (parse_number : string -> option Qc)
    (s : AppLocal.state) (gdf : GeoDataFrame) (c : string) (right : list (string * cell)) :
  status_of (fst (AppLocal.merge_and_send parse_number s gdf c right)) = 200%nat
  \/ status_of (fst (AppLocal.merge_and_send parse_number s gdf c right)) = 500%nat.
Proof.
  unfold AppLocal.merge_and_send. destruct (AppLocal.drop_existing c gdf s) as [gdf1 s1].
  destruct (negb _); [now right|]. rewrite merge_checked_local_eq. simpl.
  apply local_send_updated_status.
Qed.

(** X20. In app_local.py a generation request answered with status 400 leaves the whole
    server state unchanged. *)
Theorem local_client_errors_change_nothing
    (parse_number : string -> option Qc) (parquet_file : option (DataFrame raw_key))
    (s : AppLocal.state) (body : option request) :
  (status_of (fst (AppLocal.generate_index parse_number parquet_file s body)) = 400%nat ->
   snd (AppLocal.generate_index parse_number parquet_file s body) = s)
  /\ (status_of (fst (AppLocal.generate_residential_index s body)) = 400%nat ->
      snd (AppLocal.generate_residential_index s body) = s).
Proof.
  split.
  - unfold AppLocal.generate_index.
    destruct (AppLocal.global_gdf s) as [gdf|]; [|reflexivity].
    destruct (AppLocal.prepare_index _ _ body) as [e | [c right]]; [reflexivity|].
    destruct (local_merge_and_send_status parse_number s gdf c right) as [H | H];
      rewrite H; discriminate.
  - unfold AppLocal.generate_residential_index.
    destruct (AppLocal.global_gdf s) as [gdf|]; [|reflexivity].
    destruct (AppLocal.prepare_residential_index s gdf body) as [e | [[c cols] values]];
      [reflexivity|].
    unfold AppLocal.attach_and_send.
    destruct (AppLocal.drop_existing c gdf s) as [gdf1 s1]. simpl.
    destruct (local_send_updated_status true c "Failed to compute residential index"
                (AppLocal.register c (AppLocal.set_gdf (assign_column c values gdf1) s1)))
      as [H | H]; rewrite H; discriminate.
Qed.

Lemma local_client_errors_change_nothing_witness :
  snd (AppLocal.generate_index parse_decimal (Some duplicate_key_parquet)
         sample_local_state empty_variables_request)
  = sample_local_state.
Proof.
  apply (proj1 (local_client_errors_change_nothing parse_decimal (Some duplicate_key_parquet)
                  sample_local_state empty_variables_request)).
  vm_compute. reflexivity.
Defined.

(** *** The keys after an activity generation *)

Lemma local_conversion_canonical (parse_number : string -> option Qc)
    (col : list raw_key) (k : string) :
  In k (robust_tract_conversion_local parse_number col) -> canonical_key k.
Proof.
  unfold robust_tract_conversion_local, astype_str_strip. intros H.
  apply in_map_iff in H as [o [<- _]]. destruct o as [z|].
  - right. exists z. apply strip_pretty.
  - left. reflexivity.
Qed.

Lemma set_keys_In (keys : list string) (g : GeoDataFrame) (r : grow) :
  In r (gdf_rows (AppLocal.set_keys keys g)) -> In (g_tract r) keys.
Proof.
  simpl. intros H. apply in_map_iff in H as [[r0 k] [<- Hin]]. simpl.
  now apply in_combine_r in Hin.
Qed.

Lemma merge_left_keys (c : string) (g : GeoDataFrame) (right : list (string * cell))
    (r : grow) :
  In r (gdf_rows (merge_left c g right)) ->
  exists r0, In r0 (gdf_rows g) /\ g_tract r = g_tract r0.
Proof.
  simpl. intros H. apply in_flat_map in H as [r0 [Hr0 Hin]].
  apply merge_row_shape in Hin as [v ->]. exists r0. split; [exact Hr0 | reflexivity].
Qed.

Lemma prepare_index_name (parse_number : string -> option Qc)
    (parquet_file : option (DataFrame raw_key)) (body : option request)
    (c : string) (right : list (string * cell)) :
  AppLocal.prepare_index parse_number parquet_file body = inr (c, right) ->
  c = index_name_of body +:+ "_ACT".
Proof.
  unfold AppLocal.prepare_index.
  destruct (validate_inputs _ _ body) as [m | [cleaned vars]] eqn:Hv; [discriminate|].
  apply validate_inputs_name in Hv. subst cleaned.
  destruct (resolve_activity vars) as [[sel inv] cols].
  destruct sel as [|b sel]; [discriminate|].
  destruct (AppLocal.main_query _ _); [|discriminate].
  now intros [= <- _].
Qed.

Lemma prepare_residential_index_local_name (s : AppLocal.state) (gdf : GeoDataFrame)
    (body : option request) (c : string) (cols : list string) (values : list cell) :
  AppLocal.prepare_residential_index s gdf body = inr (c, cols, values) ->
  c = index_name_of body +:+ "_RES".
Proof.
  unfold AppLocal.prepare_residential_index.
  destruct (validate_inputs _ _ body) as [m | [cleaned vars]] eqn:Hv; [discriminate|].
  apply validate_inputs_name in Hv. subst cleaned.
  destruct (AppLocal.resolve_residential _ _ vars) as [req inv].
  destruct req as [|c0 req]; [discriminate|].
  now intros [= <- _ _].
Qed.

Lemma local_generate_index_ok (parse_number : string -> option Qc)
    (parquet_file : option (DataFrame raw_key)) (s : AppLocal.state)
    (body : option request) :
  status_of (fst (AppLocal.generate_index parse_number parquet_file s body)) = 200%nat ->
  exists gdf right,
    AppLocal.global_gdf s = Some gdf
    /\ AppLocal.generate_index parse_number parquet_file s body
       = AppLocal.merge_and_send parse_number s gdf (index_name_of body +:+ "_ACT") right.
Proof.
  unfold AppLocal.generate_index.
  destruct (AppLocal.global_gdf s) as [gdf|]; [|discriminate].
  destruct (AppLocal.prepare_index _ _ body) as [e | [c right]] eqn:Hp.
  - unfold AppLocal.prepare_index in Hp.
    destruct (validate_inputs _ _ body) as [m | [cleaned vars]];
      [injection Hp as <-; discriminate|].
    destruct (resolve_activity vars) as [[sel inv] cols].
    destruct sel as [|b sel]; [injection Hp as <-; discriminate|].
    destruct (AppLocal.main_query _ _); [discriminate | injection Hp as <-; discriminate].
  - intros _. apply prepare_index_name in Hp. subst c. eauto.
Qed.

Lemma local_merge_and_send_ok (parse_number : string -> option Qc)
    (s : AppLocal.state) (gdf : GeoDataFrame) (c : string) (right : list (string * cell)) :
  status_of (fst (AppLocal.merge_and_send parse_number s gdf c right)) = 200%nat ->
  exists gdf1 s1 keys,
    AppLocal.drop_existing c gdf s = (gdf1, s1)
    /\ keys = robust_tract_conversion_local parse_number
                (List.map (fun r => KStr (g_tract r)) (gdf_rows gdf1))
    /\ AppLocal.merge_and_send parse_number s gdf c right
       = (AppLocal.send_updated false c "Failed to compute activity index"
            (AppLocal.register c
               (AppLocal.set_gdf (merge_left c (AppLocal.set_keys keys gdf1) right)
                  (AppLocal.set_gdf (AppLocal.set_keys keys gdf1) s1))),
          AppLocal.register c
            (AppLocal.set_gdf (merge_left c (AppLocal.set_keys keys gdf1) right)
               (AppLocal.set_gdf (AppLocal.set_keys keys gdf1) s1))).
Proof.
  unfold AppLocal.merge_and_send. destruct (AppLocal.drop_existing c gdf s) as [gdf1 s1].
  destruct (negb _); [discriminate|]. rewrite merge_checked_local_eq. intros _.
  eexists gdf1, s1, _. repeat split.
Qed.

(** X21. After an activity generation of app_local.py answered with status 200, every key of
    the stored Base Geo Table is the decimal text of an integer or <NA>: the route rewrites
    the Origin_tract column of the table with the converted keys. *)
Theorem local_generation_rewrites_keys
    (parse_number : string -> option Qc) (parquet_file : option (DataFrame raw_key))
    (s : AppLocal.state) (body : option request) :
  status_of (fst (AppLocal.generate_index parse_number parquet_file s body)) = 200%nat ->
  exists g',
    AppLocal.global_gdf (snd (AppLocal.generate_index parse_number parquet_file s body))
    = Some g'
    /\ forall r, In r (gdf_rows g') -> canonical_key (g_tract r).
Proof.
  intros H200.
  destruct (local_generate_index_ok _ _ _ _ H200) as (gdf & right & Hg & Heq).
  rewrite Heq in H200 |- *.
  destruct (local_merge_and_send_ok _ _ _ _ _ H200) as (gdf1 & s1 & keys & _ & Hk & ->).
  simpl. eexists. split; [reflexivity|]. intros r Hr.
  apply merge_left_keys in Hr as [r0 [Hr0 ->]].
  apply set_keys_In in Hr0. subst keys. now apply local_conversion_canonical in Hr0.
Qed.

Lemma local_generation_rewrites_keys_witness :
  exists g',
    AppLocal.global_gdf (snd (local_generate sample_local_state sample_request)) = Some g'
    /\ forall r, In r (gdf_rows g') -> canonical_key (g_tract r).
Proof.
  apply (local_generation_rewrites_keys parse_decimal (Some duplicate_key_parquet)
           sample_local_state sample_request).
  vm_compute. reflexivity.
Defined.

Lemma local_drop_existing_gdf (c : string) (gdf : GeoDataFrame) (s : AppLocal.state) :
  AppLocal.global_gdf s = Some gdf ->
  AppLocal.global_gdf (snd (AppLocal.drop_existing c gdf s))
  = Some (fst (AppLocal.drop_existing c gdf s)).
Proof.
  intros Hg. unfold AppLocal.drop_existing.
  now destruct (str_in c (gdf_columns gdf)).
Qed.

(** X22. In app_local.py a generation request answered with status 200 returns a document
    that contains the new index column and the geometry column and has the keys of the
    stored table in order, and the new column is registered. *)
Theorem local_successful_response_shows_new_column
    (parse_number : string -> option Qc) (parquet_file : option (DataFrame raw_key))
    (s : AppLocal.state) (body : option request) :
  (status_of (fst (AppLocal.generate_index parse_number parquet_file s body)) = 200%nat ->
   exists doc g',
     fst (AppLocal.generate_index parse_number parquet_file s body) = Json doc
     /\ AppLocal.global_gdf (snd (AppLocal.generate_index parse_number parquet_file s body))
        = Some g'
     /\ In (index_name_of body +:+ "_ACT") (gdf_columns doc)
     /\ In "geometry" (gdf_columns doc)
     /\ index_name_of body +:+ "_ACT"
        ∈ AppLocal.generated_index_columns
            (snd (AppLocal.generate_index parse_number parquet_file s body))
     /\ List.map g_tract (gdf_rows doc) = List.map g_tract (gdf_rows g'))
  /\ (status_of (fst (AppLocal.generate_residential_index s body)) = 200%nat ->
      exists doc g',
        fst (AppLocal.generate_residential_index s body) = Json doc
        /\ AppLocal.global_gdf (snd (AppLocal.generate_residential_index s body)) = Some g'
        /\ In (index_name_of body +:+ "_RES") (gdf_columns doc)
        /\ In "geometry" (gdf_columns doc)
        /\ index_name_of body +:+ "_RES"
           ∈ AppLocal.generated_index_columns (snd (AppLocal.generate_residential_index s body))
        /\ List.map g_tract (gdf_rows doc) = List.map g_tract (gdf_rows g')).
Proof.
  split.
  - intros H200.
    destruct (local_generate_index_ok _ _ _ _ H200) as (gdf & right & Hg & Heq).
    rewrite Heq in H200 |- *.
    destruct (local_merge_and_send_ok _ _ _ _ _ H200) as (gdf1 & s1 & keys & _ & _ & Hm).
    rewrite Hm in H200 |- *. simpl in H200 |- *.
    destruct (local_send_updated_ok _ _ _ _ H200)
      as (doc & g' & Hsend & Hg' & Hgeo & Hcols & Hrows).
    rewrite Hsend. exists doc, g'. repeat split; try assumption.
    + rewrite Hcols. apply (local_frontend_columns_In _ g' _ Hg').
      simpl in Hg'. injection Hg' as <-. split.
      * simpl. apply in_or_app. right. now left.
      * right. left. simpl. apply elem_of_union_l, elem_of_singleton. reflexivity.
    + apply elem_of_union_l, elem_of_singleton. reflexivity.
  - unfold AppLocal.generate_residential_index.
    destruct (AppLocal.global_gdf s) as [gdf|] eqn:Hg; [|discriminate].
    destruct (AppLocal.prepare_residential_index s gdf body) as [e | [[c cols] values]] eqn:Hp.
    + unfold AppLocal.prepare_residential_index in Hp.
      destruct (validate_inputs _ _ body) as [m | [cleaned vars]];
        [injection Hp as <-; discriminate|].
      destruct (AppLocal.resolve_residential _ _ vars) as [req inv].
      destruct req as [|c0 req]; [injection Hp as <-; discriminate | discriminate].
    + apply prepare_residential_index_local_name in Hp. subst c.
      unfold AppLocal.attach_and_send.
      destruct (AppLocal.drop_existing _ gdf s) as [gdf1 s1]. simpl. intros H200.
      destruct (local_send_updated_ok _ _ _ _ H200)
        as (doc & g' & Hsend & Hg' & Hgeo & Hcols & Hrows).
      rewrite Hsend. exists doc, g'. repeat split; try assumption.
      * rewrite Hcols. apply (local_frontend_columns_In _ g' _ Hg').
        simpl in Hg'. injection Hg' as <-. split.
        -- simpl. apply in_or_app. right. now left.
        -- right. left. simpl. apply elem_of_union_l, elem_of_singleton. reflexivity.
      * apply elem_of_union_l, elem_of_singleton. reflexivity.
Qed.

Lemma local_successful_response_shows_new_column_witness :
  exists doc g',
    fst (AppLocal.generate_residential_index sample_local_state sample_residential_request)
    = Json doc
    /\ AppLocal.global_gdf
         (snd (AppLocal.generate_residential_index sample_local_state
                 sample_residential_request)) = Some g'
    /\ In (index_name_of sample_residential_request +:+ "_RES") (gdf_columns doc)
    /\ In "geometry" (gdf_columns doc)
    /\ index_name_of sample_residential_request +:+ "_RES"
       ∈ AppLocal.generated_index_columns
           (snd (AppLocal.generate_residential_index sample_local_state
                   sample_residential_request))
    /\ List.map g_tract (gdf_rows doc) = List.map g_tract (gdf_rows g').
Proof.
  apply (proj2 (local_successful_response_shows_new_column parse_decimal None
                  sample_local_state sample_residential_request)).
  vm_compute. reflexivity.
Defined.

(** ** Login *)

Lemma truthy_Some (o : option string) :
  truthy o = true <-> exists e, o = Some e /\ e <> "".
Proof.
  destruct o as [e|]; simpl.
  - rewrite negb_true_iff, String.eqb_neq. split; [eauto|]. now intros [e' [[= <-] H]].
  - split; [discriminate | now intros [e [? _]]].
Qed.

Lemma login_cases (CORRECT_PASSCODE : option string) (method : string)
    (form_passcode args_next : option string) (sess : Auth.session) :
  (method = "POST" /\ (exists e, form_passcode = Some e /\ e <> "" /\ CORRECT_PASSCODE = Some e)
   /\ Auth.login CORRECT_PASSCODE method form_passcode args_next sess
      = (Auth.Redirect (if truthy args_next then Auth.Url (default "" args_next)
                        else Auth.UrlForIndex),
         Auth.flash "You were successfully logged in!" "success"
           {| Auth.logged_in := Some true; Auth.permanent := true;
              Auth.flashes := Auth.flashes sess |}))
  \/ (~ (method = "POST"
         /\ exists e, form_passcode = Some e /\ e <> "" /\ CORRECT_PASSCODE = Some e)
      /\ fst (Auth.login CORRECT_PASSCODE method form_passcode args_next sess)
         = Auth.RenderTemplate "login.html"
      /\ Auth.logged_in (snd (Auth.login CORRECT_PASSCODE method form_passcode args_next sess))
         = Auth.logged_in sess
      /\ Auth.permanent (snd (Auth.login CORRECT_PASSCODE method form_passcode args_next sess))
         = Auth.permanent sess).
Proof.
  unfold Auth.login. destruct (String.eqb method "POST") eqn:Em.
  - apply String.eqb_eq in Em.
    destruct (truthy form_passcode) eqn:Et; simpl.
    + apply truthy_Some in Et as [e [-> He]].
      destruct (bool_decide (Some e = CORRECT_PASSCODE)) eqn:Ed.
      * apply bool_decide_eq_true in Ed. left. split; [exact Em|]. split; [|reflexivity].
        exists e. auto.
      * apply bool_decide_eq_false in Ed. right. simpl. repeat split.
        intros [_ [e' [[= <-] [_ H]]]]. congruence.
    + right. repeat split. intros [_ [e [-> [He _]]]].
      simpl in Et. apply negb_false_iff, String.eqb_eq in Et. contradiction.
  - apply String.eqb_neq in Em. right. repeat split. now intros [? _].
Qed.

(** X23. The login view redirects exactly when the request is a POST whose passcode is
    non-empty and equals the configured passcode; then the session is marked logged in. In
    every other case it renders the login page and leaves the logged-in entry of the session
    as it was. *)
Theorem login_succeeds_iff_passcode_matches
    (CORRECT_PASSCODE : option string) (method : string)
    (form_passcode args_next : option string) (sess : Auth.session) :
  ((exists target,
      fst (Auth.login CORRECT_PASSCODE method form_passcode args_next sess)
      = Auth.Redirect target)
   <-> method = "POST"
       /\ exists e, form_passcode = Some e /\ e <> "" /\ CORRECT_PASSCODE = Some e)
  /\ ((exists target,
         fst (Auth.login CORRECT_PASSCODE method form_passcode args_next sess)
         = Auth.Redirect target) ->
      Auth.logged_in (snd (Auth.login CORRECT_PASSCODE method form_passcode args_next sess))
      = Some true)
  /\ ((forall target,
         fst (Auth.login CORRECT_PASSCODE method form_passcode args_next sess)
         <> Auth.Redirect target) ->
      fst (Auth.login CORRECT_PASSCODE method form_passcode args_next sess)
      = Auth.RenderTemplate "login.html"
      /\ Auth.logged_in (snd (Auth.login CORRECT_PASSCODE method form_passcode args_next sess))
         = Auth.logged_in sess).
Proof.
  destruct (login_cases CORRECT_PASSCODE method form_passcode args_next sess)
    as [(Hm & He & ->) | (Hn & Hp & Hl & _)].
  - simpl. split; [split; [tauto | eauto]|]. split; [reflexivity|].
    intros H. now destruct (H _ eq_refl).
  - rewrite Hp, Hl. split; [|split].
    + split; [intros [t Ht]; discriminate | tauto].
    + intros [t Ht]. discriminate.
    + tauto.
Qed.

Lemma login_succeeds_iff_passcode_matches_witness :
  Auth.logged_in
    (snd (Auth.login (Some "secret") "POST" (Some "secret") None logged_out_session))
  = Some true.
Proof.
  apply (proj1 (proj2 (login_succeeds_iff_passcode_matches (Some "secret") "POST"
                         (Some "secret") None logged_out_session))).
  eexists. reflexivity.
Defined.

(** X24. When APP_PASSCODE is unset or empty no request can log in: the login view renders
    the login page and does not change the logged-in entry, whatever passcode is sent. *)
Theorem unset_passcode_admits_nobody
    (CORRECT_PASSCODE : option string) (method : string)
    (form_passcode args_next : option string) (sess : Auth.session) :
  truthy CORRECT_PASSCODE = false ->
  fst (Auth.login CORRECT_PASSCODE method form_passcode args_next sess)
  = Auth.RenderTemplate "login.html"
  /\ Auth.logged_in (snd (Auth.login CORRECT_PASSCODE method form_passcode args_next sess))
     = Auth.logged_in sess.
Proof.
  intros Hc.
  destruct (login_cases CORRECT_PASSCODE method form_passcode args_next sess)
    as [(_ & (e & _ & He & ->) & _) | (_ & Hp & Hl & _)]; [|tauto].
  simpl in Hc. apply negb_false_iff, String.eqb_eq in Hc. contradiction.
Qed.

Lemma unset_passcode_admits_nobody_witness :
  fst (Auth.login None "POST" None None logged_out_session)
  = Auth.RenderTemplate "login.html"
  /\ Auth.logged_in (snd (Auth.login None "POST" None None logged_out_session))
     = Auth.logged_in logged_out_session.
Proof.
  apply (unset_passcode_admits_nobody None "POST" None None logged_out_session).
  reflexivity.
Defined.

(** X25. A protected view redirects to the login page after a logout, runs after a
    successful login, and after a failed login runs only if the session was logged in
    before. *)
Theorem access_follows_the_session {A : Type} (f : Auth.session -> A * Auth.session)
    (request_url : string) (CORRECT_PASSCODE : option string) (method : string)
    (form_passcode args_next : option string) (sess : Auth.session) :
  fst (Auth.login_required f request_url (snd (Auth.logout sess)))
  = inl (Auth.Redirect (Auth.UrlForLogin (Some request_url)))
  /\ ((exists target,
         fst (Auth.login CORRECT_PASSCODE method form_passcode args_next sess)
         = Auth.Redirect target) ->
      fst (Auth.login_required f request_url
             (snd (Auth.login CORRECT_PASSCODE method form_passcode args_next sess)))
      = inr (fst (f (snd (Auth.login CORRECT_PASSCODE method form_passcode args_next sess)))))
  /\ (fst (Auth.login CORRECT_PASSCODE method form_passcode args_next sess)
      = Auth.RenderTemplate "login.html" ->
      forall a, fst (Auth.login_required f request_url
                       (snd (Auth.login CORRECT_PASSCODE method form_passcode args_next sess)))
                = inr a ->
                Auth.logged_in sess <> None).
Proof.
  split; [reflexivity|].
  destruct (login_cases CORRECT_PASSCODE method form_passcode args_next sess)
    as [(Hm & He & ->) | (Hn & Hp & Hl & _)].
  - split.
    + intros _. unfold Auth.login_required. simpl Auth.logged_in. cbv iota.
      now destruct (f _).
    + discriminate.
  - split.
    + rewrite Hp. intros [t Ht]. discriminate.
    + intros _ a. unfold Auth.login_required. rewrite Hl.
      destruct (Auth.logged_in sess); [discriminate|]. discriminate.
Qed.

Lemma access_follows_the_session_witness :
  fst (Auth.login_required (Auth.index sample_state) "/"
         (snd (Auth.login (Some "secret") "POST" (Some "secret") None logged_out_session)))
  = inr (fst (Auth.index sample_state
                (snd (Auth.login (Some "secret") "POST" (Some "secret") None
                        logged_out_session)))).
Proof.
  apply (proj1 (proj2 (access_follows_the_session (Auth.index sample_state) "/"
                         (Some "secret") "POST" (Some "secret") None logged_out_session))).
  eexists. reflexivity.
Defined.

(** ** Loading the Visitation Table *)

Lemma map_snd_combine_eq {A B : Type} (l : list A) (keys : list B) :
  length keys = length l -> List.map snd (combine l keys) = keys.
Proof.
  revert keys. induction l as [|x l IH]; intros [|k keys]; simpl; try discriminate;
    [reflexivity|]. intros [= H]. now rewrite IH.
Qed.

Lemma map_fst_combine_eq {A B : Type} (l : list A) (keys : list B) :
  length keys = length l -> List.map fst (combine l keys) = l.
Proof.
  revert keys. induction l as [|x l IH]; intros [|k keys]; simpl; try discriminate;
    [reflexivity|]. intros [= H]. now rewrite IH.
Qed.

Lemma with_keys_rows (keys : list string) (df : DataFrame raw_key) :
  length keys = length (df_rows df) ->
  List.map v_tract (df_rows (with_keys keys df)) = keys
  /\ List.map v_cells (df_rows (with_keys keys df)) = List.map v_cells (df_rows df).
Proof.
  intros Hlen. simpl. rewrite !map_map. simpl. split.
  - now apply map_snd_combine_eq.
  - rewrite <- (map_map fst v_cells). now rewrite map_fst_combine_eq.
Qed.

Lemma load_parquet_from_b2_cases (parse_number : string -> option Qc)
    (s3_client : bool) (B2_BUCKET_NAME : option string)
    (parquet_table : option (DataFrame raw_key)) (s : App.state) :
  (exists df,
     s3_client = true /\ truthy B2_BUCKET_NAME = true /\ parquet_table = Some df
     /\ In "Origin_tract" (df_columns df)
     /\ (forall k, In k (List.map v_tract (df_rows df)) -> ~ fractional_key parse_number k)
     /\ load_parquet_from_b2 parse_number s3_client B2_BUCKET_NAME parquet_table s
        = (true,
           set_parquet
             (Some (with_keys (List.map (normalize_key parse_number)
                                 (List.map v_tract (df_rows df))) df)) s))
  \/ ((s3_client = false \/ truthy B2_BUCKET_NAME = false \/ parquet_table = None
       \/ exists df, parquet_table = Some df
                     /\ (~ In "Origin_tract" (df_columns df)
                         \/ exists k, In k (List.map v_tract (df_rows df))
                                      /\ fractional_key parse_number k))
      /\ exists pq, (pq = None \/ pq = App.parquet_df s)
                    /\ load_parquet_from_b2 parse_number s3_client B2_BUCKET_NAME
                         parquet_table s
                       = (false, set_parquet pq s)).
Proof.
  assert (Hs : set_parquet (App.parquet_df s) s = s) by now destruct s.
  unfold load_parquet_from_b2.
  destruct s3_client; simpl;
    [|right; split; [tauto | exists (App.parquet_df s); rewrite Hs; tauto]].
  destruct (truthy B2_BUCKET_NAME); simpl;
    [|right; split; [tauto | exists (App.parquet_df s); rewrite Hs; tauto]].
  destruct parquet_table as [df|];
    [|right; split; [tauto | exists None; tauto]].
  destruct (str_in "Origin_tract" (df_columns df)) eqn:Ec.
  - apply str_in_In in Ec.
    destruct (robust_tract_conversion parse_number (List.map v_tract (df_rows df)))
      as [keys|] eqn:Ek.
    + left. exists df. repeat split; try assumption.
      * intros k Hk Hf.
        assert (Hnone : robust_tract_conversion parse_number
                          (List.map v_tract (df_rows df)) = None).
        { apply astype_Int64_numeric_fails. now exists k. }
        congruence.
      * apply robust_tract_conversion_keys in Ek. now subst keys.
    + right. split.
      * do 3 right. exists df. split; [reflexivity|]. right.
        now apply astype_Int64_numeric_fails.
      * exists (App.parquet_df s). rewrite Hs. tauto.
  - apply str_in_false in Ec. right. split.
    + do 3 right. exists df. tauto.
    + exists (App.parquet_df s). rewrite Hs. tauto.
Qed.

(** X26. When load_parquet_from_b2 returns True, the stored Visitation Table has the columns
    and cells of the file, its keys are the normalized keys of the file in order, the Base
    Geo Table is untouched, and (for a parser that reads integers back) every stored key is
    a fixed point of the normalizer. *)
Theorem loaded_parquet_keys_are_normalized (parse_number : string -> option Qc)
    (s3_client : bool) (B2_BUCKET_NAME : option string)
    (parquet_table : option (DataFrame raw_key)) (s : App.state) :
  fst (load_parquet_from_b2 parse_number s3_client B2_BUCKET_NAME parquet_table s) = true ->
  exists df pq,
    parquet_table = Some df
    /\ App.parquet_df (snd (load_parquet_from_b2 parse_number s3_client B2_BUCKET_NAME
                              parquet_table s)) = Some pq
    /\ App.global_gdf (snd (load_parquet_from_b2 parse_number s3_client B2_BUCKET_NAME
                              parquet_table s)) = App.global_gdf s
    /\ df_columns pq = df_columns df
    /\ List.map v_tract (df_rows pq)
       = List.map (normalize_key parse_number) (List.map v_tract (df_rows df))
    /\ List.map v_cells (df_rows pq) = List.map v_cells (df_rows df)
    /\ (reads_integers parse_number -> keys_normalized parse_number pq).
Proof.
  destruct (load_parquet_from_b2_cases parse_number s3_client B2_BUCKET_NAME
              parquet_table s)
    as [(df & _ & _ & -> & _ & _ & ->) | (_ & pq & _ & ->)]; [|discriminate].
  intros _. simpl fst. simpl snd.
  destruct (with_keys_rows (List.map (normalize_key parse_number)
                              (List.map v_tract (df_rows df))) df) as [Hk Hc].
  { now rewrite !length_map. }
  eexists df, _. repeat split; try eassumption; try reflexivity.
  intros Hread r Hr.
  assert (Hin : In (v_tract r) (List.map (normalize_key parse_number)
                                  (List.map v_tract (df_rows df)))).
  { rewrite <- Hk. now apply in_map. }
  apply in_map_iff in Hin as [k [<- _]]. now apply normalize_key_fixed.
Qed.

Lemma loaded_parquet_keys_are_normalized_witness :
  exists pq,
    App.parquet_df (snd (load_parquet_from_b2 parse_decimal true (Some "bucket")
                           (Some sample_parquet_file) unloaded_state)) = Some pq
    /\ List.map v_tract (df_rows pq) = ["1"; "2"; "3"]
    /\ keys_normalized parse_decimal pq.
Proof.
  destruct (loaded_parquet_keys_are_normalized parse_decimal true (Some "bucket")
              (Some sample_parquet_file) unloaded_state eq_refl)
    as (df & pq & Hdf & Hpq & _ & _ & Hk & _ & Hn).
  exists pq. injection Hdf as <-. split; [exact Hpq|]. split.
  - rewrite Hk. reflexivity.
  - apply Hn, parse_decimal_reads_integers.
Defined.



(** ** The list of available columns *)

Lemma list_remove_filter (c : string) (l : list string) :
  List.NoDup l ->
  list_remove c l = List.filter (fun k => negb (String.eqb c k)) l.
Proof.
  induction 1 as [|x l Hx Hnd IH]; [reflexivity|]. simpl.
  destruct (String.eqb c x) eqn:E; simpl.
  - apply String.eqb_eq in E. subst x. symmetry. apply filter_all.
    intros k Hk. apply negb_true_iff, String.eqb_neq. congruence.
  - now rewrite IH.
Qed.

Lemma NoDup_filter_list {A : Type} (f : A -> bool) (l : list A) :
  List.NoDup l -> List.NoDup (List.filter f l).
Proof.
  induction 1 as [|x l Hx Hnd IH]; simpl; [constructor|].
  destruct (f x); [|exact IH]. constructor; [|exact IH].
  intros Hin. apply filter_In in Hin. tauto.
Qed.

Lemma NoDup_app_last (c : string) (l : list string) :
  List.NoDup l -> ~ In c l -> List.NoDup (l ++ [c]).
Proof.
  induction 1 as [|x l Hx Hnd IH]; simpl; intros Hc.
  - constructor; [tauto | constructor].
  - constructor.
    + rewrite in_app_iff. simpl. intros [H | [H | []]]; [tauto | subst; tauto].
    + apply IH. tauto.
Qed.

Lemma dropped_columns (c : string) (cols : list string) :
  List.NoDup cols ->
  (if str_in c cols then list_remove c cols else cols)
  = List.filter (fun k => negb (String.eqb c k)) cols
  /\ List.NoDup (List.filter (fun k => negb (String.eqb c k)) cols)
  /\ ~ In c (List.filter (fun k => negb (String.eqb c k)) cols).
Proof.
  intros Hnd. split; [|split].
  - destruct (str_in c cols) eqn:E; [now apply list_remove_filter|].
    apply str_in_false in E. symmetry. apply filter_all.
    intros k Hk. apply negb_true_iff, String.eqb_neq. congruence.
  - now apply NoDup_filter_list.
  - intros Hin. apply filter_In in Hin as [_ H].
    now rewrite String.eqb_refl in H.
Qed.

Lemma drop_existing_sync (c : string) (gdf : GeoDataFrame) (s : App.state) :
  App.global_gdf s = Some gdf ->
  columns_in_sync s ->
  App.available_geojson_columns (snd (App.drop_existing c gdf s))
  = gdf_columns (fst (App.drop_existing c gdf s))
  /\ List.NoDup (gdf_columns (fst (App.drop_existing c gdf s)))
  /\ ~ In c (gdf_columns (fst (App.drop_existing c gdf s))).
Proof.
  intros Hg Hs. destruct (Hs gdf Hg) as [Ha Hnd].
  destruct (dropped_columns c (gdf_columns gdf) Hnd) as (H1 & H2 & H3).
  unfold App.drop_existing. destruct (str_in c (gdf_columns gdf)) eqn:E; simpl.
  - rewrite Ha, E in *. tauto.
  - apply str_in_false in E. tauto.
Qed.

Lemma register_sync (c : string) (g' : GeoDataFrame) (s1 : App.state) (cols : list string) :
  App.available_geojson_columns s1 = cols ->
  List.NoDup cols -> ~ In c cols ->
  gdf_columns g' = cols ++ [c] ->
  columns_in_sync (App.register c (App.set_gdf g' s1)).
Proof.
  intros Ha Hnd Hc Hcols g Hg. simpl in Hg. injection Hg as <-. simpl.
  rewrite Ha, Hcols. apply str_in_false in Hc. rewrite Hc.
  split; [reflexivity|]. apply NoDup_app_last; [exact Hnd | now apply str_in_false].
Qed.

(** X28. In app.py, if the list available_geojson_columns equals the column list of the Base
    Geo Table and the columns are pairwise distinct, this still holds after any activity or
    residential generation request, so the column check of the residential resolver reads
    the real columns. *)
Theorem available_columns_stay_in_sync
    (parse_number : string -> option Qc) (s : App.state) (body : option request) :
  columns_in_sync s ->
  columns_in_sync (snd (App.generate_activity_index parse_number s body))
  /\ columns_in_sync (snd (App.generate_residential_index s body)).
Proof.
  intros Hs. split.
  - destruct (generate_activity_index_cases parse_number s body)
      as [-> | (gdf & pq & right & Hg & Hp & Hprep & ->)]; [exact Hs|].
    rewrite merge_and_send_state.
    destruct (drop_existing_sync (index_name_of body +:+ "_ACT") gdf s Hg Hs)
      as (H1 & H2 & H3).
    now apply (register_sync _ _ _ _ H1 H2 H3).
  - destruct (App.global_gdf s) as [gdf|] eqn:Hg.
    + destruct (generate_residential_index_cases s gdf body Hg)
        as [(e & He & ->) | (cols & Hprep & ->)]; [exact Hs|].
      rewrite attach_and_send_state.
      destruct (drop_existing_sync (index_name_of body +:+ "_RES") gdf s Hg Hs)
        as (H1 & H2 & H3).
      now apply (register_sync _ _ _ _ H1 H2 H3).
    + unfold App.generate_residential_index. rewrite Hg. exact Hs.
Qed.

Lemma sample_columns_in_sync : columns_in_sync sample_state.
Proof.
  intros g [= <-]. split; [reflexivity|].
  simpl. repeat (constructor; [simpl; intuition discriminate|]). constructor.
Qed.

Lemma available_columns_stay_in_sync_witness :
  columns_in_sync
    (snd (App.generate_activity_index parse_decimal sample_state sample_request)).
Proof.
  apply (available_columns_stay_in_sync parse_decimal sample_state sample_request).
  exact sample_columns_in_sync.
Defined.

(** *** The local variant *)

Lemma local_drop_existing_sync (c : string) (gdf : GeoDataFrame) (s : AppLocal.state) :
  AppLocal.global_gdf s = Some gdf ->
  local_columns_in_sync s ->
  AppLocal.available_geojson_columns (snd (AppLocal.drop_existing c gdf s))
  = gdf_columns (fst (AppLocal.drop_existing c gdf s))
  /\ List.NoDup (gdf_columns (fst (AppLocal.drop_existing c gdf s)))
  /\ ~ In c (gdf_columns (fst (AppLocal.drop_existing c gdf s)))
  /\ AppLocal.global_gdf (snd (AppLocal.drop_existing c gdf s))
     = Some (fst (AppLocal.drop_existing c gdf s)).
Proof.
  intros Hg Hs. destruct (Hs gdf Hg) as [Ha Hnd].
  destruct (dropped_columns c (gdf_columns gdf) Hnd) as (H1 & H2 & H3).
  unfold AppLocal.drop_existing. destruct (str_in c (gdf_columns gdf)) eqn:E; simpl.
  - unfold AppLocal.remove_if_in. rewrite Ha, E in *. tauto.
  - apply str_in_false in E. tauto.
Qed.

Lemma local_register_sync (c : string) (g' : GeoDataFrame) (s1 : AppLocal.state)
    (cols : list string) :
  AppLocal.available_geojson_columns s1 = cols ->
  List.NoDup cols -> ~ In c cols ->
  gdf_columns g' = cols ++ [c] ->
  local_columns_in_sync (AppLocal.register c (AppLocal.set_gdf g' s1)).
Proof.
  intros Ha Hnd Hc Hcols g Hg. simpl in Hg. injection Hg as <-. simpl.
  rewrite Ha, Hcols. apply str_in_false in Hc. rewrite Hc.
  split; [reflexivity|]. apply NoDup_app_last; [exact Hnd | now apply str_in_false].
Qed.

(** X29. In app_local.py, if the list available_geojson_columns equals the column list of
    the Base Geo Table and the columns are pairwise distinct, this still holds after any
    activity or residential generation request, also when the request fails. *)
Theorem local_available_columns_stay_in_sync
    (parse_number : string -> option Qc) (parquet_file : option (DataFrame raw_key))
    (s : AppLocal.state) (body : option request) :
  local_columns_in_sync s ->
  local_columns_in_sync (snd (AppLocal.generate_index parse_number parquet_file s body))
  /\ local_columns_in_sync (snd (AppLocal.generate_residential_index s body)).
Proof.
  intros Hs. split.
  - unfold AppLocal.generate_index.
    destruct (AppLocal.global_gdf s) as [gdf|] eqn:Hg; [|exact Hs].
    destruct (AppLocal.prepare_index _ _ body) as [e | [c right]]; [exact Hs|].
    destruct (local_drop_existing_sync c gdf s Hg Hs) as (H1 & H2 & H3 & H4).
    unfold AppLocal.merge_and_send.
    destruct (AppLocal.drop_existing c gdf s) as [gdf1 s1]. simpl in H1, H2, H3, H4.
    destruct (negb _).
    + simpl. intros g Hg1. rewrite H4 in Hg1. injection Hg1 as <-. tauto.
    + rewrite merge_checked_local_eq. simpl.
      now apply (local_register_sync c _ _ (gdf_columns gdf1)).
  - unfold AppLocal.generate_residential_index.
    destruct (AppLocal.global_gdf s) as [gdf|] eqn:Hg; [|exact Hs].
    destruct (AppLocal.prepare_residential_index s gdf body) as [e | [[c cols] values]];
      [exact Hs|].
    destruct (local_drop_existing_sync c gdf s Hg Hs) as (H1 & H2 & H3 & H4).
    unfold AppLocal.attach_and_send.
    destruct (AppLocal.drop_existing c gdf s) as [gdf1 s1]. simpl in H1, H2, H3, H4.
    simpl. now apply (local_register_sync c _ _ (gdf_columns gdf1)).
Qed.

Lemma sample_local_columns_in_sync : local_columns_in_sync sample_local_state.
Proof.
  intros g [= <-]. split; [reflexivity|].
  simpl. repeat (constructor; [simpl; intuition discriminate|]). constructor.
Qed.

Lemma local_available_columns_stay_in_sync_witness :
  local_columns_in_sync (snd (local_generate sample_local_state sample_request)).
Proof.
  apply (local_available_columns_stay_in_sync parse_decimal (Some duplicate_key_parquet)
           sample_local_state sample_request).
  exact sample_local_columns_in_sync.
Defined.
